(** * whatsapp-orders-bot: the conversation engine and its gateways

    A shallow embedding of the extended variant of the bot (the Express
    application with the states MAIN_MENU ... PAYMENT_CONFIRMATION, the
    MercadoPago branch and the admin status endpoint), followed by the
    properties of the written specification that concern it.

    Layout
    - [JS]         the string and number built-ins the handlers call
    - [Bot]        data model; the two in-memory maps, the spreadsheet, the
                   clock and the message channel as one [World]; the
                   functions of the source in a small state-and-exception
                   monad; then the vocabulary the properties are stated in
    - [Scenario]   a catalog, a customer and a conversation
    - [Properties] lemmas on the gateways, the cart loop, the dispatch and
                   the cart invariant, and the general theorems
    - [Runs]       the theorems at the conversation of [Scenario], and the
                   inputs on which a sentence of the specification and the
                   code part ways. *)

From Stdlib Require Import ZArith DecimalString String Ascii Lia.
From stdpp Require Import gmap strings list fin_maps.

(* ===================================================================== *)
(** ** JavaScript built-ins used by the source *)
(* ===================================================================== *)

Module JS.

(** The line feed written [\n] in the source's string literals. *)
Definition LF : string := String "010" EmptyString.

(** Strings are byte strings, the UTF-8 encoding of the JavaScript string:
    an ASCII character is one byte below 128; any other character is a lead
    byte from 194 on followed by one to three bytes between 128 and 191. *)

(** White space is what [\s], [trim] and [parseInt] take for it: the code
    points U+0009 to U+000D, U+0020, U+00A0, U+1680, U+2000 to U+200A,
    U+2028, U+2029, U+202F, U+205F, U+3000 and U+FEFF. The first six are
    ASCII ([is_space]); U+00A0 is two bytes ([is_space2]); the others are
    three bytes ([is_space3]). *)
Definition is_space (c : ascii) : bool :=
  let n := nat_of_ascii c in
  (n =? 32) || ((9 <=? n) && (n <=? 13)).

Definition is_space2 (c1 c2 : ascii) : bool :=
  (nat_of_ascii c1 =? 194) && (nat_of_ascii c2 =? 160).

Definition is_space3 (c1 c2 c3 : ascii) : bool :=
  let n1 := nat_of_ascii c1 in
  let n2 := nat_of_ascii c2 in
  let n3 := nat_of_ascii c3 in
  ((n1 =? 225) && (n2 =? 154) && (n3 =? 128))
  || ((n1 =? 226) && (n2 =? 128)
      && (((128 <=? n3) && (n3 <=? 138)) || (n3 =? 168) || (n3 =? 169) || (n3 =? 175)))
  || ((n1 =? 226) && (n2 =? 129) && (n3 =? 159))
  || ((n1 =? 227) && (n2 =? 128) && (n3 =? 128))
  || ((n1 =? 239) && (n2 =? 187) && (n3 =? 191)).

Definition is_digit (c : ascii) : bool :=
  let n := nat_of_ascii c in (48 <=? n) && (n <=? 57).

(** A string cut into units, from the left: a white-space character of two
    or three bytes is one unit, any other byte is a unit of its own. No
    white-space character starts with a byte that can follow a lead byte,
    so the cut never falls inside a character. *)
Fixpoint units (s : string) : list string :=
  match s with
  | EmptyString => []
  | String c1 s1 =>
      match s1 with
      | EmptyString => [String c1 EmptyString]
      | String c2 s2 =>
          if is_space2 c1 c2 then String c1 (String c2 EmptyString) :: units s2
          else
            match s2 with
            | EmptyString => String c1 EmptyString :: units s1
            | String c3 s3 =>
                if is_space3 c1 c2 c3
                then String c1 (String c2 (String c3 EmptyString)) :: units s3
                else String c1 EmptyString :: units s1
            end
      end
  end.

Definition space_unit (u : string) : bool :=
  match u with
  | String c EmptyString => is_space c
  | String c1 (String c2 EmptyString) => is_space2 c1 c2
  | String c1 (String c2 (String c3 EmptyString)) => is_space3 c1 c2 c3
  | _ => false
  end.

Fixpoint drop_spaces (us : list string) : list string :=
  match us with
  | [] => []
  | u :: us' => if space_unit u then drop_spaces us' else us
  end.

Definition trimStart (s : string) : string :=
  String.concat EmptyString (drop_spaces (units s)).

Definition trimEnd (s : string) : string :=
  String.concat EmptyString (rev (drop_spaces (rev (units s)))).

(** [String.prototype.trim]. *)
Definition trim (s : string) : string := trimEnd (trimStart s).

Fixpoint all_chars (p : ascii -> bool) (s : string) : bool :=
  match s with
  | EmptyString => true
  | String c s' => p c && all_chars p s'
  end.

(** The character class [[\d,\s]]. *)
Definition selection_unit (u : string) : bool :=
  match u with
  | String c EmptyString => is_digit c || Ascii.eqb c ","
  | _ => false
  end
  || space_unit u.

(** [/^[\d,\s]+$/.test(s)]: one character at least, all of the class. *)
Definition test_selection (s : string) : bool :=
  match units s with
  | [] => false
  | us => forallb selection_unit us
  end.

(** The separator class [[,\s]] of [split(/[,\s]+/)]. *)
Definition separator_unit (u : string) : bool :=
  String.eqb u "," || space_unit u.

(** [s.split(/[,\s]+/)]: [cur] is the piece being read, [in_sep] tells that
    the previous character belonged to a separator run. A run at either end
    of the string yields an empty piece there, as in JavaScript. *)
Fixpoint split_go (us : list string) (cur : string) (in_sep : bool) : list string :=
  match us with
  | [] => [cur]
  | u :: us' =>
      if separator_unit u
      then (if in_sep then split_go us' EmptyString true
            else cur :: split_go us' EmptyString true)
      else split_go us' (cur +:+ u) false
  end.

Definition split_selection (s : string) : list string :=
  split_go (units s) EmptyString false.

(** [String.prototype.toLowerCase] on a string of ASCII characters: the
    letters A to Z become a to z, nothing else changes. *)
Definition is_ascii (c : ascii) : bool := nat_of_ascii c <? 128.

Definition lower_char (c : ascii) : ascii :=
  let n := nat_of_ascii c in
  if (65 <=? n) && (n <=? 90) then ascii_of_nat (n + 32) else c.

Fixpoint lower_ascii (s : string) : string :=
  match s with
  | EmptyString => EmptyString
  | String c s' => String (lower_char c) (lower_ascii s')
  end.

(** JavaScript numbers that are integers, as [parseInt] returns them, are
    written as the integer they equal; [Infinity] is written 2^1024, the
    value every larger magnitude rounds to, and its opposite is
    [-Infinity]. NaN is [None]. *)
Definition Infinity : Z := (2 ^ 1024)%Z.

(** The double nearest to a natural number, ties to the even significand:
    exact below 2^53, 53 significant bits above. *)
Definition to_double (n : Z) : Z :=
  if (n <? 9007199254740992)%Z then n
  else
    let e := (Z.log2 n - 52)%Z in
    let q := Z.shiftr n e in
    let r := (n - Z.shiftl q e)%Z in
    let half := Z.shiftl 1 (e - 1) in
    let q' := if (r <? half)%Z then q
              else if (half <? r)%Z then (q + 1)%Z
              else if Z.even q then q else (q + 1)%Z in
    Z.min (Z.shiftl q' e) Infinity.

(** Digits of [parseInt]: the value of a character in the given radix. *)
Definition digit_value (radix : Z) (c : ascii) : option Z :=
  let n := Z.of_nat (nat_of_ascii c) in
  let v :=
    if (48 <=? n)%Z && (n <=? 57)%Z then Some (n - 48)%Z
    else if (97 <=? n)%Z && (n <=? 122)%Z then Some (n - 87)%Z
    else if (65 <=? n)%Z && (n <=? 90)%Z then Some (n - 55)%Z
    else None in
  match v with
  | Some d => if (d <? radix)%Z then Some d else None
  | None => None
  end.

(** Longest prefix of digits, read left to right; [None] when there is no
    digit at all (JavaScript's NaN). *)
Fixpoint read_digits (radix : Z) (s : string) (acc : option Z) : option Z :=
  match s with
  | EmptyString => acc
  | String c s' =>
      match digit_value radix c with
      | Some d => read_digits radix s' (Some (default 0%Z acc * radix + d)%Z)
      | None => acc
      end
  end.

Definition read_unsigned (s : string) : option Z :=
  match s with
  | String "0" (String "x" s') => read_digits 16 s' None
  | String "0" (String "X" s') => read_digits 16 s' None
  | _ => read_digits 10 s None
  end.

(** [parseInt(s)] with no radix argument: leading white space, a sign, an
    optional [0x] prefix, then digits. The integer read is rounded to a
    double. *)
Definition parseInt_string (s : string) : option Z :=
  match trimStart s with
  | String "-" s' => (fun n => Z.opp (to_double n)) <$> read_unsigned s'
  | String "+" s' => to_double <$> read_unsigned s'
  | s' => to_double <$> read_unsigned s'
  end.

(** [parseInt(v)] for a value that may be [undefined]: the argument is first
    turned into the string "undefined", which has no digit. *)
Definition parseInt (v : option string) : option Z :=
  match v with
  | Some s => parseInt_string s
  | None => None
  end.

(** [n.toString()] for an integer below 2^53 in magnitude (every digit is
    printed) and for a count. *)
Definition Z_toString (z : Z) : string := NilZero.string_of_int (Z.to_int z).
Definition nat_toString (n : nat) : string := NilZero.string_of_uint (Nat.to_uint n).

(** [Number.prototype.toString] on an integer double from 2^53 on prints
    the shortest decimal that rounds to it, the nearest one when there are
    several. [candidate x D k] looks for it among the decimals of [k]
    significant digits next to [x], which has [D] digits. *)
Definition candidate (x : Z) (D k : nat) : option Z :=
  let u := (10 ^ Z.of_nat (D - k))%Z in
  let lo := (x / u * u)%Z in
  let hi := (lo + u)%Z in
  match bool_decide (to_double lo = x), bool_decide (to_double hi = x) with
  | true, true =>
      Some (if (x - lo <? hi - x)%Z then lo
            else if (hi - x <? x - lo)%Z then hi
            else if Z.even (lo / u) then lo else hi)
  | true, false => Some lo
  | false, true => Some hi
  | false, false => None
  end.

Fixpoint shortest (x : Z) (D : nat) (ks : list nat) : Z :=
  match ks with
  | [] => x
  | k :: ks' =>
      match candidate x D k with
      | Some v => v
      | None => shortest x D ks'
      end
  end.

Fixpoint strip_zeros (s : string) : string :=
  match s with
  | EmptyString => EmptyString
  | String c s' =>
      match strip_zeros s' with
      | EmptyString => if Ascii.eqb c "0" then EmptyString else String c EmptyString
      | t => String c t
      end
  end.

(** The decimal [v] of [n] digits written as the source of a number: in
    full up to 21 digits, with an exponent beyond. *)
Definition decimal_form (v : Z) : string :=
  let digits := Z_toString v in
  let n := String.length digits in
  if n <=? 21 then digits
  else
    match strip_zeros digits with
    | String d EmptyString => String d ("e+" +:+ nat_toString (n - 1))
    | String d more => String d ("." +:+ more +:+ "e+" +:+ nat_toString (n - 1))
    | EmptyString => digits
    end.

Definition unsigned_toString (x : Z) : string :=
  if (x <? 9007199254740992)%Z then Z_toString x
  else if (Infinity <=? x)%Z then "Infinity"
  else
    let D := String.length (Z_toString x) in
    decimal_form (shortest x D (seq 1 (Nat.min 17 D))).

(** [n.toString()] for a number that [parseInt] returned. *)
Definition Number_toString (x : Z) : string :=
  if (x <? 0)%Z then "-" +:+ unsigned_toString (- x) else unsigned_toString x.

(** [s.slice(-k)]: the last [k] characters, the whole string when shorter. *)
Definition slice_last (k : nat) (s : string) : string :=
  substring (String.length s - k) k s.

(** Interpolation of a possibly [undefined] string in a template literal. *)
Definition show (v : option string) : string := default "undefined" v.

(** Truthiness of a possibly [undefined] string. *)
Definition truthy (v : option string) : bool :=
  match v with
  | Some s => negb (String.eqb s "")
  | None => false
  end.

(** [v || d] for such a value. *)
Definition or_else (v : option string) (d : string) : string :=
  if truthy v then default d v else d.

(** [s.startsWith(p)]. *)
Definition startsWith (s p : string) : bool := String.prefix p s.

(** [l.join(sep)]. *)
Definition join (sep : string) (l : list string) : string := String.concat sep l.

(** [[...new Set(l)]]: the distinct values in order of first occurrence. *)
Fixpoint distinct `{EqDecision A} (l : list A) (seen : list A) : list A :=
  match l with
  | [] => []
  | x :: l' =>
      if bool_decide (x ∈ seen) then distinct l' seen
      else x :: distinct l' (x :: seen)
  end.

End JS.

Import JS.

(* ===================================================================== *)
(** ** The bot *)
(* ===================================================================== *)

(** [STATES] *)
Inductive State :=
  | MAIN_MENU | BROWSING_PRODUCTS | CART_REVIEW | DELIVERY_INFO
  | PAYMENT_METHOD | PAYMENT_CONFIRMATION | CONFIRMING_ORDER.

#[global] Instance State_eq_dec : EqDecision State.
Proof. solve_decision. Defined.

(** A field of [req.body]. Twilio posts strings; [Body] is given the wider
    type because the source guards its use: a value that is neither absent
    nor a string has no [toLowerCase]. The other fields are taken as Twilio
    posts them, absent or a string of well-formed text: a request in which
    [From], [ProfileName] or a media field is an object or an array, or in
    which a string holds half a surrogate pair, is not an event of this
    model. *)
Inductive BodyField :=
  | Absent
  | Text (s : string)
  | NotText (is_truthy : bool).

Record Request := {
  Body : BodyField;
  From : string;
  ProfileName : option string;
  MediaUrl0 : option string;
  MediaContentType0 : option string
}.

(** What the webhook answers: [res.sendStatus(200)], or an exception that
    leaves the handler. *)
Inductive Response := Ack200 | Raised.

(** Answers of the admin endpoint. *)
Inductive AdminReply := Success200 | NotFound404 | Error500.

(** An answer of [sheets.spreadsheets.values.get]: the promise is rejected,
    or [response.data.values] is there, possibly [undefined]. *)
Inductive Reply (A : Type) :=
  | Rejected
  | Values (v : option A).
Arguments Rejected {A}.
Arguments Values {A} v.

(** JavaScript numbers (prices, totals) and the library functions that
    produce or print them form an interface: no property below depends on
    floating-point arithmetic or on the locale. [formatPrice] is the
    [Intl.NumberFormat('es-AR', {style: 'currency', currency: 'ARS', ...})]
    of the source. So do the Unicode tables of the host:
    [toLowerCase_unicode] is [String.prototype.toLowerCase] on the strings
    that hold a character outside ASCII. *)
Class Runtime := {
  toLowerCase_unicode : string -> string;
  number : Type;
  parseFloat : option string -> number;
  num_of_nat : nat -> number;
  num_add : number -> number -> number;
  num_mul : number -> number -> number;
  num_toString : number -> string;
  formatPrice : number -> string
}.

Section Bot.

Context `{RT : Runtime}.

(** *** Data model *)

(** An entry of the catalog as [getMenu] builds it. [row[k]] is [undefined]
    when the row is shorter, hence the options. *)
Record Product := {
  id : option string;
  name : option string;
  description : string;
  price : number;
  category : option string;
  available : bool
}.

(** A cart line: [{...product, quantity: 1}]. Quantities are counts of
    processed tokens, far below 2^53, so they are natural numbers. *)
Record CartLine := {
  product : Product;
  quantity : nat
}.

(** What the map [userCarts] holds: a cart under the key [phone], and a
    string under the keys [phone + '_delivery'] and [phone + '_address']. *)
Inductive Val :=
  | VArr (l : list CartLine)
  | VStr (s : string).

(** A cell of the sheet Pedidos holds the value handed to the Sheets client
    (or typed in by somebody else). *)
Inductive Cell :=
  | CStr (s : string)
  | CNum (n : number)
  | CArr (l : list CartLine)
  | CIso (ms : Z)                    (* new Date().toISOString() *)
  | CJson (items : list CartLine).   (* JSON.stringify(orderData.items) *)

(** The process memory and the outside world in one record.
    - [userCarts], [userStates]: the two module-level maps;
    - [menuReply]: what reading [Menu!A:F] answers;
    - [pedidos]: the rows of the sheet Pedidos, header first;
      [pedidosGet], [pedidosAppend], [pedidosUpdate]: whether these calls
      succeed;
    - [outbox]: the messages handed to [sendMessage] and
      [sendInteractiveMessage], oldest first (delivery is Twilio's);
    - [now], [ticks]: the clock; the k-th reading is [now k]. *)
Record World := {
  userCarts : gmap string Val;
  userStates : gmap string State;
  menuReply : Reply (list (list string));
  pedidos : list (list Cell);
  pedidosGet : bool;
  pedidosAppend : bool;
  pedidosUpdate : bool;
  outbox : list (string * string);
  now : nat -> Z;
  ticks : nat
}.

Definition with_userCarts (f : gmap string Val -> gmap string Val) (w : World) : World :=
  {| userCarts := f (userCarts w); userStates := userStates w;
     menuReply := menuReply w; pedidos := pedidos w;
     pedidosGet := pedidosGet w; pedidosAppend := pedidosAppend w;
     pedidosUpdate := pedidosUpdate w; outbox := outbox w;
     now := now w; ticks := ticks w |}.

Definition with_userStates (f : gmap string State -> gmap string State) (w : World) : World :=
  {| userCarts := userCarts w; userStates := f (userStates w);
     menuReply := menuReply w; pedidos := pedidos w;
     pedidosGet := pedidosGet w; pedidosAppend := pedidosAppend w;
     pedidosUpdate := pedidosUpdate w; outbox := outbox w;
     now := now w; ticks := ticks w |}.

Definition with_pedidos (f : list (list Cell) -> list (list Cell)) (w : World) : World :=
  {| userCarts := userCarts w; userStates := userStates w;
     menuReply := menuReply w; pedidos := f (pedidos w);
     pedidosGet := pedidosGet w; pedidosAppend := pedidosAppend w;
     pedidosUpdate := pedidosUpdate w; outbox := outbox w;
     now := now w; ticks := ticks w |}.

Definition with_outbox (f : list (string * string) -> list (string * string)) (w : World) : World :=
  {| userCarts := userCarts w; userStates := userStates w;
     menuReply := menuReply w; pedidos := pedidos w;
     pedidosGet := pedidosGet w; pedidosAppend := pedidosAppend w;
     pedidosUpdate := pedidosUpdate w; outbox := f (outbox w);
     now := now w; ticks := ticks w |}.

Definition with_ticks (f : nat -> nat) (w : World) : World :=
  {| userCarts := userCarts w; userStates := userStates w;
     menuReply := menuReply w; pedidos := pedidos w;
     pedidosGet := pedidosGet w; pedidosAppend := pedidosAppend w;
     pedidosUpdate := pedidosUpdate w; outbox := outbox w;
     now := now w; ticks := f (ticks w) |}.

(** *** Computations: state threaded through, [None] for a thrown exception.
    What was written before the exception stays written. *)
Definition M (A : Type) : Type := World -> World * option A.

Definition ret {A} (a : A) : M A := fun w => (w, Some a).

Definition bind {A B} (m : M A) (k : A -> M B) : M B :=
  fun w => match m w with
           | (w', Some a) => k a w'
           | (w', None) => (w', None)
           end.

Definition throw {A} : M A := fun w => (w, None).

(** [try { m } catch (error) { h }] *)
Definition try_catch {A} (m h : M A) : M A :=
  fun w => match m w with
           | (w', None) => h w'
           | r => r
           end.

(** A pure computation that may throw. *)
Definition lift {A} (o : option A) : M A :=
  match o with
  | Some a => ret a
  | None => throw
  end.

Notation "x <- m ;; k" := (bind m (fun x => k))
  (at level 100, m at next level, right associativity).
Notation "m ;; k" := (bind m (fun _ => k))
  (at level 100, right associativity).

(** *** The two maps *)

Definition userStates_get (phone : string) : M (option State) :=
  fun w => (w, Some (userStates w !! phone)).

Definition userStates_set (phone : string) (s : State) : M unit :=
  fun w => (with_userStates (insert phone s) w, Some tt).

Definition userCarts_get (key : string) : M (option Val) :=
  fun w => (w, Some (userCarts w !! key)).

Definition userCarts_set (key : string) (v : Val) : M unit :=
  fun w => (with_userCarts (insert key v) w, Some tt).

Definition userCarts_delete (key : string) : M unit :=
  fun w => (with_userCarts (delete key) w, Some tt).

(** Truthiness of a stored value: arrays always, strings when not empty. *)
Definition val_truthy (v : Val) : bool :=
  match v with
  | VArr _ => true
  | VStr s => negb (String.eqb s "")
  end.

(** [userCarts.get(key) || d] *)
Definition val_or (v : option Val) (d : Val) : Val :=
  match v with
  | Some x => if val_truthy x then x else d
  | None => d
  end.

(** [v.length] *)
Definition val_length (v : Val) : nat :=
  match v with
  | VArr l => length l
  | VStr s => String.length s
  end.

(** [v === s] for a string literal [s]. *)
Definition val_is (v : Val) (s : string) : bool :=
  match v with
  | VStr s' => String.eqb s' s
  | VArr _ => false
  end.

(** The array behind a value whose array method is called; a string has no
    [forEach], [reduce] or [find], the call throws a TypeError. *)
Definition as_array (v : Val) : option (list CartLine) :=
  match v with
  | VArr l => Some l
  | VStr _ => None
  end.

(** Interpolation of a stored value in a template literal: an array of
    objects prints each element as [[object Object]]. *)
Definition val_toString (v : Val) : string :=
  match v with
  | VStr s => s
  | VArr l => join "," (map (fun _ => "[object Object]") l)
  end.

Definition cell_of_val (v : Val) : Cell :=
  match v with
  | VStr s => CStr s
  | VArr l => CArr l
  end.

(** *** Clock, message channel, spreadsheet *)

(** [Date.now()] and [new Date()]: a reading is a time value, a count of
    milliseconds, which is an integer far below 2^53. *)
Definition Date_now : M Z :=
  fun w => (with_ticks S w, Some (now w (ticks w))).

(** [sendMessage(to, body)]: never throws (no client: logged; a failed
    send: caught and logged). *)
Definition sendMessage (to body : string) : M unit :=
  fun w => (with_outbox (fun o => o ++ [(to, body)]) w, Some tt).

(** [sendInteractiveMessage(to, body, options)]: its three branches create
    the same message, and a failure falls back on [sendMessage]; [options]
    has no effect. *)
Definition sendInteractiveMessage (to body : string) : M unit :=
  sendMessage to body.

(** [notifyCustomer(phone, message)] *)
Definition notifyCustomer (phone message : string) : M unit :=
  sendMessage phone message.

(** [sheets.spreadsheets.values.get] on [Menu!A:F]. *)
Definition sheets_get_menu : M (option (list (list string))) :=
  fun w => match menuReply w with
           | Rejected => (w, None)
           | Values v => (w, Some v)
           end.

(** [sheets.spreadsheets.values.get] on [Pedidos!A:K]: an empty sheet has no
    [values]. *)
Definition sheets_get_pedidos : M (option (list (list Cell))) :=
  fun w => if pedidosGet w
           then (w, Some (match pedidos w with [] => None | rows => Some rows end))
           else (w, None).

(** [sheets.spreadsheets.values.append] on [Pedidos!A:K]: the row goes after
    the last one, from column A on. *)
Definition sheets_append_pedidos (row : list Cell) : M unit :=
  fun w => if pedidosAppend w
           then (with_pedidos (fun rows => rows ++ [row]) w, Some tt)
           else (w, None).

(** Writing one cell of a row: cells missing before it are empty. *)
Definition set_cell (col : nat) (v : Cell) (row : list Cell) : list Cell :=
  take col (row ++ replicate (col - length row) (CStr "")) ++ v :: drop (S col) row.

(** [sheets.spreadsheets.values.update] on the single cell at column [col]
    (A is 0) of sheet row [rowNumber] (the header is row 1). *)
Definition sheets_update_pedidos (col rowNumber : nat) (v : Cell) : M unit :=
  fun w => if pedidosUpdate w
           then (with_pedidos (alter (set_cell col v) (rowNumber - 1)) w, Some tt)
           else (w, None).

(** Column letters of the ranges in the source. *)
Definition column_K : nat := 10.

(** Concatenation of the pieces of a message. *)
Definition text (pieces : list string) : string := String.concat "" pieces.

(** *** Catalog gateway *)

Definition product_of_row (row : list string) : Product :=
  {| id := row !! 0;
     name := row !! 1;
     description := or_else (row !! 2) "";
     price := parseFloat (row !! 3);
     category := row !! 4;
     available := bool_decide (row !! 5 = Some "TRUE") |}.

(** [getMenu()] *)
Definition getMenu : M (list Product) :=
  try_catch
    (rows <- sheets_get_menu ;;
     match rows with
     | None => ret []
     | Some [] => ret []
     | Some (headers :: data) =>
         ret (List.filter (fun item => available item) (map product_of_row data))
     end)
    (ret []).

(** *** Order gateway *)

Record OrderData := {
  customerPhone : string;
  customerName : string;
  items : list CartLine;
  total : number;
  deliveryType : Val;
  address : Val;
  paymentMethod : string;
  paymentStatus : string;
  orderId : string
}.

(** [saveOrder(orderData)]: ten cells, columns A to J. *)
Definition saveOrder (orderData : OrderData) : M unit :=
  try_catch
    (date <- Date_now ;;
     sheets_append_pedidos
       [ CIso date;
         CStr (customerPhone orderData);
         CStr (customerName orderData);
         CJson (items orderData);
         CNum (total orderData);
         cell_of_val (deliveryType orderData);
         cell_of_val (val_or (Some (address orderData)) (VStr ""));
         CStr (or_else (Some (paymentMethod orderData)) "Efectivo");
         CStr (or_else (Some (paymentStatus orderData)) "Pendiente");
         CStr "NUEVO" ])
    (ret tt).

(** [rows[i][1] === phone] *)
Definition row_phone_is (row : option (list Cell)) (phone : string) : bool :=
  match row with
  | Some r => match r !! 1 with
              | Some (CStr p) => String.eqb p phone
              | _ => false
              end
  | None => false
  end.

(** The loop [for (let i = ...; i >= 1; i--)] of [updateOrderStatus], up to
    its first hit: the index of the row to update, if any. *)
Fixpoint scan_rows (rows : list (list Cell)) (phone : string) (i : nat) : option nat :=
  match i with
  | 0 => None
  | S j => if row_phone_is (rows !! i) phone then Some i else scan_rows rows phone j
  end.

(** [updateOrderStatus(phone, newStatus)] *)
Definition updateOrderStatus (phone newStatus : string) : M bool :=
  try_catch
    (rows <- sheets_get_pedidos ;;
     match rows with
     | None => ret false
     | Some rows =>
         if length rows <=? 1 then ret false
         else match scan_rows rows phone (length rows - 1) with
              | Some i =>
                  sheets_update_pedidos column_K (i + 1) (CStr newStatus) ;;
                  ret true
              | None => ret false
              end
     end)
    (ret false).

(** The fields [paymentStatus] and [status] of an order as
    [GET /api/orders] reads them from a row: [row[8] || 'Pendiente'] and
    [row[9] || 'NUEVO']. *)
Definition cell_or (c : option Cell) (d : string) : Cell :=
  match c with
  | Some (CStr s) => if String.eqb s "" then CStr d else CStr s
  | Some c' => c'
  | None => CStr d
  end.

Definition listed_paymentStatus (row : list Cell) : Cell := cell_or (row !! 8) "Pendiente".
Definition listed_status (row : list Cell) : Cell := cell_or (row !! 9) "NUEVO".

(** *** Message formatter *)

(** [generateMercadoPagoLink(total, orderId, customerName)]. The value of
    [encodeURIComponent(...)] is not used; on well-formed text the call
    returns. *)
Definition generateMercadoPagoLink (total : number) (orderId customerName : string) : string :=
  text [ "https://mpago.la/2Qx8y9z?amount="; num_toString total;
         "&concept=Pedido-"; slice_last 6 orderId ].

Definition menu_item_text (item : Product) : string :=
  text [ "┌─ "; show (id item); "️⃣ "; show (name item); " ─┐"; LF;
         "│ "; formatPrice (price item); " │"; LF;
         (if String.eqb (description item) "" then ""
          else text [ "│ _"; description item; "_ │"; LF ]);
         "└──────────────┘"; LF; LF ].

(** [formatMenuWithButtons(menu)] *)
Definition formatMenuWithButtons (menu : list Product) : string :=
  let categories := distinct (map category menu) [] in
  text [ "🍽️ *MENÚ SABORES DEL BARRIO*"; LF; LF;
         text (map (fun c =>
                 text [ "📋 *"; show c; "*"; LF; LF;
                        text (map menu_item_text
                                (List.filter (fun item => bool_decide (category item = c)) menu)) ])
               categories);
         "*⚡ CÓMO PEDIR:*"; LF;
         "• Un producto: *1*"; LF;
         "• Varios: *1,2,3*"; LF;
         "• Ver carrito: *carrito*"; LF;
         "• Finalizar: *finalizar*" ].

(** [item.price * item.quantity] *)
Definition subtotal (item : CartLine) : number :=
  num_mul (price (product item)) (num_of_nat (quantity item)).

(** The loop [cart.forEach((item, index) => ...)] of [formatCart]. *)
Fixpoint cart_lines (l : list CartLine) (index : nat) (message : string) (total : number)
  : string * number :=
  match l with
  | [] => (message, total)
  | item :: l' =>
      cart_lines l' (S index)
        (text [ message;
                nat_toString (index + 1); ". "; show (name (product item)); LF;
                "   Cantidad: "; nat_toString (quantity item); " x ";
                formatPrice (price (product item)); " = ";
                formatPrice (subtotal item); LF; LF ])
        (num_add total (subtotal item))
  end.

(** [formatCart(cart, showOptions)]; [None] when [forEach] is called on a
    string. *)
Definition formatCart (cart : Val) (showOptions : bool) : option string :=
  let message := text [ "🛒 *TU CARRITO*"; LF; LF ] in
  let total := num_of_nat 0 in
  r ← (if negb (val_truthy cart) || (val_length cart =? 0)
       then Some (text [ message; "Carrito vacío"; LF; LF ], total)
       else l ← as_array cart; Some (cart_lines l 0 message total));
  let message := text [ r.1; "💰 *TOTAL: "; formatPrice r.2; "*"; LF; LF ] in
  Some
    (if showOptions
     then text [ message;
                 "*Opciones disponibles:*"; LF;
                 "• Enviá un número para agregar productos"; LF;
                 "• Enviá varios números separados por comas (ej: 1,2,3)"; LF;
                 (if 0 <? val_length cart
                  then text [ "• *finalizar* - Completar pedido"; LF;
                              "• *limpiar* - Vaciar carrito"; LF ]
                  else "");
                 "• *menu* - Ver menú completo" ]
     else message).

(** [cart.reduce((sum, item) => sum + (item.price * item.quantity), 0)] *)
Definition cart_total (l : list CartLine) : number :=
  fold_left (fun sum item => num_add sum (subtotal item)) l (num_of_nat 0).

(** *** Order finalization *)

(** The confirmation text that [processOrder] composes (lines 286 to 313). *)
Definition confirmMessage (l : list CartLine) (total : number) (orderId : string)
    (deliveryType address : Val) (paymentMethod : string) : string :=
  text [ "✅ *PEDIDO CONFIRMADO*"; LF; LF;
         "📝 *Pedido #"; slice_last 6 orderId; "*"; LF; LF;
         text (map (fun item =>
                 text [ "• "; show (name (product item)); " x"; nat_toString (quantity item);
                        " - "; formatPrice (subtotal item); LF ]) l);
         LF; "💰 *Total: "; formatPrice total; "*"; LF;
         "💳 *Pago: ";
         (if String.eqb paymentMethod "efectivo" then "Efectivo" else "MercadoPago");
         "*"; LF; LF;
         (if val_is deliveryType "delivery"
          then text [ "🚚 *Delivery a:* "; val_toString address; LF;
                      "⏱️ *Tiempo estimado:* 30-45 minutos"; LF; LF ]
          else text [ "🏪 *Retiro en local*"; LF;
                      "⏱️ *Estará listo en:* 20-30 minutos"; LF; LF ]);
         (if String.eqb paymentMethod "mercadopago"
          then text [ "💳 *Para completar el pago:*"; LF;
                      "💰 Alias: SABORES.BARRIO.MP"; LF;
                      "💵 Importe: "; formatPrice total; LF;
                      "📝 Concepto: Pedido #"; slice_last 6 orderId; LF; LF;
                      "📸 *Después del pago, enviá una foto del comprobante.*"; LF; LF ]
          else "");
         "¡Gracias por elegirnos! 😊"; LF;
         "Te avisamos cuando esté listo para retirar/entregar." ].

(** The record [orderData] that [processOrder] builds. *)
Definition make_order (phone customerName : string) (l : list CartLine)
    (deliveryType address : Val) (paymentMethod orderId : string) : OrderData :=
  {| customerPhone := phone;
     customerName := customerName;
     items := l;
     total := cart_total l;
     deliveryType := deliveryType;
     address := address;
     paymentMethod := paymentMethod;
     paymentStatus := if String.eqb paymentMethod "efectivo" then "Confirmado" else "Pendiente";
     orderId := orderId |}.

(** [processOrder(phone, customerName, cart, deliveryType, address,
    paymentMethod)]; returns [orderId]. [cart.reduce] throws on a string. *)
Definition processOrder (phone customerName : string) (cart deliveryType address : Val)
    (paymentMethod : string) : M string :=
  l <- lift (as_array cart) ;;
  let total := cart_total l in
  ms <- Date_now ;;
  let orderId := Z_toString ms in
  let orderData := make_order phone customerName l deliveryType address paymentMethod orderId in
  saveOrder orderData ;;
  userCarts_set phone (VArr []) ;;
  userStates_set phone MAIN_MENU ;;
  sendMessage phone (confirmMessage l total orderId deliveryType address paymentMethod) ;;
  ret orderId.

(** *** Product selection *)

(** [existingItem.quantity += 1] on the line that [cart.find] returned: the
    first one with the product's id. *)
Fixpoint bump_first (pid : option string) (l : list CartLine) : list CartLine :=
  match l with
  | [] => []
  | item :: l' =>
      if bool_decide (id (product item) = pid)
      then {| product := product item; quantity := quantity item + 1 |} :: l'
      else item :: bump_first pid l'
  end.

(** The body of [if (product) { ... }] up to the update of the cart. *)
Definition add_to_cart (p : Product) (l : list CartLine) : list CartLine :=
  match List.find (fun item => bool_decide (id (product item) = id p)) l with
  | Some existingItem => bump_first (id p) l
  | None => l ++ [ {| product := p; quantity := 1 |} ]
  end.

(** [menu.find(item => parseInt(item.id) === productId)] *)
Definition find_product (menu : list Product) (productId : Z) : option Product :=
  List.find (fun item => bool_decide (parseInt (id item) = Some productId)) menu.

Record Selection := {
  sel_cart : Val;
  addedProducts : list (option string);
  notFoundProducts : list string
}.

(** One turn of [productIds.forEach(productId => ...)]. The cart is the
    array stored in the map, changed in place; on a string [cart.find]
    throws. *)
Definition select_one (menu : list Product) (s : Selection) (productId : Z) : option Selection :=
  match find_product menu productId with
  | Some p =>
      l ← as_array (sel_cart s);
      Some {| sel_cart := VArr (add_to_cart p l);
              addedProducts := addedProducts s ++ [name p];
              notFoundProducts := notFoundProducts s |}
  | None =>
      Some {| sel_cart := sel_cart s;
              addedProducts := addedProducts s;
              notFoundProducts := notFoundProducts s ++ [Number_toString productId] |}
  end.

Fixpoint select_all (menu : list Product) (productIds : list Z) (s : Selection) : option Selection :=
  match productIds with
  | [] => Some s
  | productId :: rest => s' ← select_one menu s productId; select_all menu rest s'
  end.

(** [message.split(/[,\s]+/).map(id => parseInt(id.trim())).filter(id => !isNaN(id))] *)
Definition parse_selection (message : string) : list Z :=
  omap (fun id => parseInt_string (trim id)) (split_selection message).

(** *** The webhook *)

(** [String.prototype.toLowerCase]: letter by letter on a string of ASCII
    characters, by the tables of the host on any other string. *)
Definition toLowerCase (s : string) : string :=
  if all_chars is_ascii s then lower_ascii s else toLowerCase_unicode s.

(** [Body ? Body.toLowerCase().trim() : ''], [None] when [Body] has no
    [toLowerCase]. *)
Definition message_of (b : BodyField) : option string :=
  match b with
  | Absent => Some ""
  | Text s => if String.eqb s "" then Some "" else Some (trim (toLowerCase s))
  | NotText false => Some ""
  | NotText true => None
  end.

(** [MediaUrl0 && MediaContentType0 && MediaContentType0.startsWith('image/')],
    on media fields that are strings. *)
Definition has_image (req : Request) : bool :=
  truthy (MediaUrl0 req) && truthy (MediaContentType0 req)
  && startsWith (default "" (MediaContentType0 req)) "image/".

Definition welcomeMessage (customerName : string) : string :=
  text [ "¡Hola "; customerName; "! 👋"; LF; LF;
         "Bienvenido a nuestro sistema de pedidos."; LF; LF;
         "Enviá *menu* para ver nuestros productos disponibles." ].

Definition receiptMessage : string :=
  text [ "✅ *Comprobante recibido correctamente.*"; LF; LF;
         "📋 Verificaremos tu pago y te confirmaremos en breve."; LF;
         "🍽️ Una vez confirmado, comenzamos a preparar tu pedido."; LF; LF;
         "¡Gracias por tu paciencia!" ].

Definition emptyCartMessage : string :=
  "Tu carrito está vacío. Enviá *menu* para agregar productos.".

Definition errorMessage : string :=
  "❌ Hubo un error. Por favor intentá nuevamente o enviá *menu* para empezar.".

(** The text sent once the address is known (lines 454 to 460). *)
Definition paymentPrompt (cartText addressText : string) : string :=
  text [ "💳 *MÉTODO DE PAGO*"; LF; LF;
         cartText; LF; LF;
         "🚚 *Delivery a:* "; addressText; LF; LF;
         "*Seleccioná cómo vas a pagar:*"; LF;
         "1️⃣ 💵 Efectivo (al recibir)"; LF;
         "2️⃣ 💳 MercadoPago (transferencia)"; LF; LF;
         "Enviá *1* para efectivo o *2* para MercadoPago." ].

(** The text that carries the payment link (lines 484 to 494). *)
Definition mpMessage (cartText : string) (total : number) (mpLink orderId : string) : string :=
  text [ "💳 *PAGAR CON MERCADOPAGO*"; LF; LF;
         cartText; LF; LF;
         "💰 *Total a pagar: "; formatPrice total; "*"; LF; LF;
         "🔗 *OPCIÓN 1 - Link de pago:*"; LF;
         mpLink; LF; LF;
         "💰 *OPCIÓN 2 - Transferencia:*"; LF;
         "📱 Alias: SABORES.BARRIO.MP"; LF;
         "💵 Importe: "; formatPrice total; LF;
         "📝 Concepto: Pedido #"; slice_last 6 orderId; LF; LF;
         "📸 *Después del pago, enviá una foto del comprobante.*"; LF; LF;
         "Una vez que recibamos el comprobante, procesaremos tu pedido." ].

(** The reply of the product-selection branch before the cart is rendered
    (lines 540 to 552). *)
Definition selectionReport (s : Selection) : string :=
  text [ (if 0 <? length (addedProducts s)
          then text [ "✅ *Productos agregados:*"; LF;
                      text (map (fun name => text [ "• "; show name; LF ]) (addedProducts s));
                      LF ]
          else "");
         (if 0 <? length (notFoundProducts s)
          then text [ "❌ *Productos no encontrados:* ";
                      join ", " (notFoundProducts s); LF; LF ]
          else "") ].

(** The statements inside [try { ... }]. An early
    [return res.sendStatus(200)] ends them like the end of a branch does:
    nothing but [res.sendStatus(200)] follows the [try]. *)
Definition dispatch (req : Request) (message phone customerName : string)
    (userState : State) (cart : Val) : M unit :=
  if has_image req && bool_decide (userState = PAYMENT_CONFIRMATION) then
    updateOrderStatus phone "PAGO_RECIBIDO" ;;
    sendMessage phone receiptMessage ;;
    userStates_set phone MAIN_MENU
  else if String.eqb message "menu" || String.eqb message "menú" then
    menu <- getMenu ;;
    let menuText := formatMenuWithButtons menu in
    cartText <- lift (formatCart cart true) ;;
    sendInteractiveMessage phone (text [ menuText; LF; LF; cartText ]) ;;
    userStates_set phone BROWSING_PRODUCTS
  else if String.eqb message "carrito" then
    cartText <- lift (formatCart cart true) ;;
    sendInteractiveMessage phone cartText
  else if String.eqb message "limpiar" then
    userCarts_set phone (VArr []) ;;
    cartText <- lift (formatCart (VArr []) true) ;;
    sendInteractiveMessage phone (text [ "🗑️ Carrito vaciado."; LF; LF; cartText ]) ;;
    userStates_set phone MAIN_MENU
  else if String.eqb message "cancelar" then
    if 0 <? val_length cart then
      userCarts_set phone (VArr []) ;;
      userStates_set phone MAIN_MENU ;;
      sendInteractiveMessage phone
        (text [ "❌ *Pedido cancelado*"; LF; LF;
                "Tu carrito ha sido vaciado."; LF;
                "Enviá *menu* cuando quieras hacer un nuevo pedido." ])
    else
      sendInteractiveMessage phone
        (text [ "No tenés ningún pedido activo para cancelar."; LF;
                "Enviá *menu* para empezar un nuevo pedido." ])
  else if String.eqb message "finalizar" then
    if val_length cart =? 0 then
      sendInteractiveMessage phone emptyCartMessage
    else
      cartText <- lift (formatCart cart false) ;;
      sendInteractiveMessage phone
        (text [ "🛒 *RESUMEN DE TU PEDIDO*"; LF; LF;
                cartText; LF; LF;
                "🏠 *SELECCIONÁ EL TIPO DE ENTREGA:*"; LF; LF;
                "┌─────────────────────┐"; LF;
                "│  1️⃣  🚚 DELIVERY     │"; LF;
                "│  2️⃣  🏪 RETIRO      │"; LF;
                "└─────────────────────┘"; LF; LF;
                "Tocá *1* para delivery o *2* para retiro en local." ]) ;;
      userStates_set phone DELIVERY_INFO
  else if bool_decide (userState = DELIVERY_INFO) then
    if String.eqb message "1" then
      sendInteractiveMessage phone
        (text [ "📍 *DIRECCIÓN PARA DELIVERY*"; LF; LF;
                "Por favor enviá tu dirección completa:"; LF; LF;
                "*Ejemplo:* Av. Corrientes 1234, CABA" ]) ;;
      userStates_set phone PAYMENT_METHOD ;;
      userCarts_set (phone +:+ "_delivery") (VStr "delivery")
    else if String.eqb message "2" then
      userCarts_set (phone +:+ "_delivery") (VStr "pickup") ;;
      cartText <- lift (formatCart cart false) ;;
      sendInteractiveMessage phone
        (text [ "💳 *MÉTODO DE PAGO*"; LF; LF;
                cartText; LF; LF;
                "🏪 *RETIRO EN LOCAL*"; LF; LF;
                "┌─────────────────────────┐"; LF;
                "│  1️⃣  💵 EFECTIVO       │"; LF;
                "│  2️⃣  💳 MERCADOPAGO    │"; LF;
                "└─────────────────────────┘"; LF; LF;
                "Tocá *1* para pagar en efectivo o *2* para MercadoPago." ]) ;;
      userStates_set phone PAYMENT_METHOD
    else
      sendInteractiveMessage phone
        (text [ "❌ *Opción no válida*"; LF; LF;
                "Por favor seleccioná:"; LF;
                "1️⃣ Delivery"; LF;
                "2️⃣ Retiro en local" ])
  else if bool_decide (userState = PAYMENT_METHOD) then
    stored <- userCarts_get (phone +:+ "_delivery") ;;
    let deliveryType := val_or stored (VStr "pickup") in
    let address := message in
    known <- userCarts_get (phone +:+ "_address") ;;
    if val_is deliveryType "delivery" && negb (from_option val_truthy false known) then
      userCarts_set (phone +:+ "_address") (VStr address) ;;
      cartText <- lift (formatCart cart false) ;;
      sendMessage phone (paymentPrompt cartText address)
    else if String.eqb message "1" then
      stored <- userCarts_get (phone +:+ "_address") ;;
      let finalAddress := val_or stored (VStr "") in
      processOrder phone customerName cart deliveryType finalAddress "efectivo" ;;
      userCarts_delete (phone +:+ "_delivery") ;;
      userCarts_delete (phone +:+ "_address")
    else if String.eqb message "2" then
      stored <- userCarts_get (phone +:+ "_address") ;;
      let finalAddress := val_or stored (VStr "") in
      l <- lift (as_array cart) ;;
      let total := cart_total l in
      ms <- Date_now ;;
      let orderId := Z_toString ms in
      let mpLink := generateMercadoPagoLink total orderId customerName in
      cartText <- lift (formatCart cart false) ;;
      sendInteractiveMessage phone (mpMessage cartText total mpLink orderId) ;;
      processOrder phone customerName cart deliveryType finalAddress "mercadopago" ;;
      userStates_set phone PAYMENT_CONFIRMATION ;;
      userCarts_delete (phone +:+ "_delivery") ;;
      userCarts_delete (phone +:+ "_address")
    else
      sendInteractiveMessage phone
        (text [ "❌ *Opción no válida*"; LF; LF;
                "Por favor seleccioná:"; LF;
                "1️⃣ Efectivo"; LF;
                "2️⃣ MercadoPago" ])
  else if test_selection message then
    menu <- getMenu ;;
    let productIds := parse_selection message in
    s <- lift (select_all menu productIds
                 {| sel_cart := cart; addedProducts := []; notFoundProducts := [] |}) ;;
    userCarts_set phone (sel_cart s) ;;
    cartText <- lift (formatCart (sel_cart s) true) ;;
    sendMessage phone (text [ selectionReport s; cartText ]) ;;
    userStates_set phone BROWSING_PRODUCTS
  else
    sendMessage phone (welcomeMessage customerName) ;;
    userStates_set phone MAIN_MENU.

(** [app.post('/webhook', ...)] *)
Definition webhook (req : Request) (w : World) : World * Response :=
  match message_of (Body req) with
  | None => (w, Raised)
  | Some message =>
      let phone := From req in
      let customerName := or_else (ProfileName req) "Cliente" in
      let userState := default MAIN_MENU (userStates w !! phone) in
      let cart := val_or (userCarts w !! phone) (VArr []) in
      match try_catch (dispatch req message phone customerName userState cart)
                      (sendMessage phone errorMessage) w with
      | (w', Some _) => (w', Ack200)
      | (w', None) => (w', Raised)
      end
  end.

(** *** Admin surface *)

(** The [switch (status)] of the status endpoint; the empty string when no
    case applies. *)
Definition notificationMessage (status : string) : string :=
  if String.eqb status "PREPARANDO" then
    text [ "👨‍🍳 ¡Tu pedido se está preparando!"; LF; LF;
           "Te avisamos cuando esté listo. ⏱️" ]
  else if String.eqb status "LISTO" then
    text [ "🎉 ¡Tu pedido está listo!"; LF; LF;
           "🏪 Ya podés pasar a retirarlo."; LF;
           "📍 Dirección: [Tu dirección del local]"; LF; LF;
           "¡Te esperamos! 😊" ]
  else if String.eqb status "EN_DELIVERY" then
    text [ "🚚 ¡Tu pedido salió para delivery!"; LF; LF;
           "📍 Llega a tu dirección en 15-20 minutos."; LF;
           "¡Mantenete atento! 📱" ]
  else if String.eqb status "ENTREGADO" then
    text [ "✅ ¡Pedido entregado!"; LF; LF;
           "🙏 Gracias por elegirnos."; LF;
           "⭐ Tu opinión es muy importante para nosotros." ]
  else if String.eqb status "FINALIZADO" then
    text [ "🏁 *Pedido finalizado*"; LF; LF;
           "✅ Tu pedido ha sido completado exitosamente."; LF;
           "¡Esperamos verte pronto! 😊" ]
  else if String.eqb status "CANCELADO" then
    text [ "❌ *Pedido cancelado*"; LF; LF;
           "😔 Tu pedido ha sido cancelado."; LF;
           "Si tenés alguna consulta, no dudes en contactarnos."; LF; LF;
           "¡Esperamos poder atenderte pronto! 🙏" ]
  else "".

(** [app.post('/api/orders/:phone/status', ...)] *)
Definition setOrderStatus (phone status : string) : M AdminReply :=
  try_catch
    (success <- updateOrderStatus (text [ "whatsapp:"; phone ]) status ;;
     if success then
       let notification := notificationMessage status in
       (if negb (String.eqb notification "")
        then notifyCustomer (text [ "whatsapp:"; phone ]) notification
        else ret tt) ;;
       ret Success200
     else ret NotFound404)
    (ret Error500).

(* ===================================================================== *)
(** ** Vocabulary of the properties *)
(* ===================================================================== *)

(** The catalogue that [getMenu] computes from the answer of the store. *)
Definition menu_of (reply : Reply (list (list string))) : list Product :=
  match reply with
  | Values (Some (headers :: data)) =>
      map product_of_row (List.filter (fun row => bool_decide (row !! 5 = Some "TRUE")) data)
  | _ => []
  end.

(** The row that [saveOrder] appends. *)
Definition order_row (date : Z) (orderData : OrderData) : list Cell :=
  [ CIso date;
    CStr (customerPhone orderData);
    CStr (customerName orderData);
    CJson (items orderData);
    CNum (total orderData);
    cell_of_val (deliveryType orderData);
    cell_of_val (val_or (Some (address orderData)) (VStr ""));
    CStr (or_else (Some (paymentMethod orderData)) "Efectivo");
    CStr (or_else (Some (paymentStatus orderData)) "Pendiente");
    CStr "NUEVO" ].

(** What [updateOrderStatus] finds and does, as a function of the sheet. *)
Definition status_target (w : World) (phone : string) : option nat :=
  if pedidosGet w
  then (if length (pedidos w) <=? 1 then None
        else scan_rows (pedidos w) phone (length (pedidos w) - 1))
  else None.

(** The product ids of the lines of a cart, in order. *)
Definition ids (l : list CartLine) : list (option string) :=
  map (fun item => id (product item)) l.

(** The quantity a cart holds of a product id: that of the line [cart.find]
    returns for it, 0 when there is none. *)
Definition qty (pid : option string) (l : list CartLine) : nat :=
  match List.find (fun item => bool_decide (id (product item) = pid)) l with
  | Some item => quantity item
  | None => 0
  end.

(** One more unit when the token resolves to a product of that id. *)
Definition hit (menu : list Product) (pid : option string) (productId : Z) : nat :=
  match find_product menu productId with
  | Some p => if bool_decide (id p = pid) then 1 else 0
  | None => 0
  end.

(** How many of the tokens resolve to a product of that id. *)
Definition hits (menu : list Product) (pid : option string) (productIds : list Z) : nat :=
  foldr (fun productId n => hit menu pid productId + n) 0 productIds.

(** The session as the handler reads it before the [try]. *)
Definition state_of (w : World) (phone : string) : State :=
  default MAIN_MENU (userStates w !! phone).

Definition cart_of (w : World) (phone : string) : Val :=
  val_or (userCarts w !! phone) (VArr []).

Definition name_of (req : Request) : string := or_else (ProfileName req) "Cliente".

(** The proof-of-payment branch is taken. *)
Definition receipt_event (req : Request) (w : World) : bool :=
  has_image req && bool_decide (state_of w (From req) = PAYMENT_CONFIRMATION).

(** The commands that are tried before the state is looked at. *)
Definition is_command (message : string) : bool :=
  String.eqb message "menu" || String.eqb message "menú" || String.eqb message "carrito"
  || String.eqb message "limpiar" || String.eqb message "cancelar"
  || String.eqb message "finalizar".

(** The pending fields as the PAYMENT_METHOD branch reads them. *)
Definition pending_delivery (w : World) (phone : string) : Val :=
  val_or (userCarts w !! (phone +:+ "_delivery")) (VStr "pickup").

Definition pending_address (w : World) (phone : string) : Val :=
  val_or (userCarts w !! (phone +:+ "_address")) (VStr "").

(** [deliveryType === 'delivery' && !userCarts.get(phone + '_address')] *)
Definition address_awaited (w : World) (phone : string) : bool :=
  val_is (pending_delivery w phone) "delivery"
  && negb (from_option val_truthy false (userCarts w !! (phone +:+ "_address"))).

(** The world after [processOrder] on an array. Two clock readings: the
    order id, then the date of the row. *)
Definition after_processOrder (phone customerName : string) (l : list CartLine)
    (deliveryType address : Val) (paymentMethod : string) (w : World) : World :=
  let orderId := Z_toString (now w (ticks w)) in
  let orderData := make_order phone customerName l deliveryType address paymentMethod orderId in
  with_outbox (fun o => o ++ [(phone, confirmMessage l (cart_total l) orderId
                                        deliveryType address paymentMethod)])
    (with_userStates (insert phone MAIN_MENU)
       (with_userCarts (insert phone (VArr []))
          (with_pedidos (fun rows => if pedidosAppend w
                                     then rows ++ [order_row (now w (S (ticks w))) orderData]
                                     else rows)
             (with_ticks S (with_ticks S w))))).

(** The two deletions that end both finalizing branches. *)
Definition clear_pending (phone : string) (w : World) : World :=
  with_userCarts (delete (phone +:+ "_address"))
    (with_userCarts (delete (phone +:+ "_delivery")) w).

(** The world in which the MercadoPago branch calls [processOrder]: one
    clock reading was taken for the link, and the text carrying it sent. *)
Definition after_link (phone customerName cartText : string) (l : list CartLine)
    (w : World) : World :=
  let orderId := Z_toString (now w (ticks w)) in
  with_outbox (fun o => o ++ [(phone, mpMessage cartText (cart_total l)
                                        (generateMercadoPagoLink (cart_total l) orderId customerName)
                                        orderId)])
    (with_ticks S w).

(** [s.endsWith(t)], used to tell the side keys of [userCarts]. *)
Definition endsWith (s t : string) : bool :=
  String.eqb (slice_last (String.length t) s) t.

(** A key under which the handler stores a string. *)
Definition side_key (key : string) : bool :=
  endsWith key "_delivery" || endsWith key "_address".

(** An entry of [userCarts] is fine when, as a cart, no two of its lines
    share a product id, and, as a string, it sits under a side key. *)
Definition entry_ok (key : string) (v : Val) : Prop :=
  match v with
  | VArr l => NoDup (ids l)
  | VStr _ => side_key key = true
  end.

Definition carts_ok (w : World) : Prop :=
  forall key v, userCarts w !! key = Some v -> entry_ok key v.

(** The worlds the process can be in: it starts with both maps empty, then
    handles webhook events and admin requests, while the spreadsheet, the
    clock and the channel outside change freely. *)
Inductive reachable : World -> Prop :=
  | reach_start (w : World) :
      userCarts w = ∅ -> userStates w = ∅ -> reachable w
  | reach_webhook (req : Request) (w : World) :
      reachable w -> reachable (webhook req w).1
  | reach_admin (phone status : string) (w : World) :
      reachable w -> reachable (setOrderStatus phone status w).1
  | reach_outside (w w' : World) :
      reachable w -> userCarts w' = userCarts w -> userStates w' = userStates w ->
      reachable w'.

(** A computation keeps the invariant, thrown or not. *)
Definition keeps {A} (m : M A) : Prop :=
  forall w, carts_ok w -> carts_ok (m w).1.

(** The world after the product-selection branch. *)
Definition after_selection (phone cartText : string) (s : Selection) (w : World) : World :=
  with_userStates (insert phone BROWSING_PRODUCTS)
    (with_outbox (fun o => o ++ [(phone, text [ selectionReport s; cartText ])])
       (with_userCarts (insert phone (sel_cart s)) w)).

(** *** Frame of an event *)

(** The keys of [userCarts] the handler uses for an identity. *)
Definition own_key (phone key : string) : bool :=
  String.eqb key phone || String.eqb key (phone +:+ "_delivery")
  || String.eqb key (phone +:+ "_address").

(** Rows stay where they are, and so do their cells, except in column K. *)
Definition rows_kept (rows rows' : list (list Cell)) : Prop :=
  forall i row, rows !! i = Some row ->
    exists row', rows' !! i = Some row' /\ length row <= length row' /\
      forall k, k < length row -> k <> column_K -> row' !! k = row !! k.

(** What handling an event of [phone] may change between two worlds:
    the map entries and the state of [phone], new rows and cells of
    column K in the sheet, messages to [phone], the clock. *)
Record frame (phone : string) (w w' : World) : Prop := {
  frame_carts : forall key, own_key phone key = false -> userCarts w' !! key = userCarts w !! key;
  frame_states : forall p, p <> phone -> userStates w' !! p = userStates w !! p;
  frame_menu : menuReply w' = menuReply w;
  frame_get : pedidosGet w' = pedidosGet w;
  frame_append : pedidosAppend w' = pedidosAppend w;
  frame_update : pedidosUpdate w' = pedidosUpdate w;
  frame_now : now w' = now w;
  frame_ticks : ticks w <= ticks w';
  frame_outbox : exists sent, outbox w' = outbox w ++ sent /\ Forall (fun m => m.1 = phone) sent;
  frame_rows : rows_kept (pedidos w) (pedidos w')
}.

(** Every run of a computation relates the worlds before and after. *)
Definition respects (R : World -> World -> Prop) {A} (m : M A) : Prop :=
  forall w, R w (m w).1.

(** A computation that returns has handed one message at least to the
    channel; one that throws has taken none back. *)
Definition speaks {A} (m : M A) : Prop :=
  forall w, length (outbox w) <= length (outbox (m w).1) /\
            ((m w).2 <> None -> length (outbox w) < length (outbox (m w).1)).

(** A computation that does not throw. *)
Definition never_throws {A} (m : M A) : Prop :=
  forall w, (m w).2 <> None.

(** *** Texts of the command branches *)

(** What [formatCart([], true)] returns. *)
Definition emptyCartText : string :=
  text [ "🛒 *TU CARRITO*"; LF; LF;
         "Carrito vacío"; LF; LF;
         "💰 *TOTAL: "; formatPrice (num_of_nat 0); "*"; LF; LF;
         "*Opciones disponibles:*"; LF;
         "• Enviá un número para agregar productos"; LF;
         "• Enviá varios números separados por comas (ej: 1,2,3)"; LF;
         "• *menu* - Ver menú completo" ].

Definition clearedMessage : string :=
  text [ "🗑️ Carrito vaciado."; LF; LF; emptyCartText ].

Definition cancelledMessage : string :=
  text [ "❌ *Pedido cancelado*"; LF; LF;
         "Tu carrito ha sido vaciado."; LF;
         "Enviá *menu* cuando quieras hacer un nuevo pedido." ].

Definition nothingToCancelMessage : string :=
  text [ "No tenés ningún pedido activo para cancelar."; LF;
         "Enviá *menu* para empezar un nuevo pedido." ].

(** The text sent on [finalizar] (lines 397 to 405). *)
Definition summaryMessage (cartText : string) : string :=
  text [ "🛒 *RESUMEN DE TU PEDIDO*"; LF; LF;
         cartText; LF; LF;
         "🏠 *SELECCIONÁ EL TIPO DE ENTREGA:*"; LF; LF;
         "┌─────────────────────┐"; LF;
         "│  1️⃣  🚚 DELIVERY     │"; LF;
         "│  2️⃣  🏪 RETIRO      │"; LF;
         "└─────────────────────┘"; LF; LF;
         "Tocá *1* para delivery o *2* para retiro en local." ].

Definition askAddressMessage : string :=
  text [ "📍 *DIRECCIÓN PARA DELIVERY*"; LF; LF;
         "Por favor enviá tu dirección completa:"; LF; LF;
         "*Ejemplo:* Av. Corrientes 1234, CABA" ].

(** The text sent when pickup is chosen (lines 422 to 429). *)
Definition pickupPaymentMessage (cartText : string) : string :=
  text [ "💳 *MÉTODO DE PAGO*"; LF; LF;
         cartText; LF; LF;
         "🏪 *RETIRO EN LOCAL*"; LF; LF;
         "┌─────────────────────────┐"; LF;
         "│  1️⃣  💵 EFECTIVO       │"; LF;
         "│  2️⃣  💳 MERCADOPAGO    │"; LF;
         "└─────────────────────────┘"; LF; LF;
         "Tocá *1* para pagar en efectivo o *2* para MercadoPago." ].

Definition invalidDeliveryMessage : string :=
  text [ "❌ *Opción no válida*"; LF; LF;
         "Por favor seleccioná:"; LF;
         "1️⃣ Delivery"; LF;
         "2️⃣ Retiro en local" ].

Definition invalidPaymentMessage : string :=
  text [ "❌ *Opción no válida*"; LF; LF;
         "Por favor seleccioná:"; LF;
         "1️⃣ Efectivo"; LF;
         "2️⃣ MercadoPago" ].

(** One more message to the sender. *)
Definition reply (phone body : string) (w : World) : World :=
  with_outbox (fun o => o ++ [(phone, body)]) w.

(** An event that carries text and no media. *)
Definition text_event (phone : string) (profileName : option string) (body : string)
  : Request :=
  {| Body := Text body; From := phone; ProfileName := profileName;
     MediaUrl0 := None; MediaContentType0 := None |}.

(** The pending fields of an identity are the same in two worlds. *)
Definition same_pending (phone : string) (w w' : World) : Prop :=
  userCarts w' !! (phone +:+ "_delivery") = userCarts w !! (phone +:+ "_delivery") /\
  userCarts w' !! (phone +:+ "_address") = userCarts w !! (phone +:+ "_address").


(** The statuses the admin endpoint has a notification for. *)
Definition notified_statuses : list string :=
  [ "PREPARANDO"; "LISTO"; "EN_DELIVERY"; "ENTREGADO"; "FINALIZADO"; "CANCELADO" ].

(** A line as the bot makes them: one unit at least of a product whose flag
    was true in the catalog it was taken from. *)
Definition line_ok (item : CartLine) : Prop :=
  1 <= quantity item /\ available (product item) = true.

Definition lines_ok (v : Val) : Prop :=
  match v with
  | VArr l => Forall line_ok l
  | VStr _ => True
  end.

Definition all_lines_ok (w : World) : Prop :=
  forall key v, userCarts w !! key = Some v -> lines_ok v.

(** A computation keeps [all_lines_ok], and what it returns satisfies [Q]. *)
Definition keeps_lines {A} (m : M A) (Q : A -> Prop) : Prop :=
  forall w, all_lines_ok w ->
    all_lines_ok (m w).1 /\ forall a, (m w).2 = Some a -> Q a.

(** *** Admin surface: the order list *)

(** Reading a cell back. The text the Sheets API returns for a cell is not
    modelled, so the two functions that parse it are an interface:
    [JSON.parse] ([None] when it throws) and [parseFloat], on cells. *)
Class Reader := {
  Json : Type;
  JSON_parse : Cell -> option Json;
  cell_parseFloat : option Cell -> number
}.

Context `{RD : Reader}.

(** An element of the array [GET /api/orders] answers with. The fields bear
    the names of the source with a prefix, [orderData] having taken them. *)
Record OrderView := {
  ov_rowIndex : nat;
  ov_date : option Cell;
  ov_phone : option Cell;
  ov_customer : option Cell;
  ov_items : Json;
  ov_total : number;
  ov_deliveryType : option Cell;
  ov_address : option Cell;
  ov_paymentMethod : Cell;
  ov_paymentStatus : Cell;
  ov_status : Cell
}.

(** The callback of [data.map((row, index) => ...)]; [None] when
    [JSON.parse] throws. *)
Definition order_of_row (row : list Cell) (index : nat) : option OrderView :=
  items ← JSON_parse (cell_or (row !! 3) "[]");
  Some {| ov_rowIndex := index + 2;
          ov_date := row !! 0;
          ov_phone := row !! 1;
          ov_customer := row !! 2;
          ov_items := items;
          ov_total := cell_parseFloat (row !! 4);
          ov_deliveryType := row !! 5;
          ov_address := row !! 6;
          ov_paymentMethod := cell_or (row !! 7) "Efectivo";
          ov_paymentStatus := cell_or (row !! 8) "Pendiente";
          ov_status := cell_or (row !! 9) "NUEVO" |}.

(** [data.map(...)] from a given index on, stopped by the first throw. *)
Fixpoint orders_from (index : nat) (data : list (list Cell)) : option (list OrderView) :=
  match data with
  | [] => Some []
  | row :: rest =>
      order ← order_of_row row index;
      orders ← orders_from (S index) rest;
      Some (order :: orders)
  end.

(** Answers of [GET /api/orders]. *)
Inductive ListReply :=
  | OrdersJson (orders : list OrderView)
  | ListError500.

(** [app.get('/api/orders', ...)] *)
Definition listOrders : M ListReply :=
  try_catch
    (rows <- sheets_get_pedidos ;;
     match rows with
     | None => ret (OrdersJson [])
     | Some rows =>
         if length rows <=? 1 then ret (OrdersJson [])
         else match rows with
              | headers :: data =>
                  orders <- lift (orders_from 0 data) ;;
                  ret (OrdersJson orders)
              | [] => ret (OrdersJson [])
              end
     end)
    (ret ListError500).

End Bot.

(* ===================================================================== *)
(** ** A conversation, run *)
(* ===================================================================== *)

Module Scenario.

(** Lower case for the accented capitals of Spanish: in UTF-8 the capitals
    of Latin-1 Supplement (U+00C0 to U+00DE without the multiplication sign
    U+00D7) are the lead byte 195 and a byte from 128 to 158, and the small
    letter is 32 further. *)
Fixpoint lower_latin1 (after_c3 : bool) (s : string) : string :=
  match s with
  | EmptyString => EmptyString
  | String c s' =>
      let n := nat_of_ascii c in
      if after_c3 && (128 <=? n) && (n <=? 158) && negb (n =? 151)
      then String (ascii_of_nat (n + 32)) (lower_latin1 false s')
      else String (lower_char c) (lower_latin1 (n =? 195) s')
  end.

(** Texts in Spanish; prices in whole pesos, [None] is NaN. *)
#[export] Instance pesos : Runtime := {|
  toLowerCase_unicode := lower_latin1 false;
  number := option Z;
  parseFloat := parseInt;
  num_of_nat := fun n => Some (Z.of_nat n);
  num_add := fun a b => x ← a; y ← b; Some (x + y)%Z;
  num_mul := fun a b => x ← a; y ← b; Some (x * y)%Z;
  num_toString := from_option Z_toString "NaN";
  formatPrice := fun a => text [ "$ "; from_option Z_toString "NaN" a ]
|}.

Definition phone : string := "whatsapp:+5491155550000".

Definition menu_rows : list (list string) :=
  [ [ "id"; "nombre"; "descripcion"; "precio"; "categoria"; "disponible" ];
    [ "1"; "Empanada"; ""; "900"; "Entradas"; "TRUE" ];
    [ "2"; "Milanesa"; "Con papas"; "5500"; "Platos"; "TRUE" ];
    [ "3"; "Flan"; ""; "2000"; "Postres"; "FALSE" ] ].

Definition empanada : Product := product_of_row [ "1"; "Empanada"; ""; "900"; "Entradas"; "TRUE" ].
Definition milanesa : Product :=
  product_of_row [ "2"; "Milanesa"; "Con papas"; "5500"; "Platos"; "TRUE" ].

Definition pedidos_header : list Cell :=
  map CStr [ "Fecha"; "Telefono"; "Cliente"; "Items"; "Total"; "Entrega";
             "Direccion"; "Pago"; "Estado pago"; "Estado" ].

(** The process has just started; the sheet Pedidos holds its header. *)
Definition start : World :=
  {| userCarts := ∅; userStates := ∅;
     menuReply := Values (Some menu_rows);
     pedidos := [ pedidos_header ];
     pedidosGet := true; pedidosAppend := true; pedidosUpdate := true;
     outbox := [];
     now := fun k => (1730000123456 + 789 * Z.of_nat k)%Z;
     ticks := 0 |}.

Definition says (body : string) : Request :=
  {| Body := Text body; From := phone; ProfileName := Some "Ana";
     MediaUrl0 := None; MediaContentType0 := None |}.

Definition sends_image (body : BodyField) : Request :=
  {| Body := body; From := phone; ProfileName := Some "Ana";
     MediaUrl0 := Some "https://api.twilio.com/media/ME1";
     MediaContentType0 := Some "image/jpeg" |}.

(** The world after a sequence of events. *)
Definition after (reqs : list Request) (w : World) : World :=
  foldl (fun w req => (webhook req w).1) w reqs.

(** Two empanadas and a milanesa, to be picked up: the session waits for
    the payment method. *)
Definition at_payment : World :=
  after [ says "1,2,1"; says "finalizar"; says "2" ] start.

Definition cart_121 : list CartLine :=
  [ {| product := empanada; quantity := 2 |}; {| product := milanesa; quantity := 1 |} ].

(** The same order, paid online. *)
Definition paid_online : World := after [ says "2" ] at_payment.

(** One empanada, to be delivered: the session waits for the address. *)
Definition at_address : World :=
  after [ says "1"; says "finalizar"; says "1" ] start.

(** Reading cells back: the items are the lines that were saved, or none
    for the text of an empty array; anything else is not JSON here. *)
#[export] Instance reader : Reader := {|
  Json := list CartLine;
  JSON_parse := fun c => match c with
                         | CJson l => Some l
                         | CStr "[]" => Some []
                         | _ => None
                         end;
  cell_parseFloat := fun c => match c with
                              | Some (CNum n) => n
                              | Some (CStr s) => parseInt (Some s)
                              | _ => None
                              end
|}.

(** The no-break space U+00A0, which some keyboards put after a digit. *)
Definition NBSP : string := String "194" (String "160" EmptyString).

(** A second customer. *)
Definition phone2 : string := "whatsapp:+5491166660000".

Definition says2 (body : string) : Request :=
  {| Body := Text body; From := phone2; ProfileName := Some "Beto";
     MediaUrl0 := None; MediaContentType0 := None |}.

(** Both customers have something in their cart. *)
Definition two_sessions : World := after [ says "1"; says2 "2" ] start.

(** The first customer has put two empanadas and a milanesa in the cart. *)
Definition with_cart : World := after [ says "1,2,1" ] start.

(** ... and has asked to finalize: the session waits for the delivery
    type. *)
Definition at_delivery : World := after [ says "1,2,1"; says "finalizar" ] start.

(** An order for delivery abandoned once the address was given, then a new
    cart and [finalizar]: the old address is still stored. *)
Definition with_old_address : World :=
  after [ says "Av. Corrientes 1234"; says "cancelar"; says "2"; says "finalizar" ]
    at_address.

(** [at_payment] with a store that rejects appends. *)
Definition append_down : World :=
  {| userCarts := userCarts at_payment; userStates := userStates at_payment;
     menuReply := menuReply at_payment; pedidos := pedidos at_payment;
     pedidosGet := true; pedidosAppend := false; pedidosUpdate := true;
     outbox := outbox at_payment; now := now at_payment; ticks := ticks at_payment |}.

(** [paid_online] with a sheet that cannot be read. *)
Definition sheet_down : World :=
  {| userCarts := userCarts paid_online; userStates := userStates paid_online;
     menuReply := menuReply paid_online; pedidos := pedidos paid_online;
     pedidosGet := false; pedidosAppend := true; pedidosUpdate := true;
     outbox := outbox paid_online; now := now paid_online; ticks := ticks paid_online |}.

(** [start] with a catalog that cannot be read. *)
Definition catalog_down : World :=
  {| userCarts := ∅; userStates := ∅;
     menuReply := Rejected;
     pedidos := [ pedidos_header ];
     pedidosGet := true; pedidosAppend := true; pedidosUpdate := true;
     outbox := [];
     now := now start;
     ticks := 0 |}.

(** A sheet with a row typed in by hand, its items cell not JSON. *)
Definition hand_row : list Cell :=
  map CStr [ "2024-11-03"; "whatsapp:+5491155550000"; "Ana"; "2 empanadas" ].

Definition with_hand_row : World :=
  {| userCarts := ∅; userStates := ∅;
     menuReply := Values (Some menu_rows);
     pedidos := [ pedidos_header; hand_row ];
     pedidosGet := true; pedidosAppend := true; pedidosUpdate := true;
     outbox := [];
     now := now start;
     ticks := 0 |}.

(** The row of the online order in the sheet of [paid_online]. *)
Definition online_row : list Cell := default [] (pedidos paid_online !! 1).

(** What the order list answers in [paid_online]. *)
Definition listed_orders : list OrderView :=
  match (listOrders paid_online).2 with
  | Some (OrdersJson orders) => orders
  | _ => []
  end.

End Scenario.

(* ===================================================================== *)
(** ** Properties *)
(* ===================================================================== *)

Section Properties.

Context `{RT : Runtime}.

Notation "x <- m ;; k" := (bind m (fun x => k))
  (at level 100, m at next level, right associativity).
Notation "m ;; k" := (bind m (fun _ => k))
  (at level 100, right associativity).

(* ===================================================================== *)
(** ** Running the gateways *)
(* ===================================================================== *)

Lemma filter_map_comm {A B} (f : B -> bool) (g : A -> B) (l : list A) :
  List.filter f (map g l) = map g (List.filter (fun a => f (g a)) l).
Proof.
  induction l as [|a l IH]; simpl; [reflexivity|].
  destruct (f (g a)); simpl; rewrite IH; reflexivity.
Qed.

Lemma getMenu_run (w : World) : getMenu w = (w, Some (menu_of (menuReply w))).
Proof.
  unfold getMenu, try_catch, bind, sheets_get_menu, menu_of.
  destruct (menuReply w) as [|[[|headers data]|]]; simpl; try reflexivity.
  rewrite filter_map_comm. reflexivity.
Qed.

(** C9. [getMenu] returns the data rows of the catalog (the first row is
    the header) whose sixth cell is the literal TRUE, as products and in the
    order of the sheet; when the read is rejected, or answers no rows, it
    returns the empty list. It never throws and changes nothing. *)
Theorem getMenu_available_rows (w : World) :
  getMenu w =
    (w, Some match menuReply w with
             | Rejected => []
             | Values None => []
             | Values (Some []) => []
             | Values (Some (headers :: data)) =>
                 map product_of_row
                   (List.filter (fun row => bool_decide (row !! 5 = Some "TRUE")) data)
             end).
Proof.
  rewrite getMenu_run. unfold menu_of.
  destruct (menuReply w) as [|[[|headers data]|]]; reflexivity.
Qed.

Lemma menu_of_available (reply : Reply (list (list string))) (p : Product) :
  In p (menu_of reply) -> available p = true.
Proof.
  unfold menu_of. destruct reply as [|[[|headers data]|]]; simpl; try tauto.
  rewrite in_map_iff. intros (row & <- & Hin).
  apply filter_In in Hin. destruct Hin as [_ Hflag]. exact Hflag.
Qed.

Lemma saveOrder_run (orderData : OrderData) (w : World) :
  saveOrder orderData w =
    (with_pedidos (fun rows => if pedidosAppend w
                               then rows ++ [order_row (now w (ticks w)) orderData]
                               else rows)
       (with_ticks S w), Some tt).
Proof.
  unfold saveOrder, try_catch, bind, Date_now, sheets_append_pedidos, ret. simpl.
  destruct (pedidosAppend w); reflexivity.
Qed.

Lemma updateOrderStatus_run (phone newStatus : string) (w : World) :
  updateOrderStatus phone newStatus w =
    match status_target w phone with
    | Some i =>
        if pedidosUpdate w
        then (with_pedidos (alter (set_cell column_K (CStr newStatus)) i) w, Some true)
        else (w, Some false)
    | None => (w, Some false)
    end.
Proof.
  unfold updateOrderStatus, status_target, try_catch, bind, sheets_get_pedidos.
  destruct (pedidosGet w); [|reflexivity].
  destruct (pedidos w) as [|r rows] eqn:Hrows; [reflexivity|].
  destruct (length (r :: rows) <=? 1); [reflexivity|].
  destruct (scan_rows _ _ _) as [i|]; [|reflexivity].
  unfold sheets_update_pedidos, ret.
  destruct (pedidosUpdate w); [|reflexivity].
  replace (i + 1 - 1) with i by lia. reflexivity.
Qed.

(** The scan stops at the last row, header excluded, whose second cell is
    the phone. *)
Lemma scan_rows_Some (rows : list (list Cell)) (phone : string) (n i : nat) :
  scan_rows rows phone n = Some i ->
  1 <= i <= n /\ row_phone_is (rows !! i) phone = true /\
  forall j, i < j <= n -> row_phone_is (rows !! j) phone = false.
Proof.
  induction n as [|n IH]; simpl; [discriminate|].
  destruct (row_phone_is (rows !! S n) phone) eqn:Hn.
  - intros [= <-]. split; [lia|]. split; [exact Hn|]. intros j Hj. lia.
  - intros Hscan. destruct (IH Hscan) as (Hi & Hrow & Hlater).
    split; [lia|]. split; [exact Hrow|].
    intros j Hj. destruct (decide (j = S n)) as [->|Hne]; [exact Hn|].
    apply Hlater. lia.
Qed.

Lemma scan_rows_None (rows : list (list Cell)) (phone : string) (n : nat) :
  scan_rows rows phone n = None <->
  forall j, 1 <= j <= n -> row_phone_is (rows !! j) phone = false.
Proof.
  induction n as [|n IH]; simpl.
  - split; [intros _ j Hj; lia | reflexivity].
  - destruct (row_phone_is (rows !! S n) phone) eqn:Hn.
    + split; [discriminate|]. intros H. rewrite H in Hn by lia. discriminate.
    + rewrite IH. split.
      * intros H j Hj. destruct (decide (j = S n)) as [->|Hne]; [exact Hn|].
        apply H. lia.
      * intros H j Hj. apply H. lia.
Qed.

(* ===================================================================== *)
(** ** The cart loop *)
(* ===================================================================== *)

Lemma find_none_not_in (pid : option string) (l : list CartLine) :
  List.find (fun item => bool_decide (id (product item) = pid)) l = None ->
  pid ∉ ids l.
Proof.
  induction l as [|item l IH]; simpl.
  - intros _ Hin. inversion Hin.
  - case_bool_decide as Hid; [discriminate|].
    intros Hfind Hin. apply elem_of_cons in Hin as [Heq|Hin].
    + congruence.
    + exact (IH Hfind Hin).
Qed.

Lemma ids_bump_first (pid : option string) (l : list CartLine) :
  ids (bump_first pid l) = ids l.
Proof.
  induction l as [|item l IH]; simpl; [reflexivity|].
  case_bool_decide; simpl; [reflexivity|]. rewrite IH. reflexivity.
Qed.

Lemma ids_add_to_cart (p : Product) (l : list CartLine) :
  ids (add_to_cart p l) = ids l \/
  ((id p ∉ ids l) /\ ids (add_to_cart p l) = ids l ++ [id p]).
Proof.
  unfold add_to_cart.
  destruct (List.find _ l) as [existingItem|] eqn:Hfind.
  - left. apply ids_bump_first.
  - right. split; [exact (find_none_not_in _ _ Hfind)|].
    unfold ids. rewrite map_app. reflexivity.
Qed.

Lemma add_to_cart_NoDup (p : Product) (l : list CartLine) :
  NoDup (ids l) -> NoDup (ids (add_to_cart p l)).
Proof.
  intros Hnd. destruct (ids_add_to_cart p l) as [->|[Hnotin ->]]; [exact Hnd|].
  apply NoDup_app. split; [exact Hnd|]. split.
  - intros x Hx Hx'. apply list_elem_of_singleton in Hx'. subst x. exact (Hnotin Hx).
  - apply NoDup_singleton.
Qed.

Lemma qty_bump_first (pid pid' : option string) (l : list CartLine) :
  pid ∈ ids l ->
  qty pid' (bump_first pid l) = qty pid' l + (if bool_decide (pid = pid') then 1 else 0).
Proof.
  unfold qty. induction l as [|item l IH]; simpl.
  - intros Hin. inversion Hin.
  - intros Hin. destruct (decide (id (product item) = pid)) as [Heq|Hne].
    + rewrite (bool_decide_eq_true_2 _ Heq). simpl. subst pid.
      destruct (decide (id (product item) = pid')) as [Heq'|Hne'].
      * rewrite !(bool_decide_eq_true_2 _ Heq'). reflexivity.
      * rewrite !(bool_decide_eq_false_2 _ Hne'). lia.
    + rewrite (bool_decide_eq_false_2 _ Hne). simpl.
      apply elem_of_cons in Hin as [Heq|Hin]; [congruence|].
      destruct (decide (id (product item) = pid')) as [Heq'|Hne'].
      * rewrite (bool_decide_eq_true_2 _ Heq').
        rewrite bool_decide_eq_false_2 by congruence. lia.
      * rewrite (bool_decide_eq_false_2 _ Hne'). exact (IH Hin).
Qed.

Lemma qty_push (p : Product) (pid' : option string) (l : list CartLine) :
  id p ∉ ids l ->
  qty pid' (l ++ [ {| product := p; quantity := 1 |} ]) =
  qty pid' l + (if bool_decide (id p = pid') then 1 else 0).
Proof.
  unfold qty. induction l as [|item l IH]; simpl.
  - intros _. case_bool_decide; reflexivity.
  - intros Hnotin. apply not_elem_of_cons in Hnotin as [Hne Hnotin].
    destruct (decide (id (product item) = pid')) as [Heq'|Hne'].
    + rewrite (bool_decide_eq_true_2 _ Heq').
      rewrite bool_decide_eq_false_2 by congruence. lia.
    + rewrite (bool_decide_eq_false_2 _ Hne'). exact (IH Hnotin).
Qed.

Lemma find_some_in (pid : option string) (l : list CartLine) (item : CartLine) :
  List.find (fun item => bool_decide (id (product item) = pid)) l = Some item ->
  pid ∈ ids l.
Proof.
  intros Hfind. apply find_some in Hfind as [Hin Hid].
  apply bool_decide_eq_true_1 in Hid. subst pid.
  apply list_elem_of_In. unfold ids. apply in_map_iff. eauto.
Qed.

(** Adding a product raises the quantity of its id by one and leaves the
    others alone. *)
Lemma qty_add_to_cart (p : Product) (pid' : option string) (l : list CartLine) :
  qty pid' (add_to_cart p l) = qty pid' l + (if bool_decide (id p = pid') then 1 else 0).
Proof.
  unfold add_to_cart.
  destruct (List.find _ l) as [existingItem|] eqn:Hfind.
  - apply qty_bump_first. exact (find_some_in _ _ _ Hfind).
  - apply qty_push. exact (find_none_not_in _ _ Hfind).
Qed.

(** The loop over the tokens, on a cart that is an array: it never throws,
    the cart stays an array without duplicate ids, and each quantity grows
    by the number of tokens resolved to its id. *)
Lemma select_all_array (menu : list Product) (productIds : list Z)
    (l : list CartLine) (added : list (option string)) (missing : list string) :
  exists l',
    select_all menu productIds
      {| sel_cart := VArr l; addedProducts := added; notFoundProducts := missing |}
    = Some {| sel_cart := VArr l';
              addedProducts :=
                added ++ omap (fun n => name <$> find_product menu n) productIds;
              notFoundProducts :=
                missing ++ omap (fun n => match find_product menu n with
                                        | Some _ => None
                                        | None => Some (Number_toString n)
                                        end) productIds |}
    /\ (NoDup (ids l) -> NoDup (ids l'))
    /\ (forall pid, qty pid l' = qty pid l + hits menu pid productIds).
Proof.
  revert l added missing.
  induction productIds as [|n rest IH]; intros l added missing; simpl.
  - exists l. rewrite !app_nil_r. split; [reflexivity|]. split; [tauto|].
    intros pid. lia.
  - unfold select_one, hit. destruct (find_product menu n) as [p|] eqn:Hfind; simpl.
    + destruct (IH (add_to_cart p l) (added ++ [name p]) missing) as (l' & Hrun & Hnd & Hqty).
      exists l'. rewrite Hrun, <- !app_assoc. simpl. split; [reflexivity|].
      split; [intros H; apply Hnd, add_to_cart_NoDup, H|].
      intros pid. rewrite Hqty, qty_add_to_cart. lia.
    + destruct (IH l added (missing ++ [Number_toString n])) as (l' & Hrun & Hnd & Hqty).
      exists l'. rewrite Hrun, <- !app_assoc. simpl. split; [reflexivity|].
      split; [exact Hnd|]. intros pid. rewrite Hqty. lia.
Qed.

(* ===================================================================== *)
(** ** Running the webhook *)
(* ===================================================================== *)

(** Messages are kept folded while the handler is run symbolically. *)
Arguments text : simpl never.
Arguments formatCart : simpl never.
Arguments welcomeMessage : simpl never.
Arguments paymentPrompt : simpl never.
Arguments mpMessage : simpl never.
Arguments selectionReport : simpl never.
Arguments generateMercadoPagoLink : simpl never.
Arguments Z_toString : simpl never.
Arguments Number_toString : simpl never.

Lemma webhook_run (req : Request) (w : World) (message : string) :
  message_of (Body req) = Some message ->
  webhook req w =
    match try_catch (dispatch req message (From req) (name_of req)
                       (state_of w (From req)) (cart_of w (From req)))
                    (sendMessage (From req) errorMessage) w with
    | (w', Some _) => (w', Ack200)
    | (w', None) => (w', Raised)
    end.
Proof. intros Hm. unfold webhook. rewrite Hm. reflexivity. Qed.

(** Whatever happens inside the [try], the handler acknowledges. *)
Lemma webhook_ack (req : Request) (w : World) (message : string) :
  message_of (Body req) = Some message -> (webhook req w).2 = Ack200.
Proof.
  intros Hm. rewrite (webhook_run _ _ _ Hm). unfold try_catch.
  destruct (dispatch _ _ _ _ _ _ w) as [w' [[]|]]; reflexivity.
Qed.


Lemma not_command_spec (message : string) :
  is_command message = false ->
  String.eqb message "menu" = false /\ String.eqb message "menú" = false /\
  String.eqb message "carrito" = false /\ String.eqb message "limpiar" = false /\
  String.eqb message "cancelar" = false /\ String.eqb message "finalizar" = false.
Proof.
  unfold is_command. intros H.
  repeat (apply orb_false_elim in H as [H ?]). repeat split; assumption.
Qed.

(** Below the commands: the part of [dispatch] that looks at the state. *)
Lemma dispatch_not_command (req : Request) (message phone customerName : string)
    (userState : State) (cart : Val) :
  has_image req && bool_decide (userState = PAYMENT_CONFIRMATION) = false ->
  is_command message = false ->
  userState <> DELIVERY_INFO -> userState <> PAYMENT_METHOD ->
  dispatch req message phone customerName userState cart =
    if test_selection message then
      menu <- getMenu ;;
      let productIds := parse_selection message in
      s <- lift (select_all menu productIds
                   {| sel_cart := cart; addedProducts := []; notFoundProducts := [] |}) ;;
      userCarts_set phone (sel_cart s) ;;
      cartText <- lift (formatCart (sel_cart s) true) ;;
      sendMessage phone (text [ selectionReport s; cartText ]) ;;
      userStates_set phone BROWSING_PRODUCTS
    else
      sendMessage phone (welcomeMessage customerName) ;;
      userStates_set phone MAIN_MENU.
Proof.
  intros Himg Hcmd Hd Hp. apply not_command_spec in Hcmd.
  destruct Hcmd as (H1 & H2 & H3 & H4 & H5 & H6).
  unfold dispatch. rewrite Himg, H1, H2, H3, H4, H5, H6. simpl.
  rewrite !bool_decide_eq_false_2 by assumption. reflexivity.
Qed.

(** C10. An event whose [Body] is absent or empty never makes the handler
    raise: it is acknowledged in every state. When the session is in
    MAIN_MENU or BROWSING_PRODUCTS (media or not), the default branch runs:
    the welcome text is sent, the state becomes MAIN_MENU, and nothing else
    changes, the cart included. *)
Theorem empty_body_is_welcomed (req : Request) (w : World) :
  Body req = Absent \/ Body req = Text "" ->
  (webhook req w).2 = Ack200 /\
  (state_of w (From req) = MAIN_MENU \/ state_of w (From req) = BROWSING_PRODUCTS ->
   webhook req w =
     (with_userStates (insert (From req) MAIN_MENU)
        (with_outbox (fun o => o ++ [(From req, welcomeMessage (name_of req))]) w),
      Ack200)).
Proof.
  intros Hbody.
  assert (Hm : message_of (Body req) = Some "").
  { destruct Hbody as [-> | ->]; reflexivity. }
  split; [exact (webhook_ack _ _ _ Hm)|].
  intros Hstate. rewrite (webhook_run _ _ _ Hm).
  rewrite dispatch_not_command; [reflexivity| |reflexivity| |].
  - destruct Hstate as [-> | ->]; apply andb_false_r.
  - destruct Hstate as [-> | ->]; discriminate.
  - destruct Hstate as [-> | ->]; discriminate.
Qed.

Lemma length_append (s t : string) :
  String.length (s +:+ t) = String.length s + String.length t.
Proof. induction s as [|c s IH]; simpl; [reflexivity|]. rewrite IH. reflexivity. Qed.

(** The side keys of a phone differ from the phone and from each other. *)
Lemma key_delivery_ne (phone : string) : phone +:+ "_delivery" <> phone.
Proof.
  intros H. apply (f_equal String.length) in H. rewrite length_append in H.
  simpl in H. lia.
Qed.

Lemma key_address_ne (phone : string) : phone +:+ "_address" <> phone.
Proof.
  intros H. apply (f_equal String.length) in H. rewrite length_append in H.
  simpl in H. lia.
Qed.

Lemma key_delivery_address_ne (phone : string) :
  phone +:+ "_delivery" <> phone +:+ "_address".
Proof.
  intros H. apply (f_equal String.length) in H. rewrite !length_append in H.
  simpl in H. lia.
Qed.

(** [formatCart] does not throw on an array. *)
Lemma formatCart_array (l : list CartLine) (showOptions : bool) :
  exists cartText, formatCart (VArr l) showOptions = Some cartText.
Proof.
  unfold formatCart. simpl.
  destruct (length l =? 0); simpl; eexists; reflexivity.
Qed.

Lemma processOrder_run (phone customerName : string) (l : list CartLine)
    (deliveryType address : Val) (paymentMethod : string) (w : World) :
  processOrder phone customerName (VArr l) deliveryType address paymentMethod w =
    (after_processOrder phone customerName l deliveryType address paymentMethod w,
     Some (Z_toString (now w (ticks w)))).
Proof.
  unfold processOrder, bind, lift, ret, Date_now. simpl.
  rewrite saveOrder_run. reflexivity.
Qed.

(** On a string, [processOrder] throws at once and writes nothing. *)
Lemma processOrder_string (phone customerName s : string)
    (deliveryType address : Val) (paymentMethod : string) (w : World) :
  processOrder phone customerName (VStr s) deliveryType address paymentMethod w = (w, None).
Proof. reflexivity. Qed.

(** The PAYMENT_METHOD branch, once commands and the receipt are out. *)
Lemma dispatch_payment_method (req : Request) (message phone customerName : string)
    (cart : Val) :
  is_command message = false ->
  dispatch req message phone customerName PAYMENT_METHOD cart =
    (stored <- userCarts_get (phone +:+ "_delivery") ;;
     let deliveryType := val_or stored (VStr "pickup") in
     let address := message in
     known <- userCarts_get (phone +:+ "_address") ;;
     if val_is deliveryType "delivery" && negb (from_option val_truthy false known) then
       userCarts_set (phone +:+ "_address") (VStr address) ;;
       cartText <- lift (formatCart cart false) ;;
       sendMessage phone (paymentPrompt cartText address)
     else if String.eqb message "1" then
       stored <- userCarts_get (phone +:+ "_address") ;;
       let finalAddress := val_or stored (VStr "") in
       processOrder phone customerName cart deliveryType finalAddress "efectivo" ;;
       userCarts_delete (phone +:+ "_delivery") ;;
       userCarts_delete (phone +:+ "_address")
     else if String.eqb message "2" then
       stored <- userCarts_get (phone +:+ "_address") ;;
       let finalAddress := val_or stored (VStr "") in
       l <- lift (as_array cart) ;;
       let total := cart_total l in
       ms <- Date_now ;;
       let orderId := Z_toString ms in
       let mpLink := generateMercadoPagoLink total orderId customerName in
       cartText <- lift (formatCart cart false) ;;
       sendInteractiveMessage phone (mpMessage cartText total mpLink orderId) ;;
       processOrder phone customerName cart deliveryType finalAddress "mercadopago" ;;
       userStates_set phone PAYMENT_CONFIRMATION ;;
       userCarts_delete (phone +:+ "_delivery") ;;
       userCarts_delete (phone +:+ "_address")
     else
       sendInteractiveMessage phone
         (text [ "❌ *Opción no válida*"; LF; LF;
                 "Por favor seleccioná:"; LF;
                 "1️⃣ Efectivo"; LF;
                 "2️⃣ MercadoPago" ])).
Proof.
  intros Hcmd. apply not_command_spec in Hcmd.
  destruct Hcmd as (H1 & H2 & H3 & H4 & H5 & H6).
  unfold dispatch. rewrite andb_false_r, H1, H2, H3, H4, H5, H6. reflexivity.
Qed.

(** C8, as the code has it. When [finalizar] arrives for an empty cart and
    the event is not a receipt image in PAYMENT_CONFIRMATION, the only
    effect is the empty-cart reply: the state, the maps, the sheet and the
    clock are as before, so no order was saved and no status written. *)
Theorem finalizar_empty_cart (req : Request) (w : World) :
  message_of (Body req) = Some "finalizar" ->
  val_length (cart_of w (From req)) = 0 ->
  receipt_event req w = false ->
  webhook req w =
    (with_outbox (fun o => o ++ [(From req, emptyCartMessage)]) w, Ack200).
Proof.
  intros Hm Hlen Himg. rewrite (webhook_run _ _ _ Hm).
  unfold receipt_event in Himg. unfold dispatch. rewrite Himg. simpl.
  rewrite Hlen. reflexivity.
Qed.

(** C6, as the code has it. In PAYMENT_METHOD, with delivery pending and no
    address yet, a message that is not one of the commands is stored as the
    address in its normalized form (lower case, trimmed), which is what
    [message_of] returns; the cart being an array, the payment prompt is
    sent; the state, the sheet and the clock are untouched, so no order is
    created. *)
Theorem address_is_recorded (req : Request) (w : World) (message : string)
    (l : list CartLine) :
  message_of (Body req) = Some message ->
  is_command message = false ->
  state_of w (From req) = PAYMENT_METHOD ->
  address_awaited w (From req) = true ->
  cart_of w (From req) = VArr l ->
  exists cartText,
    formatCart (VArr l) false = Some cartText /\
    webhook req w =
      (with_outbox (fun o => o ++ [(From req, paymentPrompt cartText message)])
         (with_userCarts (insert (From req +:+ "_address") (VStr message)) w),
       Ack200).
Proof.
  intros Hm Hcmd Hstate Hwait Hcart.
  destruct (formatCart_array l false) as [cartText Hfmt].
  exists cartText. split; [exact Hfmt|].
  rewrite (webhook_run _ _ _ Hm), Hstate, Hcart.
  rewrite (dispatch_payment_method _ _ _ _ _ Hcmd).
  unfold address_awaited, pending_delivery in Hwait.
  unfold try_catch, bind, userCarts_get. simpl. rewrite Hwait. simpl.
  rewrite Hfmt. reflexivity.
Qed.

(** Cash: [processOrder], then the pending fields are deleted. *)
Lemma webhook_cash (req : Request) (w : World) (l : list CartLine) :
  message_of (Body req) = Some "1" ->
  state_of w (From req) = PAYMENT_METHOD ->
  address_awaited w (From req) = false ->
  cart_of w (From req) = VArr l ->
  webhook req w =
    (clear_pending (From req)
       (after_processOrder (From req) (name_of req) l
          (pending_delivery w (From req)) (pending_address w (From req)) "efectivo" w),
     Ack200).
Proof.
  intros Hm Hstate Hwait Hcart.
  rewrite (webhook_run _ _ _ Hm), Hstate, Hcart.
  rewrite dispatch_payment_method by reflexivity.
  unfold address_awaited, pending_delivery in Hwait.
  unfold try_catch, bind at 1 2, userCarts_get. simpl. rewrite Hwait. simpl.
  unfold bind. rewrite processOrder_run. reflexivity.
Qed.

(** MercadoPago: the link is sent first, then [processOrder] runs, then the
    state is set to PAYMENT_CONFIRMATION and the pending fields deleted. *)
Lemma webhook_mercadopago (req : Request) (w : World) (l : list CartLine) :
  message_of (Body req) = Some "2" ->
  state_of w (From req) = PAYMENT_METHOD ->
  address_awaited w (From req) = false ->
  cart_of w (From req) = VArr l ->
  exists cartText,
    formatCart (VArr l) false = Some cartText /\
    webhook req w =
      (clear_pending (From req)
         (with_userStates (insert (From req) PAYMENT_CONFIRMATION)
            (after_processOrder (From req) (name_of req) l
               (pending_delivery w (From req)) (pending_address w (From req)) "mercadopago"
               (after_link (From req) (name_of req) cartText l w))),
       Ack200).
Proof.
  intros Hm Hstate Hwait Hcart.
  destruct (formatCart_array l false) as [cartText Hfmt].
  exists cartText. split; [exact Hfmt|].
  rewrite (webhook_run _ _ _ Hm), Hstate, Hcart.
  rewrite dispatch_payment_method by reflexivity.
  unfold address_awaited, pending_delivery in Hwait.
  unfold try_catch, bind at 1 2, userCarts_get. simpl. rewrite Hwait. simpl.
  unfold bind, lift, ret, Date_now, sendInteractiveMessage, sendMessage. simpl.
  rewrite Hfmt. simpl. rewrite processOrder_run. reflexivity.
Qed.

(** C1, as the code has it. When the webhook finalizes an order through
    [processOrder] (state PAYMENT_METHOD, address step over, message 1 or 2,
    the cart an array), then afterwards the session's cart is the empty
    array whatever the delivery type and the payment method; the state is
    MAIN_MENU after a cash order and PAYMENT_CONFIRMATION after an online
    one. *)
Theorem finalization_resets_session (req : Request) (w : World) (message : string)
    (l : list CartLine) :
  message_of (Body req) = Some message ->
  message = "1" \/ message = "2" ->
  state_of w (From req) = PAYMENT_METHOD ->
  address_awaited w (From req) = false ->
  cart_of w (From req) = VArr l ->
  cart_of (webhook req w).1 (From req) = VArr [] /\
  state_of (webhook req w).1 (From req) =
    (if String.eqb message "1" then MAIN_MENU else PAYMENT_CONFIRMATION).
Proof.
  intros Hm Hmsg Hstate Hwait Hcart.
  destruct Hmsg as [-> | ->].
  - rewrite (webhook_cash _ _ _ Hm Hstate Hwait Hcart).
    unfold cart_of, state_of. simpl.
    rewrite lookup_delete_ne by apply key_address_ne.
    rewrite lookup_delete_ne by apply key_delivery_ne.
    rewrite !lookup_insert_eq. split; reflexivity.
  - destruct (webhook_mercadopago _ _ _ Hm Hstate Hwait Hcart) as (cartText & _ & ->).
    unfold cart_of, state_of. simpl.
    rewrite lookup_delete_ne by apply key_address_ne.
    rewrite lookup_delete_ne by apply key_delivery_ne.
    rewrite !lookup_insert_eq. split; reflexivity.
Qed.

(* ===================================================================== *)
(** ** The cart invariant *)
(* ===================================================================== *)

Lemma keeps_ret {A} (a : A) : keeps (ret a).
Proof. intros w H. exact H. Qed.

Lemma keeps_lift {A} (o : option A) : keeps (lift o).
Proof. intros w H. destruct o; exact H. Qed.

Lemma keeps_bind {A B} (m : M A) (k : A -> M B) :
  keeps m -> (forall a, keeps (k a)) -> keeps (bind m k).
Proof.
  intros Hm Hk w H. unfold bind. specialize (Hm w H).
  destruct (m w) as [w' [a|]]; simpl in *; [apply Hk, Hm | exact Hm].
Qed.

Lemma keeps_lift_bind {A B} (o : option A) (k : A -> M B) :
  (forall a, o = Some a -> keeps (k a)) -> keeps (bind (lift o) k).
Proof.
  intros Hk w H. unfold bind. destruct o as [a|]; simpl; [|exact H].
  apply (Hk a eq_refl), H.
Qed.

Lemma keeps_try_catch {A} (m h : M A) : keeps m -> keeps h -> keeps (try_catch m h).
Proof.
  intros Hm Hh w H. unfold try_catch. specialize (Hm w H).
  destruct (m w) as [w' [a|]]; simpl in *; [exact Hm | apply Hh, Hm].
Qed.

Lemma keeps_same_carts {A} (m : M A) :
  (forall w, userCarts (m w).1 = userCarts w) -> keeps m.
Proof. intros Hsame w H key v. rewrite Hsame. apply H. Qed.

Lemma keeps_userCarts_set (key : string) (v : Val) :
  entry_ok key v -> keeps (userCarts_set key v).
Proof.
  intros Hv w H key' v'. simpl. rewrite lookup_insert.
  case_decide as Hkey; [intros [= <-]; subst key'; exact Hv | apply H].
Qed.

Lemma keeps_userCarts_delete (key : string) : keeps (userCarts_delete key).
Proof.
  intros w H key' v'. simpl. rewrite lookup_delete.
  case_decide; [discriminate | apply H].
Qed.

Lemma keeps_userCarts_get (key : string) : keeps (userCarts_get key).
Proof. apply keeps_same_carts. reflexivity. Qed.

Lemma keeps_userStates_set (phone : string) (s : State) : keeps (userStates_set phone s).
Proof. apply keeps_same_carts. reflexivity. Qed.

Lemma keeps_sendMessage (to body : string) : keeps (sendMessage to body).
Proof. apply keeps_same_carts. reflexivity. Qed.

Lemma keeps_sendInteractiveMessage (to body : string) : keeps (sendInteractiveMessage to body).
Proof. apply keeps_same_carts. reflexivity. Qed.

Lemma keeps_Date_now : keeps Date_now.
Proof. apply keeps_same_carts. reflexivity. Qed.

Lemma keeps_getMenu : keeps getMenu.
Proof. apply keeps_same_carts. intros w. rewrite getMenu_run. reflexivity. Qed.

Lemma keeps_saveOrder (orderData : OrderData) : keeps (saveOrder orderData).
Proof. apply keeps_same_carts. intros w. rewrite saveOrder_run. reflexivity. Qed.

Lemma keeps_updateOrderStatus (phone newStatus : string) :
  keeps (updateOrderStatus phone newStatus).
Proof.
  apply keeps_same_carts. intros w. rewrite updateOrderStatus_run.
  destruct (status_target w phone); [destruct (pedidosUpdate w)|]; reflexivity.
Qed.

Create HintDb keeps.
#[local] Hint Resolve keeps_ret keeps_lift keeps_userCarts_delete keeps_userCarts_get
  keeps_userStates_set keeps_sendMessage keeps_sendInteractiveMessage keeps_Date_now
  keeps_getMenu keeps_saveOrder keeps_updateOrderStatus : keeps.

Lemma substring_all (t : string) : substring 0 (String.length t) t = t.
Proof. induction t as [|c t IH]; simpl; [reflexivity | f_equal; exact IH]. Qed.

Lemma substring_append (p t : string) :
  substring (String.length p) (String.length t) (p +:+ t) = t.
Proof. induction p as [|c p IH]; simpl; [apply substring_all | exact IH]. Qed.

Lemma endsWith_append (p t : string) : endsWith (p +:+ t) t = true.
Proof.
  unfold endsWith, slice_last. rewrite length_append.
  replace (String.length p + String.length t - String.length t) with (String.length p) by lia.
  rewrite substring_append. apply String.eqb_refl.
Qed.

Lemma side_key_delivery (phone : string) : side_key (phone +:+ "_delivery") = true.
Proof. unfold side_key. rewrite endsWith_append. reflexivity. Qed.

Lemma side_key_address (phone : string) : side_key (phone +:+ "_address") = true.
Proof. unfold side_key. rewrite (endsWith_append phone "_address"). apply orb_true_r. Qed.

(** Splits a computation into its statements and closes those that are
    primitive. *)
Ltac keeps_step :=
  match goal with
  | |- keeps (if ?b then _ else _) => destruct b
  | |- keeps (bind _ _) => apply keeps_bind; [|intros ?]
  | |- keeps (userCarts_set _ (VArr [])) => apply keeps_userCarts_set, NoDup_nil_2
  | |- keeps (userCarts_set (_ +:+ "_delivery") (VStr _)) =>
      apply keeps_userCarts_set, side_key_delivery
  | |- keeps (userCarts_set (_ +:+ "_address") (VStr _)) =>
      apply keeps_userCarts_set, side_key_address
  | |- keeps _ => solve [auto with keeps]
  end.

Lemma keeps_processOrder (phone customerName : string) (cart deliveryType address : Val)
    (paymentMethod : string) :
  keeps (processOrder phone customerName cart deliveryType address paymentMethod).
Proof. unfold processOrder. repeat keeps_step. Qed.

Lemma select_one_ok (menu : list Product) (key : string) (s s' : Selection) (productId : Z) :
  entry_ok key (sel_cart s) -> select_one menu s productId = Some s' ->
  entry_ok key (sel_cart s').
Proof.
  unfold select_one. intros Hok.
  destruct (find_product menu productId) as [p|].
  - destruct (sel_cart s) as [l|str]; simpl; [|discriminate].
    intros [= <-]. simpl. apply add_to_cart_NoDup, Hok.
  - intros [= <-]. exact Hok.
Qed.

Lemma select_all_ok (menu : list Product) (key : string) (productIds : list Z)
    (s s' : Selection) :
  entry_ok key (sel_cart s) -> select_all menu productIds s = Some s' ->
  entry_ok key (sel_cart s').
Proof.
  revert s. induction productIds as [|n rest IH]; intros s Hok; simpl.
  - intros [= <-]. exact Hok.
  - destruct (select_one menu s n) as [s1|] eqn:Hone; simpl; [|discriminate].
    apply IH. exact (select_one_ok _ _ _ _ _ Hok Hone).
Qed.

Lemma keeps_dispatch (req : Request) (message phone customerName : string)
    (userState : State) (cart : Val) :
  entry_ok phone cart -> keeps (dispatch req message phone customerName userState cart).
Proof.
  intros Hcart. unfold dispatch.
  repeat match goal with
         | |- keeps (if test_selection _ then _ else _) => fail 1
         | |- _ => keeps_step
         end;
    try (apply keeps_processOrder).
  destruct (test_selection message); [|repeat keeps_step].
  apply keeps_bind; [auto with keeps|]. intros menu.
  apply keeps_lift_bind. intros s Hs.
  assert (Hok : entry_ok phone (sel_cart s)).
  { exact (select_all_ok _ phone _ _ _
             (Hcart : entry_ok phone
                        (sel_cart {| sel_cart := cart; addedProducts := [];
                                     notFoundProducts := [] |})) Hs). }
  apply keeps_bind; [apply keeps_userCarts_set, Hok|]. intros _.
  repeat keeps_step.
Qed.

Lemma cart_of_ok (w : World) (phone : string) : carts_ok w -> entry_ok phone (cart_of w phone).
Proof.
  intros H. unfold cart_of, val_or.
  destruct (userCarts w !! phone) as [v|] eqn:Hv; [|apply NoDup_nil_2].
  destruct (val_truthy v); [exact (H _ _ Hv) | apply NoDup_nil_2].
Qed.

Lemma webhook_keeps (req : Request) (w : World) : carts_ok w -> carts_ok (webhook req w).1.
Proof.
  intros H. unfold webhook.
  destruct (message_of (Body req)) as [message|]; [|exact H].
  assert (Hk : keeps (try_catch
                        (dispatch req message (From req) (or_else (ProfileName req) "Cliente")
                           (default MAIN_MENU (userStates w !! From req))
                           (val_or (userCarts w !! From req) (VArr [])))
                        (sendMessage (From req) errorMessage))).
  { apply keeps_try_catch; [apply keeps_dispatch, cart_of_ok, H | auto with keeps]. }
  specialize (Hk w H).
  destruct (try_catch _ _ w) as [w' [u|]]; exact Hk.
Qed.

Lemma setOrderStatus_keeps (phone status : string) (w : World) :
  carts_ok w -> carts_ok (setOrderStatus phone status w).1.
Proof.
  revert w. change (keeps (setOrderStatus phone status)).
  unfold setOrderStatus, notifyCustomer. apply keeps_try_catch; repeat keeps_step.
Qed.

(** In every world the process can reach, no stored cart has two lines with
    the same product id, and strings sit under side keys only. *)
Lemma reachable_carts_ok (w : World) : reachable w -> carts_ok w.
Proof.
  induction 1 as [w Hc Hs | req w Hr IH | phone status w Hr IH | w w' Hr IH Hc Hs].
  - intros key v. rewrite Hc, lookup_empty. discriminate.
  - apply webhook_keeps, IH.
  - apply setOrderStatus_keeps, IH.
  - intros key v. rewrite Hc. apply IH.
Qed.

(** X22. The cart of an identity that is not itself a side key is an array:
    what the handler reads as [cart] has [forEach], [reduce] and [find]. *)
Lemma reachable_cart_is_array (w : World) (phone : string) :
  reachable w -> side_key phone = false ->
  exists l, cart_of w phone = VArr l /\ NoDup (ids l).
Proof.
  intros Hreach Hkey.
  pose proof (cart_of_ok w phone (reachable_carts_ok _ Hreach)) as Hok.
  destruct (cart_of w phone) as [l|str]; simpl in Hok.
  - exists l. split; [reflexivity | exact Hok].
  - congruence.
Qed.

(* ===================================================================== *)
(** ** Product selection through the webhook *)
(* ===================================================================== *)

Lemma selection_not_command (message : string) :
  test_selection message = true -> is_command message = false.
Proof.
  intros Hsel. unfold is_command.
  repeat match goal with
         | |- context [String.eqb message ?c] =>
             destruct (String.eqb_spec message c) as [->|_]; [discriminate Hsel|]
         end.
  reflexivity.
Qed.

Lemma webhook_selection (req : Request) (w : World) (message : string) (s : Selection)
    (cartText : string) :
  message_of (Body req) = Some message ->
  test_selection message = true ->
  receipt_event req w = false ->
  state_of w (From req) <> DELIVERY_INFO ->
  state_of w (From req) <> PAYMENT_METHOD ->
  select_all (menu_of (menuReply w)) (parse_selection message)
    {| sel_cart := cart_of w (From req); addedProducts := []; notFoundProducts := [] |}
  = Some s ->
  formatCart (sel_cart s) true = Some cartText ->
  webhook req w = (after_selection (From req) cartText s w, Ack200).
Proof.
  intros Hm Hsel Himg Hd Hp Hs Hfmt.
  rewrite (webhook_run _ _ _ Hm).
  rewrite dispatch_not_command by (assumption || apply selection_not_command, Hsel).
  rewrite Hsel. unfold try_catch, bind at 1. rewrite getMenu_run.
  unfold bind at 1. rewrite Hs. simpl.
  unfold bind, userCarts_set. simpl. rewrite Hfmt. reflexivity.
Qed.

(** C2. In a reachable world, let a message made of digits, commas and
    white space reach the product-selection branch for a session whose cart
    is an array. Afterwards the stored cart has no two lines with the same
    product id, and for every id its quantity has grown by exactly the
    number of tokens that resolved to a catalog product of that id (a line
    that was absent counts for 0 before). *)
Theorem selection_counts_tokens (req : Request) (w : World) (message : string)
    (l : list CartLine) :
  reachable w ->
  message_of (Body req) = Some message ->
  test_selection message = true ->
  receipt_event req w = false ->
  state_of w (From req) <> DELIVERY_INFO ->
  state_of w (From req) <> PAYMENT_METHOD ->
  cart_of w (From req) = VArr l ->
  exists l',
    userCarts (webhook req w).1 !! From req = Some (VArr l') /\
    NoDup (ids l') /\
    forall pid, qty pid l' =
                qty pid l + hits (menu_of (menuReply w)) pid (parse_selection message).
Proof.
  intros Hreach Hm Hsel Himg Hd Hp Hcart.
  assert (Hok : NoDup (ids l)).
  { pose proof (cart_of_ok w (From req) (reachable_carts_ok _ Hreach)) as H.
    rewrite Hcart in H. exact H. }
  destruct (select_all_array (menu_of (menuReply w)) (parse_selection message) l [] [])
    as (l' & Hrun & Hnd & Hqty).
  destruct (formatCart_array l' true) as [cartText Hfmt].
  exists l'. split; [|split; [exact (Hnd Hok) | exact Hqty]].
  rewrite <- Hcart in Hrun.
  rewrite (webhook_selection _ _ _ _ _ Hm Hsel Himg Hd Hp Hrun Hfmt).
  simpl. apply lookup_insert_eq.
Qed.

Lemma append_assoc (s t u : string) : (s +:+ t) +:+ u = s +:+ (t +:+ u).
Proof.
  induction s as [|c s IH]; [reflexivity|].
  change (String c ((s +:+ t) +:+ u) = String c (s +:+ (t +:+ u))).
  f_equal. exact IH.
Qed.

(** Brings both sides of an equation between messages to one shape:
    appends nested to the right, then the literals spelled out. *)
Ltac same_text :=
  cbv [text String.concat];
  repeat rewrite append_assoc;
  cbv [String.append];
  reflexivity.

(** C3. The message "1,2,1", with the catalog resolving the tokens 1 and 2
    to products of ids "1" and "2", on an empty cart: the cart becomes two
    lines, id 1 with quantity 2 and id 2 with quantity 1; the reply lists
    the first product's name twice among the added products and renders one
    line for it, with quantity 2. *)
Theorem selection_1_2_1 (req : Request) (w : World) (p1 p2 : Product) :
  Body req = Text "1,2,1" ->
  receipt_event req w = false ->
  state_of w (From req) <> DELIVERY_INFO ->
  state_of w (From req) <> PAYMENT_METHOD ->
  cart_of w (From req) = VArr [] ->
  find_product (menu_of (menuReply w)) 1 = Some p1 ->
  find_product (menu_of (menuReply w)) 2 = Some p2 ->
  id p1 = Some "1" -> id p2 = Some "2" ->
  let cart := [ {| product := p1; quantity := 2 |}; {| product := p2; quantity := 1 |} ] in
  let reply :=
    text [ "✅ *Productos agregados:*"; LF;
           "• "; show (name p1); LF;
           "• "; show (name p2); LF;
           "• "; show (name p1); LF;
           LF;
           "🛒 *TU CARRITO*"; LF; LF;
           "1. "; show (name p1); LF;
           "   Cantidad: 2 x "; formatPrice (price p1); " = ";
           formatPrice (num_mul (price p1) (num_of_nat 2)); LF; LF;
           "2. "; show (name p2); LF;
           "   Cantidad: 1 x "; formatPrice (price p2); " = ";
           formatPrice (num_mul (price p2) (num_of_nat 1)); LF; LF;
           "💰 *TOTAL: ";
           formatPrice (num_add (num_add (num_of_nat 0)
                                   (num_mul (price p1) (num_of_nat 2)))
                          (num_mul (price p2) (num_of_nat 1)));
           "*"; LF; LF;
           "*Opciones disponibles:*"; LF;
           "• Enviá un número para agregar productos"; LF;
           "• Enviá varios números separados por comas (ej: 1,2,3)"; LF;
           "• *finalizar* - Completar pedido"; LF;
           "• *limpiar* - Vaciar carrito"; LF;
           "• *menu* - Ver menú completo" ] in
  webhook req w =
    (with_userStates (insert (From req) BROWSING_PRODUCTS)
       (with_outbox (fun o => o ++ [(From req, reply)])
          (with_userCarts (insert (From req) (VArr cart)) w)),
     Ack200).
Proof.
  intros Hbody Himg Hd Hp Hcart H1 H2 Hid1 Hid2 cart reply.
  assert (Hm : message_of (Body req) = Some "1,2,1") by (rewrite Hbody; reflexivity).
  set (s := {| sel_cart := VArr cart;
               addedProducts := [name p1; name p2; name p1];
               notFoundProducts := [] |}).
  assert (Hs : select_all (menu_of (menuReply w)) (parse_selection "1,2,1")
                 {| sel_cart := cart_of w (From req); addedProducts := [];
                    notFoundProducts := [] |} = Some s).
  { rewrite Hcart. change (parse_selection "1,2,1") with [1%Z; 2%Z; 1%Z].
    unfold select_all, select_one. rewrite H1. simpl.
    rewrite H2. simpl. unfold add_to_cart. simpl.
    repeat (first [ rewrite Hid1 | rewrite Hid2
                  | rewrite bool_decide_eq_true_2 by reflexivity
                  | rewrite bool_decide_eq_false_2 by discriminate ]; simpl).
    reflexivity. }
  destruct (formatCart_array cart true) as [cartText Hfmt].
  rewrite (webhook_selection _ _ _ s cartText Hm eq_refl Himg Hd Hp Hs Hfmt).
  unfold after_selection. simpl sel_cart.
  replace (text [selectionReport s; cartText]) with reply; [reflexivity|].
  revert Hfmt. unfold formatCart, selectionReport, reply, s, cart, join, show. simpl.
  intros [= <-]. same_text.
Qed.

(* ===================================================================== *)
(** ** Status updates *)
(* ===================================================================== *)

Lemma set_cell_before (col k : nat) (v : Cell) (row : list Cell) (d : string) :
  k < col -> cell_or (set_cell col v row !! k) d = cell_or (row !! k) d.
Proof.
  intros Hk. unfold set_cell.
  rewrite lookup_app_l by (rewrite length_take, length_app, length_replicate; lia).
  rewrite lookup_take_lt by exact Hk.
  destruct (decide (k < length row)) as [Hlt|Hge].
  - rewrite lookup_app_l by exact Hlt. reflexivity.
  - rewrite lookup_app_r by lia.
    rewrite lookup_replicate_2 by lia.
    rewrite (lookup_ge_None_2 row k) by lia. reflexivity.
Qed.

Lemma set_cell_at (col : nat) (v : Cell) (row : list Cell) :
  set_cell col v row !! col = Some v.
Proof.
  unfold set_cell.
  rewrite lookup_app_r by (rewrite length_take, length_app, length_replicate; lia).
  rewrite length_take, length_app, length_replicate.
  replace (col - col `min` (length row + (col - length row))) with 0 by lia.
  reflexivity.
Qed.

(** Whatever [updateOrderStatus] does, the payment status and the status
    that the order list shows for a row stay what they were: the write goes
    to column K, the list reads columns I and J. *)
Lemma updateOrderStatus_listed (phone newStatus : string) (w : World) (i : nat)
    (row : list Cell) :
  pedidos w !! i = Some row ->
  exists row',
    pedidos (updateOrderStatus phone newStatus w).1 !! i = Some row' /\
    listed_status row' = listed_status row /\
    listed_paymentStatus row' = listed_paymentStatus row.
Proof.
  intros Hrow. rewrite updateOrderStatus_run.
  destruct (status_target w phone) as [j|]; [destruct (pedidosUpdate w)|];
    simpl; try (exists row; repeat split; assumption).
  destruct (decide (j = i)) as [->|Hne].
  - exists (set_cell column_K (CStr newStatus) row).
    rewrite list_lookup_alter_eq, Hrow. split; [reflexivity|].
    unfold listed_status, listed_paymentStatus, column_K.
    split; apply set_cell_before; lia.
  - exists row. rewrite list_lookup_alter_ne by exact Hne.
    repeat split; assumption.
Qed.

(** No row of the phone: [false], and nothing is written. *)
Lemma updateOrderStatus_not_found (phone newStatus : string) (w : World) :
  (forall j, 1 <= j <= length (pedidos w) - 1 ->
             row_phone_is (pedidos w !! j) phone = false) ->
  updateOrderStatus phone newStatus w = (w, Some false).
Proof.
  intros Hnone. rewrite updateOrderStatus_run. unfold status_target.
  destruct (pedidosGet w); [|reflexivity].
  destruct (length (pedidos w) <=? 1); [reflexivity|].
  apply scan_rows_None in Hnone. rewrite Hnone. reflexivity.
Qed.

(** In that case the admin endpoint answers 404 and notifies nobody. *)
Lemma setOrderStatus_not_found (phone status : string) (w : World) :
  (forall j, 1 <= j <= length (pedidos w) - 1 ->
             row_phone_is (pedidos w !! j) (text [ "whatsapp:"; phone ]) = false) ->
  setOrderStatus phone status w = (w, Some NotFound404).
Proof.
  intros Hnone. unfold setOrderStatus, try_catch, bind.
  rewrite (updateOrderStatus_not_found _ _ _ Hnone). reflexivity.
Qed.

(** A row of the phone, the store answering: [true], and the cell of
    column K in the most recent such row now holds the new status. *)
Lemma updateOrderStatus_found (phone newStatus : string) (w : World) (i : nat)
    (row : list Cell) :
  pedidosGet w = true -> pedidosUpdate w = true ->
  1 <= i < length (pedidos w) ->
  pedidos w !! i = Some row ->
  row_phone_is (Some row) phone = true ->
  (forall j, i < j <= length (pedidos w) - 1 ->
             row_phone_is (pedidos w !! j) phone = false) ->
  updateOrderStatus phone newStatus w =
    (with_pedidos (alter (set_cell column_K (CStr newStatus)) i) w, Some true).
Proof.
  intros Hget Hupd Hi Hrow Hmatch Hlater.
  rewrite updateOrderStatus_run. unfold status_target. rewrite Hget, Hupd.
  destruct (Nat.leb_spec (length (pedidos w)) 1) as [Hle|_]; [lia|].
  destruct (scan_rows (pedidos w) phone (length (pedidos w) - 1)) as [k|] eqn:Hscan.
  - apply scan_rows_Some in Hscan as (Hk & Hkrow & Hklater).
    destruct (Nat.lt_trichotomy k i) as [Hlt|[->|Hgt]]; [| reflexivity |].
    + rewrite <- Hrow in Hmatch. rewrite Hklater in Hmatch by lia. discriminate.
    + rewrite Hlater in Hkrow by lia. discriminate.
  - rewrite scan_rows_None in Hscan. rewrite <- Hrow in Hmatch.
    rewrite Hscan in Hmatch by lia. discriminate.
Qed.

(** The two order numbers of an online finalization: the text with the
    payment link carries the clock reading taken by the webhook, the
    confirmation composed by [processOrder] carries the next one. *)
Lemma mercadopago_outbox (req : Request) (w : World) (l : list CartLine) :
  message_of (Body req) = Some "2" ->
  state_of w (From req) = PAYMENT_METHOD ->
  address_awaited w (From req) = false ->
  cart_of w (From req) = VArr l ->
  exists cartText,
    formatCart (VArr l) false = Some cartText /\
    let linkId := Z_toString (now w (ticks w)) in
    let orderId := Z_toString (now w (S (ticks w))) in
    outbox (webhook req w).1 =
      outbox w ++
      [ (From req, mpMessage cartText (cart_total l)
                     (generateMercadoPagoLink (cart_total l) linkId (name_of req)) linkId);
        (From req, confirmMessage l (cart_total l) orderId
                     (pending_delivery w (From req)) (pending_address w (From req))
                     "mercadopago") ].
Proof.
  intros Hm Hstate Hwait Hcart.
  destruct (webhook_mercadopago _ _ _ Hm Hstate Hwait Hcart) as (cartText & Hfmt & ->).
  exists cartText. split; [exact Hfmt|]. simpl.
  rewrite <- app_assoc. reflexivity.
Qed.

(* ===================================================================== *)
(** ** The frame of an event *)
(* ===================================================================== *)

Lemma rows_kept_refl (rows : list (list Cell)) : rows_kept rows rows.
Proof. intros i row Hrow. exists row. split; [exact Hrow|]. split; [lia|]. reflexivity. Qed.

Lemma rows_kept_trans (r1 r2 r3 : list (list Cell)) :
  rows_kept r1 r2 -> rows_kept r2 r3 -> rows_kept r1 r3.
Proof.
  intros H12 H23 i row Hrow.
  destruct (H12 i row Hrow) as (row2 & Hrow2 & Hlen2 & Hcells2).
  destruct (H23 i row2 Hrow2) as (row3 & Hrow3 & Hlen3 & Hcells3).
  exists row3. split; [exact Hrow3|]. split; [lia|].
  intros k Hk Hcol. rewrite Hcells3 by (lia || exact Hcol). apply Hcells2; assumption.
Qed.

Lemma rows_kept_append (rows : list (list Cell)) (row : list Cell) :
  rows_kept rows (rows ++ [row]).
Proof.
  intros i r Hr. exists r. split.
  - rewrite lookup_app_l by (apply lookup_lt_Some in Hr; exact Hr). exact Hr.
  - split; [lia | reflexivity].
Qed.

Lemma length_set_cell (col : nat) (v : Cell) (row : list Cell) :
  length (set_cell col v row) = Nat.max (length row) (S col).
Proof.
  unfold set_cell.
  rewrite length_app, length_take, length_app, length_replicate. simpl.
  rewrite length_drop. lia.
Qed.

Lemma set_cell_other (col k : nat) (v : Cell) (row : list Cell) :
  k < length row -> k <> col -> set_cell col v row !! k = row !! k.
Proof.
  intros Hk Hne. unfold set_cell.
  destruct (decide (k < col)) as [Hlt|Hge].
  - rewrite lookup_app_l by (rewrite length_take, length_app, length_replicate; lia).
    rewrite lookup_take_lt by exact Hlt.
    rewrite lookup_app_l by exact Hk. reflexivity.
  - rewrite lookup_app_r by (rewrite length_take, length_app, length_replicate; lia).
    rewrite length_take, length_app, length_replicate.
    replace (k - col `min` (length row + (col - length row))) with (S (k - S col)) by lia.
    simpl. rewrite lookup_drop. f_equal. lia.
Qed.

Lemma rows_kept_alter (rows : list (list Cell)) (i : nat) (v : Cell) :
  rows_kept rows (alter (set_cell column_K v) i rows).
Proof.
  intros j row Hrow. destruct (decide (i = j)) as [->|Hne].
  - exists (set_cell column_K v row).
    rewrite list_lookup_alter_eq, Hrow. split; [reflexivity|].
    split; [rewrite length_set_cell; lia|].
    intros k Hk Hcol. apply set_cell_other; assumption.
  - exists row. rewrite list_lookup_alter_ne by exact Hne.
    split; [exact Hrow|]. split; [lia | reflexivity].
Qed.

Lemma frame_refl (phone : string) (w : World) : frame phone w w.
Proof.
  split; try reflexivity; try lia.
  - exists []. rewrite app_nil_r. split; [reflexivity | constructor].
  - apply rows_kept_refl.
Qed.

Lemma frame_trans (phone : string) (w1 w2 w3 : World) :
  frame phone w1 w2 -> frame phone w2 w3 -> frame phone w1 w3.
Proof.
  intros [C1 S1 M1 G1 A1 U1 N1 T1 (sent1 & O1 & F1) R1]
         [C2 S2 M2 G2 A2 U2 N2 T2 (sent2 & O2 & F2) R2].
  split; try congruence; try lia.
  - intros key Hkey. rewrite C2, C1 by exact Hkey. reflexivity.
  - intros p Hp. rewrite S2, S1 by exact Hp. reflexivity.
  - exists (sent1 ++ sent2). rewrite O2, O1, app_assoc. split; [reflexivity|].
    apply Forall_app. split; assumption.
  - exact (rows_kept_trans _ _ _ R1 R2).
Qed.

Section Respects.

Variable R : World -> World -> Prop.
Hypothesis R_refl : forall w, R w w.
Hypothesis R_trans : forall w1 w2 w3, R w1 w2 -> R w2 w3 -> R w1 w3.

Lemma respects_ret {A} (a : A) : respects R (ret a).
Proof. intros w. apply R_refl. Qed.

Lemma respects_lift {A} (o : option A) : respects R (lift o).
Proof. intros w. destruct o; apply R_refl. Qed.

Lemma respects_bind {A B} (m : M A) (k : A -> M B) :
  respects R m -> (forall a, respects R (k a)) -> respects R (bind m k).
Proof.
  intros Hm Hk w. unfold bind. specialize (Hm w).
  destruct (m w) as [w' [a|]]; simpl in *; [|exact Hm].
  exact (R_trans _ _ _ Hm (Hk a w')).
Qed.

Lemma respects_try_catch {A} (m h : M A) :
  respects R m -> respects R h -> respects R (try_catch m h).
Proof.
  intros Hm Hh w. unfold try_catch. specialize (Hm w).
  destruct (m w) as [w' [a|]]; simpl in *; [exact Hm|].
  exact (R_trans _ _ _ Hm (Hh w')).
Qed.

End Respects.

Lemma own_key_phone (phone : string) : own_key phone phone = true.
Proof. unfold own_key. rewrite String.eqb_refl. reflexivity. Qed.

Lemma own_key_delivery (phone : string) : own_key phone (phone +:+ "_delivery") = true.
Proof.
  unfold own_key. rewrite (String.eqb_refl (phone +:+ "_delivery")), orb_true_r. reflexivity.
Qed.

Lemma own_key_address (phone : string) : own_key phone (phone +:+ "_address") = true.
Proof. unfold own_key. rewrite (String.eqb_refl (phone +:+ "_address")). apply orb_true_r. Qed.

Lemma frame_userCarts_set (phone key : string) (v : Val) :
  own_key phone key = true -> respects (frame phone) (userCarts_set key v).
Proof.
  intros Hown w. destruct (frame_refl phone w). split; try assumption.
  intros key' Hkey'. simpl. apply lookup_insert_ne. congruence.
Qed.

Lemma frame_userCarts_delete (phone key : string) :
  own_key phone key = true -> respects (frame phone) (userCarts_delete key).
Proof.
  intros Hown w. destruct (frame_refl phone w). split; try assumption.
  intros key' Hkey'. simpl. apply lookup_delete_ne. congruence.
Qed.

Lemma frame_userCarts_get (phone key : string) : respects (frame phone) (userCarts_get key).
Proof. intros w. apply frame_refl. Qed.

Lemma frame_userStates_set (phone : string) (s : State) :
  respects (frame phone) (userStates_set phone s).
Proof.
  intros w. destruct (frame_refl phone w). split; try assumption.
  intros p Hp. simpl. apply lookup_insert_ne. congruence.
Qed.

Lemma frame_sendMessage (phone body : string) : respects (frame phone) (sendMessage phone body).
Proof.
  intros w. destruct (frame_refl phone w). split; try assumption.
  exists [(phone, body)]. split; [reflexivity|]. repeat constructor.
Qed.

Lemma frame_sendInteractiveMessage (phone body : string) :
  respects (frame phone) (sendInteractiveMessage phone body).
Proof. apply frame_sendMessage. Qed.

Lemma frame_Date_now (phone : string) : respects (frame phone) Date_now.
Proof.
  intros w. destruct (frame_refl phone w). split; try assumption. simpl. lia.
Qed.

Lemma frame_getMenu (phone : string) : respects (frame phone) getMenu.
Proof. intros w. rewrite getMenu_run. apply frame_refl. Qed.

Lemma frame_saveOrder (phone : string) (orderData : OrderData) :
  respects (frame phone) (saveOrder orderData).
Proof.
  intros w. rewrite saveOrder_run. destruct (frame_refl phone w).
  split; try assumption; simpl; [lia|].
  destruct (pedidosAppend w); [apply rows_kept_append | apply rows_kept_refl].
Qed.

Lemma frame_updateOrderStatus (phone phone' newStatus : string) :
  respects (frame phone) (updateOrderStatus phone' newStatus).
Proof.
  intros w. rewrite updateOrderStatus_run.
  destruct (status_target w phone') as [i|]; [destruct (pedidosUpdate w)|];
    try apply frame_refl.
  destruct (frame_refl phone w). split; try assumption. apply rows_kept_alter.
Qed.

Create HintDb respects.
#[local] Hint Resolve frame_refl frame_trans respects_ret respects_lift
  own_key_phone own_key_delivery own_key_address
  frame_userCarts_set frame_userCarts_delete frame_userCarts_get frame_userStates_set
  frame_sendMessage frame_sendInteractiveMessage frame_Date_now frame_getMenu
  frame_saveOrder frame_updateOrderStatus : respects.

(** Splits a computation into its statements, for [frame]. *)
Ltac frame_step :=
  match goal with
  | |- respects _ (if ?b then _ else _) => destruct b
  | |- respects (frame ?p) (bind _ _) =>
      apply (respects_bind _ (frame_trans p)); [|intros ?]
  | |- respects (frame ?p) (try_catch _ _) =>
      apply (respects_try_catch _ (frame_trans p))
  | |- respects (frame ?p) (ret _) => apply (respects_ret _ (frame_refl p))
  | |- respects (frame ?p) (lift _) => apply (respects_lift _ (frame_refl p))
  | |- respects _ _ => solve [auto with respects]
  end.

Lemma frame_processOrder (phone customerName : string) (cart deliveryType address : Val)
    (paymentMethod : string) :
  respects (frame phone)
    (processOrder phone customerName cart deliveryType address paymentMethod).
Proof. unfold processOrder. repeat frame_step. Qed.

#[local] Hint Resolve frame_processOrder : respects.

Lemma frame_dispatch (req : Request) (message phone customerName : string)
    (userState : State) (cart : Val) :
  respects (frame phone) (dispatch req message phone customerName userState cart).
Proof.
  unfold dispatch. repeat frame_step; try apply frame_processOrder.
Qed.

Lemma webhook_frame (req : Request) (w : World) : frame (From req) w (webhook req w).1.
Proof.
  unfold webhook. destruct (message_of (Body req)) as [message|]; [|apply frame_refl].
  assert (H : respects (frame (From req))
                (try_catch
                   (dispatch req message (From req) (or_else (ProfileName req) "Cliente")
                      (default MAIN_MENU (userStates w !! From req))
                      (val_or (userCarts w !! From req) (VArr [])))
                   (sendMessage (From req) errorMessage))).
  { frame_step; [apply frame_dispatch | auto with respects]. }
  specialize (H w). destruct (try_catch _ _ w) as [w' [u|]]; exact H.
Qed.

(** X1. Handling an event of one identity leaves the carts, pending fields
    and state of every other identity as they were. *)
Theorem webhook_isolates_sessions (req : Request) (w : World) (key other : string) :
  own_key (From req) key = false ->
  other <> From req ->
  userCarts (webhook req w).1 !! key = userCarts w !! key /\
  userStates (webhook req w).1 !! other = userStates w !! other.
Proof.
  intros Hkey Hother. destruct (webhook_frame req w) as [C S _ _ _ _ _ _ _ _].
  split; [apply C, Hkey | apply S, Hother].
Qed.

(** X2. Whatever an event is, the messages it causes are appended to those
    already sent and all go to the sender of the event. *)
Theorem webhook_messages_sender_only (req : Request) (w : World) :
  exists sent,
    outbox (webhook req w).1 = outbox w ++ sent /\
    Forall (fun m => m.1 = From req) sent.
Proof. destruct (webhook_frame req w) as [_ _ _ _ _ _ _ _ O _]. exact O. Qed.

(** X3. The webhook never removes a row of the sheet Pedidos nor rewrites a
    cell of a row, except in column K: a row that was there is still at its
    place, at least as long, with the same cells in the other columns. *)
Theorem webhook_keeps_rows (req : Request) (w : World) (i : nat) (row : list Cell) :
  pedidos w !! i = Some row ->
  exists row',
    pedidos (webhook req w).1 !! i = Some row' /\
    length row <= length row' /\
    forall k, k < length row -> k <> column_K -> row' !! k = row !! k.
Proof.
  intros Hrow. destruct (webhook_frame req w) as [_ _ _ _ _ _ _ _ _ Rk].
  exact (Rk i row Hrow).
Qed.

(* ===================================================================== *)
(** ** Replies and exceptions *)
(* ===================================================================== *)

Lemma frame_outbox_length (phone : string) (w w' : World) :
  frame phone w w' -> length (outbox w) <= length (outbox w').
Proof.
  intros [_ _ _ _ _ _ _ _ (sent & -> & _) _]. rewrite length_app. lia.
Qed.

Lemma speaks_sendMessage (to body : string) : speaks (sendMessage to body).
Proof. intros w. simpl. rewrite length_app. simpl. split; [lia | intros _; lia]. Qed.

Lemma speaks_sendInteractiveMessage (to body : string) :
  speaks (sendInteractiveMessage to body).
Proof. apply speaks_sendMessage. Qed.

Lemma speaks_bind_l {A B} (phone : string) (m : M A) (k : A -> M B) :
  speaks m -> (forall a, respects (frame phone) (k a)) -> speaks (bind m k).
Proof.
  intros Hm Hk w. unfold bind. destruct (Hm w) as [Hle Hlt].
  destruct (m w) as [w' [a|]]; simpl in *.
  - pose proof (frame_outbox_length _ _ _ (Hk a w')) as Hk'.
    assert (length (outbox w) < length (outbox w')) by (apply Hlt; discriminate).
    split; [lia | intros _; lia].
  - split; [exact Hle | intros Hne; congruence].
Qed.

Lemma speaks_bind_r {A B} (phone : string) (m : M A) (k : A -> M B) :
  respects (frame phone) m -> (forall a, speaks (k a)) -> speaks (bind m k).
Proof.
  intros Hm Hk w. unfold bind.
  pose proof (frame_outbox_length _ _ _ (Hm w)) as Hle.
  destruct (m w) as [w' [a|]]; simpl in *.
  - destruct (Hk a w') as [Hle' Hlt']. split; [lia|]. intros Hne. specialize (Hlt' Hne). lia.
  - split; [exact Hle | intros Hne; congruence].
Qed.

(** Finds the statement that sends, for [speaks]. *)
Ltac speaks_step phone :=
  match goal with
  | |- speaks (if ?b then _ else _) => destruct b
  | |- speaks (sendMessage _ _) => apply speaks_sendMessage
  | |- speaks (sendInteractiveMessage _ _) => apply speaks_sendInteractiveMessage
  | |- speaks (bind (sendMessage _ _) _) =>
      apply (speaks_bind_l phone);
      [apply speaks_sendMessage | intros ?; repeat frame_step]
  | |- speaks (bind (sendInteractiveMessage _ _) _) =>
      apply (speaks_bind_l phone);
      [apply speaks_sendInteractiveMessage | intros ?; repeat frame_step]
  | |- speaks (bind _ _) =>
      apply (speaks_bind_r phone); [repeat frame_step | intros ?]
  end.

Lemma speaks_processOrder (phone customerName : string) (cart deliveryType address : Val)
    (paymentMethod : string) :
  speaks (processOrder phone customerName cart deliveryType address paymentMethod).
Proof. unfold processOrder. repeat speaks_step phone. Qed.

Lemma speaks_dispatch (req : Request) (message phone customerName : string)
    (userState : State) (cart : Val) :
  speaks (dispatch req message phone customerName userState cart).
Proof.
  unfold dispatch.
  repeat match goal with
         | |- speaks (bind (processOrder _ _ _ _ _ _) _) =>
             apply (speaks_bind_l phone);
             [apply speaks_processOrder | intros ?; repeat frame_step]
         | |- _ => speaks_step phone
         end.
Qed.

(** X4. Every event whose [Body] is absent or a string is answered: when
    the handler is done, one more message at least has been handed to the
    channel (the apology when something was thrown on the way). *)
Theorem webhook_always_replies (req : Request) (w : World) (message : string) :
  message_of (Body req) = Some message ->
  length (outbox w) < length (outbox (webhook req w).1).
Proof.
  intros Hm. rewrite (webhook_run _ _ _ Hm). unfold try_catch.
  destruct (speaks_dispatch req message (From req) (name_of req)
              (state_of w (From req)) (cart_of w (From req)) w) as [Hle Hlt].
  destruct (dispatch _ _ _ _ _ _ w) as [w' [u|]]; simpl in *.
  - apply Hlt. discriminate.
  - rewrite length_app. simpl. lia.
Qed.

Lemma never_throws_bind {A B} (m : M A) (k : A -> M B) :
  never_throws m -> (forall a, never_throws (k a)) -> never_throws (bind m k).
Proof.
  intros Hm Hk w. unfold bind. specialize (Hm w).
  destruct (m w) as [w' [a|]]; simpl in *; [apply Hk | congruence].
Qed.

Lemma never_throws_lift_bind {A B} (o : option A) (k : A -> M B) :
  o <> None -> (forall a, o = Some a -> never_throws (k a)) -> never_throws (bind (lift o) k).
Proof.
  intros Ho Hk w. unfold bind. destruct o as [a|]; [|congruence]. simpl.
  apply (Hk a eq_refl).
Qed.

Lemma never_throws_try_catch {A} (m h : M A) : never_throws h -> never_throws (try_catch m h).
Proof.
  intros Hh w. unfold try_catch. destruct (m w) as [w' [a|]] eqn:Hm; simpl.
  - discriminate.
  - apply Hh.
Qed.

Lemma never_throws_plain {A} (f : World -> World) (g : World -> A) :
  never_throws (fun w => (f w, Some (g w))).
Proof. intros w. discriminate. Qed.

Lemma never_throws_getMenu : never_throws getMenu.
Proof. intros w. rewrite getMenu_run. discriminate. Qed.

Lemma never_throws_saveOrder (orderData : OrderData) : never_throws (saveOrder orderData).
Proof. intros w. rewrite saveOrder_run. discriminate. Qed.

Lemma never_throws_updateOrderStatus (phone newStatus : string) :
  never_throws (updateOrderStatus phone newStatus).
Proof.
  intros w. rewrite updateOrderStatus_run.
  destruct (status_target w phone); [destruct (pedidosUpdate w)|]; discriminate.
Qed.

Lemma formatCart_array_Some (l : list CartLine) (showOptions : bool) :
  formatCart (VArr l) showOptions <> None.
Proof. destruct (formatCart_array l showOptions) as [t ->]. discriminate. Qed.

(** Splits a computation into its statements, for [never_throws]. *)
Ltac never_throws_step :=
  match goal with
  | |- never_throws (if ?b then _ else _) => destruct b
  | |- never_throws (bind (lift (formatCart (VArr _) _)) _) =>
      apply never_throws_lift_bind; [apply formatCart_array_Some | intros ? _]
  | |- never_throws (bind (lift (as_array (VArr _))) _) =>
      apply never_throws_lift_bind; [discriminate | intros ? _]
  | |- never_throws (bind _ _) => apply never_throws_bind; [|intros ?]
  | |- never_throws getMenu => apply never_throws_getMenu
  | |- never_throws (saveOrder _) => apply never_throws_saveOrder
  | |- never_throws (updateOrderStatus _ _) => apply never_throws_updateOrderStatus
  | |- never_throws _ => intros ?; discriminate
  end.

Lemma never_throws_processOrder (phone customerName : string) (l : list CartLine)
    (deliveryType address : Val) (paymentMethod : string) :
  never_throws (processOrder phone customerName (VArr l) deliveryType address paymentMethod).
Proof. unfold processOrder. repeat never_throws_step. Qed.

Lemma never_throws_dispatch (req : Request) (message phone customerName : string)
    (userState : State) (l : list CartLine) :
  never_throws (dispatch req message phone customerName userState (VArr l)).
Proof.
  unfold dispatch.
  repeat match goal with
         | |- never_throws (if test_selection _ then _ else _) => fail 1
         | |- never_throws (bind (processOrder _ _ _ _ _ _) _) =>
             apply never_throws_bind; [apply never_throws_processOrder | intros ?]
         | |- _ => never_throws_step
         end.
  destruct (test_selection message); [|repeat never_throws_step].
  apply never_throws_bind; [apply never_throws_getMenu|]. intros menu.
  destruct (select_all_array menu (parse_selection message) l [] []) as (l' & Hrun & _).
  rewrite Hrun. apply never_throws_lift_bind; [discriminate|].
  intros s [= <-]. simpl.
  repeat never_throws_step.
Qed.

(** X5. For an event as Twilio posts it (every field but [Body] absent or
    a string of well-formed text, which is what a [Request] is): when the
    cart of the sender is an array, no statement inside the [try] of the
    webhook throws: the [catch] clause is not entered, so the apology is
    not what the sender gets. *)
Theorem array_cart_no_exception (req : Request) (w : World) (message : string)
    (l : list CartLine) :
  message_of (Body req) = Some message ->
  cart_of w (From req) = VArr l ->
  webhook req w =
    ((dispatch req message (From req) (name_of req) (state_of w (From req)) (VArr l) w).1,
     Ack200).
Proof.
  intros Hm Hcart. rewrite (webhook_run _ _ _ Hm), Hcart. unfold try_catch.
  pose proof (never_throws_dispatch req message (From req) (name_of req)
                (state_of w (From req)) l w) as Hsafe.
  destruct (dispatch _ _ _ _ _ _ w) as [w' [u|]]; simpl in *; [reflexivity | congruence].
Qed.


(* ===================================================================== *)
(** ** The commands *)
(* ===================================================================== *)

Arguments emptyCartText : simpl never.
Arguments clearedMessage : simpl never.
Arguments cancelledMessage : simpl never.
Arguments nothingToCancelMessage : simpl never.
Arguments summaryMessage : simpl never.
Arguments askAddressMessage : simpl never.
Arguments pickupPaymentMessage : simpl never.
Arguments invalidDeliveryMessage : simpl never.
Arguments invalidPaymentMessage : simpl never.
Arguments formatMenuWithButtons : simpl never.

Lemma formatCart_empty : formatCart (VArr []) true = Some emptyCartText.
Proof. unfold formatCart, emptyCartText. simpl. f_equal. same_text. Qed.

Lemma state_of_insert (phone : string) (s : State) (w : World) :
  state_of (with_userStates (insert phone s) w) phone = s.
Proof. unfold state_of. simpl. rewrite lookup_insert_eq. reflexivity. Qed.

Lemma receipt_event_state (req : Request) (w : World) :
  state_of w (From req) <> PAYMENT_CONFIRMATION -> receipt_event req w = false.
Proof.
  intros Hs. unfold receipt_event. rewrite bool_decide_eq_false_2 by exact Hs.
  apply andb_false_r.
Qed.

(** X7. Unless the event is a receipt (a picture sent while the session is
    in PAYMENT_CONFIRMATION, which the handler looks at first), [limpiar]
    empties the cart, answers with the empty cart and puts the session in
    MAIN_MENU; a [carrito] that follows shows the empty cart again, with
    the total of no line, and changes nothing else. *)
Theorem limpiar_then_carrito (r1 r2 : Request) (w : World) :
  message_of (Body r1) = Some "limpiar" ->
  message_of (Body r2) = Some "carrito" ->
  From r2 = From r1 ->
  receipt_event r1 w = false ->
  let w1 :=
    with_userStates (insert (From r1) MAIN_MENU)
      (reply (From r1) clearedMessage
         (with_userCarts (insert (From r1) (VArr [])) w)) in
  webhook r1 w = (w1, Ack200) /\
  webhook r2 w1 = (reply (From r1) emptyCartText w1, Ack200).
Proof.
  intros Hm1 Hm2 Hfrom Himg w1. split.
  - rewrite (webhook_run _ _ _ Hm1). unfold receipt_event in Himg.
    unfold dispatch. rewrite Himg, formatCart_empty. reflexivity.
  - rewrite (webhook_run _ _ _ Hm2), Hfrom.
    assert (Hstate : state_of w1 (From r1) = MAIN_MENU) by apply state_of_insert.
    assert (Hcart : cart_of w1 (From r1) = VArr []).
    { unfold cart_of, w1. simpl. rewrite lookup_insert_eq. reflexivity. }
    rewrite Hstate, Hcart. unfold dispatch.
    rewrite bool_decide_eq_false_2 by discriminate.
    rewrite andb_false_r, formatCart_empty. reflexivity.
Qed.

(** X8. Unless the event is a receipt (a picture sent while the session is
    in PAYMENT_CONFIRMATION), [cancelar] on a cart that holds something
    empties it, puts the session in MAIN_MENU and says so; on an empty cart
    it only says there is nothing to cancel. *)
Theorem cancelar_clears_or_reports (req : Request) (w : World) :
  message_of (Body req) = Some "cancelar" ->
  receipt_event req w = false ->
  webhook req w =
    (if 0 <? val_length (cart_of w (From req))
     then reply (From req) cancelledMessage
            (with_userStates (insert (From req) MAIN_MENU)
               (with_userCarts (insert (From req) (VArr [])) w))
     else reply (From req) nothingToCancelMessage w,
     Ack200).
Proof.
  intros Hm Himg. rewrite (webhook_run _ _ _ Hm). unfold receipt_event in Himg.
  unfold dispatch. rewrite Himg. simpl.
  destruct (0 <? val_length (cart_of w (From req))); reflexivity.
Qed.

(** X9. [finalizar] on a cart with lines sends the summary with the choice
    of delivery and puts the session in DELIVERY_INFO; the cart, the sheet
    and the pending fields are as before. *)
Theorem finalizar_asks_delivery (req : Request) (w : World) (item : CartLine)
    (l : list CartLine) :
  message_of (Body req) = Some "finalizar" ->
  receipt_event req w = false ->
  cart_of w (From req) = VArr (item :: l) ->
  exists cartText,
    formatCart (VArr (item :: l)) false = Some cartText /\
    webhook req w =
      (with_userStates (insert (From req) DELIVERY_INFO)
         (reply (From req) (summaryMessage cartText) w),
       Ack200).
Proof.
  intros Hm Himg Hcart. destruct (formatCart_array (item :: l) false) as [cartText Hfmt].
  exists cartText. split; [exact Hfmt|].
  rewrite (webhook_run _ _ _ Hm), Hcart. unfold receipt_event in Himg.
  unfold dispatch. rewrite Himg, Hfmt. reflexivity.
Qed.

(** X10. Unless the event is a receipt (a picture sent while the session
    is in PAYMENT_CONFIRMATION), [menu] reads the catalog afresh, sends the
    menu followed by the cart and puts the session in BROWSING_PRODUCTS;
    when the catalog cannot be read the menu of no product is sent all the
    same. The cart is not touched. *)
Theorem menu_shows_catalog_and_cart (req : Request) (w : World) (message : string)
    (l : list CartLine) :
  message_of (Body req) = Some message ->
  message = "menu" \/ message = "menú" ->
  receipt_event req w = false ->
  cart_of w (From req) = VArr l ->
  exists cartText,
    formatCart (VArr l) true = Some cartText /\
    webhook req w =
      (with_userStates (insert (From req) BROWSING_PRODUCTS)
         (reply (From req)
            (text [ formatMenuWithButtons (menu_of (menuReply w)); LF; LF; cartText ]) w),
       Ack200).
Proof.
  intros Hm Hmsg Himg Hcart. destruct (formatCart_array l true) as [cartText Hfmt].
  exists cartText. split; [exact Hfmt|].
  rewrite (webhook_run _ _ _ Hm), Hcart. unfold receipt_event in Himg.
  unfold dispatch. rewrite Himg.
  destruct Hmsg as [-> | ->]; simpl;
    unfold try_catch, bind at 1; rewrite getMenu_run;
    unfold bind; simpl; rewrite Hfmt; reflexivity.
Qed.

(* ===================================================================== *)
(** ** Delivery and payment choices *)
(* ===================================================================== *)

(** The DELIVERY_INFO branch, once commands and the receipt are out. *)
Lemma dispatch_delivery_info (req : Request) (message phone customerName : string)
    (cart : Val) :
  is_command message = false ->
  dispatch req message phone customerName DELIVERY_INFO cart =
    if String.eqb message "1" then
      sendInteractiveMessage phone askAddressMessage ;;
      userStates_set phone PAYMENT_METHOD ;;
      userCarts_set (phone +:+ "_delivery") (VStr "delivery")
    else if String.eqb message "2" then
      userCarts_set (phone +:+ "_delivery") (VStr "pickup") ;;
      cartText <- lift (formatCart cart false) ;;
      sendInteractiveMessage phone (pickupPaymentMessage cartText) ;;
      userStates_set phone PAYMENT_METHOD
    else
      sendInteractiveMessage phone invalidDeliveryMessage.
Proof.
  intros Hcmd. apply not_command_spec in Hcmd.
  destruct Hcmd as (H1 & H2 & H3 & H4 & H5 & H6).
  unfold dispatch. rewrite andb_false_r, H1, H2, H3, H4, H5, H6. reflexivity.
Qed.

Lemma receipt_event_not_confirmation (req : Request) (w : World) (s : State) :
  state_of w (From req) = s -> s <> PAYMENT_CONFIRMATION -> receipt_event req w = false.
Proof. intros <- Hs. apply receipt_event_state, Hs. Qed.

(** X11. In DELIVERY_INFO a message that is neither a command nor 1 nor 2
    (another number or a list of numbers included) gets the invalid-option
    text; the state, the cart, the pending fields and the sheet do not
    change, and the catalog is not read. *)
Theorem delivery_choice_invalid (req : Request) (w : World) (message : string) :
  message_of (Body req) = Some message ->
  state_of w (From req) = DELIVERY_INFO ->
  is_command message = false ->
  message <> "1" -> message <> "2" ->
  webhook req w = (reply (From req) invalidDeliveryMessage w, Ack200).
Proof.
  intros Hm Hstate Hcmd H1 H2.
  rewrite (webhook_run _ _ _ Hm), Hstate, (dispatch_delivery_info _ _ _ _ _ Hcmd).
  apply String.eqb_neq in H1, H2. rewrite H1, H2. reflexivity.
Qed.

(** In DELIVERY_INFO the message 1 records delivery as the pending
    delivery type, asks for the address and puts the session in
    PAYMENT_METHOD. An address left from an earlier order is not removed. *)
Theorem delivery_choice_delivery (req : Request) (w : World) :
  message_of (Body req) = Some "1" ->
  state_of w (From req) = DELIVERY_INFO ->
  webhook req w =
    (with_userCarts (insert (From req +:+ "_delivery") (VStr "delivery"))
       (with_userStates (insert (From req) PAYMENT_METHOD)
          (reply (From req) askAddressMessage w)),
     Ack200).
Proof.
  intros Hm Hstate.
  rewrite (webhook_run _ _ _ Hm), Hstate, dispatch_delivery_info by reflexivity.
  reflexivity.
Qed.

(** X12. In DELIVERY_INFO the message 2 records pickup as the pending
    delivery type, sends the choice of payment with the cart and puts the
    session in PAYMENT_METHOD. *)
Theorem delivery_choice_pickup (req : Request) (w : World) (l : list CartLine) :
  message_of (Body req) = Some "2" ->
  state_of w (From req) = DELIVERY_INFO ->
  cart_of w (From req) = VArr l ->
  exists cartText,
    formatCart (VArr l) false = Some cartText /\
    webhook req w =
      (with_userStates (insert (From req) PAYMENT_METHOD)
         (reply (From req) (pickupPaymentMessage cartText)
            (with_userCarts (insert (From req +:+ "_delivery") (VStr "pickup")) w)),
       Ack200).
Proof.
  intros Hm Hstate Hcart. destruct (formatCart_array l false) as [cartText Hfmt].
  exists cartText. split; [exact Hfmt|].
  rewrite (webhook_run _ _ _ Hm), Hstate, Hcart, dispatch_delivery_info by reflexivity.
  simpl. rewrite Hfmt. reflexivity.
Qed.

(** X13. In PAYMENT_METHOD, once no address is awaited, a message that is
    neither a command nor 1 nor 2 gets the invalid-option text and changes
    nothing: no order is created. *)
Theorem payment_choice_invalid (req : Request) (w : World) (message : string) :
  message_of (Body req) = Some message ->
  state_of w (From req) = PAYMENT_METHOD ->
  address_awaited w (From req) = false ->
  is_command message = false ->
  message <> "1" -> message <> "2" ->
  webhook req w = (reply (From req) invalidPaymentMessage w, Ack200).
Proof.
  intros Hm Hstate Hwait Hcmd H1 H2.
  rewrite (webhook_run _ _ _ Hm), Hstate, (dispatch_payment_method _ _ _ _ _ Hcmd).
  unfold address_awaited, pending_delivery in Hwait.
  apply String.eqb_neq in H1, H2.
  unfold try_catch, bind, userCarts_get. simpl. rewrite Hwait, H1, H2. reflexivity.
Qed.

(** X14. Choosing delivery while an address of an earlier, abandoned order
    is still stored: the bot asks for the address, but in the world it
    leaves no address is awaited, so the next text is read as a payment
    choice and the old address goes into the order. *)
Theorem delivery_choice_keeps_old_address (req : Request) (w : World) (old : Val) :
  message_of (Body req) = Some "1" ->
  state_of w (From req) = DELIVERY_INFO ->
  userCarts w !! (From req +:+ "_address") = Some old ->
  val_truthy old = true ->
  address_awaited (webhook req w).1 (From req) = false /\
  pending_address (webhook req w).1 (From req) = old /\
  state_of (webhook req w).1 (From req) = PAYMENT_METHOD.
Proof.
  intros Hm Hstate Hold Htruthy.
  rewrite (webhook_run _ _ _ Hm), Hstate, dispatch_delivery_info by reflexivity.
  unfold address_awaited, pending_address, pending_delivery, state_of. simpl.
  rewrite !lookup_insert_eq.
  rewrite !lookup_insert_ne by apply key_delivery_address_ne.
  rewrite Hold. simpl. rewrite Htruthy. repeat split; reflexivity.
Qed.

Lemma same_pending_refl (phone : string) (w : World) : same_pending phone w w.
Proof. split; reflexivity. Qed.

Lemma same_pending_trans (phone : string) (w1 w2 w3 : World) :
  same_pending phone w1 w2 -> same_pending phone w2 w3 -> same_pending phone w1 w3.
Proof. intros [D1 A1] [D2 A2]. split; congruence. Qed.

Lemma same_pending_set_cart (phone : string) (v : Val) :
  respects (same_pending phone) (userCarts_set phone v).
Proof.
  intros w. split; simpl; apply lookup_insert_ne.
  - intros H. exact (key_delivery_ne phone (eq_sym H)).
  - intros H. exact (key_address_ne phone (eq_sym H)).
Qed.

Lemma same_pending_same_carts {A} (phone : string) (m : M A) :
  (forall w, userCarts (m w).1 = userCarts w) -> respects (same_pending phone) m.
Proof. intros Hsame w. split; rewrite Hsame; reflexivity. Qed.

(** Splits a computation into its statements, for [same_pending]. *)
Ltac pending_step :=
  match goal with
  | |- respects _ (if ?b then _ else _) => destruct b
  | |- respects (same_pending ?p) (bind _ _) =>
      apply (respects_bind _ (same_pending_trans p)); [|intros ?]
  | |- respects (same_pending ?p) (lift _) =>
      apply (respects_lift _ (same_pending_refl p))
  | |- respects (same_pending ?p) (userCarts_set ?p _) => apply same_pending_set_cart
  | |- respects (same_pending ?p) getMenu =>
      apply same_pending_same_carts; intros ?; rewrite getMenu_run; reflexivity
  | |- respects (same_pending ?p) _ => apply same_pending_same_carts; reflexivity
  end.

(** X15. None of the commands (menu, carrito, limpiar, cancelar, finalizar)
    touches the pending delivery type or the pending address, whether the
    event carries a picture or not: after [limpiar] or [cancelar] they are
    still stored for the identity. *)
Theorem commands_keep_pending (req : Request) (w : World) (message : string) :
  message_of (Body req) = Some message ->
  is_command message = true ->
  userCarts (webhook req w).1 !! (From req +:+ "_delivery")
    = userCarts w !! (From req +:+ "_delivery") /\
  userCarts (webhook req w).1 !! (From req +:+ "_address")
    = userCarts w !! (From req +:+ "_address").
Proof.
  intros Hm Hcmd. rewrite (webhook_run _ _ _ Hm).
  assert (H : respects (same_pending (From req))
                (try_catch
                   (dispatch req message (From req) (name_of req)
                      (state_of w (From req)) (cart_of w (From req)))
                   (sendMessage (From req) errorMessage))).
  { apply (respects_try_catch _ (same_pending_trans (From req)));
      [|apply same_pending_same_carts; reflexivity].
    unfold dispatch.
    destruct (has_image req && bool_decide (state_of w (From req) = PAYMENT_CONFIRMATION)).
    { apply (respects_bind _ (same_pending_trans (From req)));
        [|intros ?; repeat pending_step].
      apply same_pending_same_carts. intros w0.
      rewrite updateOrderStatus_run.
      destruct (status_target w0 _); [destruct (pedidosUpdate w0)|]; reflexivity. }
    unfold is_command in Hcmd.
    repeat match goal with
           | |- respects _ (if bool_decide _ then _ else _) => fail 1
           | |- respects _ (if (String.eqb message "menu" || _) then _ else _) =>
               destruct (String.eqb message "menu" || String.eqb message "menú") eqn:?
           | |- respects _ (if String.eqb message ?c then _ else _) =>
               destruct (String.eqb message c) eqn:?
           | |- _ => pending_step
           end.
    all: exfalso; simpl in *;
      repeat match goal with
             | H : (_ || _) = false |- _ => apply orb_false_elim in H as [? ?]
             end;
      repeat match goal with
             | H : String.eqb _ _ = false |- _ => rewrite H in Hcmd
             end;
      discriminate Hcmd. }
  specialize (H w). destruct (try_catch _ _ w) as [w' [u|]]; exact H.
Qed.

(* ===================================================================== *)
(** ** Orders *)
(* ===================================================================== *)

(** X16. When the store rejects the append, [processOrder] goes on as if
    nothing had happened: the sheet is unchanged, yet the cart is emptied,
    the session is back in MAIN_MENU, the confirmation is sent and the
    order id returned. *)
Theorem processOrder_survives_store_failure (phone customerName : string)
    (l : list CartLine) (deliveryType address : Val) (paymentMethod : string) (w : World) :
  pedidosAppend w = false ->
  let orderId := Z_toString (now w (ticks w)) in
  let r := processOrder phone customerName (VArr l) deliveryType address paymentMethod w in
  r.2 = Some orderId /\
  pedidos r.1 = pedidos w /\
  cart_of r.1 phone = VArr [] /\
  state_of r.1 phone = MAIN_MENU /\
  outbox r.1 = outbox w ++
    [(phone, confirmMessage l (cart_total l) orderId deliveryType address paymentMethod)].
Proof.
  intros Hfail orderId r. unfold r. rewrite processOrder_run.
  unfold after_processOrder, cart_of, state_of. simpl.
  rewrite Hfail, !lookup_insert_eq. repeat split; reflexivity.
Qed.

(** X17. When the append succeeds, [processOrder] adds one row of ten cells
    at the end of the sheet: the phone in column B, the total of the cart
    in column E, and, as the order list reads them, status NUEVO and
    payment status Confirmado for a cash order, Pendiente otherwise. *)
Theorem processOrder_appends_row (phone customerName : string)
    (l : list CartLine) (deliveryType address : Val) (paymentMethod : string) (w : World) :
  pedidosAppend w = true ->
  exists row,
    pedidos (processOrder phone customerName (VArr l) deliveryType address paymentMethod w).1
      = pedidos w ++ [row] /\
    length row = 10 /\
    row !! 1 = Some (CStr phone) /\
    row !! 4 = Some (CNum (cart_total l)) /\
    row !! 5 = Some (cell_of_val deliveryType) /\
    listed_paymentStatus row =
      CStr (if String.eqb paymentMethod "efectivo" then "Confirmado" else "Pendiente") /\
    listed_status row = CStr "NUEVO".
Proof.
  intros Hok. rewrite processOrder_run. unfold after_processOrder. simpl. rewrite Hok.
  eexists. split; [reflexivity|].
  unfold order_row, listed_paymentStatus, listed_status. simpl.
  repeat split; try reflexivity.
  destruct (String.eqb paymentMethod "efectivo"); reflexivity.
Qed.

Lemma message_of_text_event (phone : string) (profileName : option string) (body : string) :
  message_of (Body (text_event phone profileName body)) =
    Some (if String.eqb body "" then "" else trim (toLowerCase body)).
Proof. simpl. destruct (String.eqb body ""); reflexivity. Qed.

Lemma receipt_event_text_event (phone : string) (profileName : option string)
    (body : string) (w : World) :
  receipt_event (text_event phone profileName body) w = false.
Proof. reflexivity. Qed.


(* ===================================================================== *)
(** ** The rendered cart *)
(* ===================================================================== *)

Lemma cart_lines_total (l : list CartLine) (index : nat) (message : string) (t : number) :
  (cart_lines l index message t).2 =
    fold_left (fun sum item => num_add sum (subtotal item)) l t.
Proof.
  revert index message t. induction l as [|item l IH]; intros index message t; simpl.
  - reflexivity.
  - apply IH.
Qed.

(** X19. The total that [formatCart] prints is the total [processOrder]
    charges: the sum, from the left, of price times quantity over the
    lines. The text is the list of lines (or the empty-cart notice), then
    that total. *)
Theorem formatCart_prints_order_total (l : list CartLine) :
  formatCart (VArr l) false =
    Some (text [ match l with
                 | [] => text [ "🛒 *TU CARRITO*"; LF; LF; "Carrito vacío"; LF; LF ]
                 | _ => (cart_lines l 0 (text [ "🛒 *TU CARRITO*"; LF; LF ])
                           (num_of_nat 0)).1
                 end;
                 "💰 *TOTAL: "; formatPrice (cart_total l); "*"; LF; LF ]).
Proof.
  unfold formatCart, cart_total. destruct l as [|item l]; [reflexivity|].
  simpl val_truthy. simpl val_length. simpl negb. simpl orb.
  cbn [as_array mbind option_bind fst snd].
  rewrite <- (cart_lines_total (item :: l) 0 (text [ "🛒 *TU CARRITO*"; LF; LF ])
                (num_of_nat 0)).
  reflexivity.
Qed.

(* ===================================================================== *)
(** ** What a selection reports *)
(* ===================================================================== *)

Lemma omap_split_length {A B C} (f : A -> option B) (g : A -> option C) (l : list A) :
  (forall a, is_Some (f a) <-> g a = None) ->
  length (omap f l) + length (omap g l) = length l.
Proof.
  intros Hfg. induction l as [|a l IH]; csimpl; [reflexivity|].
  destruct (f a) as [b|] eqn:Hf, (g a) as [c|] eqn:Hg; csimpl; try lia.
  - assert (Hs : is_Some (f a)) by (rewrite Hf; eauto).
    apply Hfg in Hs. congruence.
  - assert (Hn : g a = None) by exact Hg. apply Hfg in Hn. rewrite Hf in Hn.
    destruct (is_Some_None Hn).
Qed.

(** The loop over the tokens accounts for each of them once: the names
    of the products found, in the order of the tokens and with
    repetitions, go to the added list, the numbers that match no product
    to the not-found list. *)
Theorem selection_reports_every_token (menu : list Product) (productIds : list Z)
    (l : list CartLine) :
  exists s,
    select_all menu productIds
      {| sel_cart := VArr l; addedProducts := []; notFoundProducts := [] |} = Some s /\
    addedProducts s = omap (fun n => name <$> find_product menu n) productIds /\
    notFoundProducts s =
      omap (fun n => match find_product menu n with
                     | Some _ => None
                     | None => Some (Number_toString n)
                     end) productIds /\
    length (addedProducts s) + length (notFoundProducts s) = length productIds.
Proof.
  destruct (select_all_array menu productIds l [] []) as (l' & Hrun & _).
  eexists. split; [exact Hrun|]. simpl. repeat split.
  apply omap_split_length. intros n.
  destruct (find_product menu n); simpl; split; intros Hx;
    try reflexivity; try discriminate; eauto.
  destruct (is_Some_None Hx).
Qed.

Lemma select_all_none_found (menu : list Product) (productIds : list Z) (s : Selection) :
  Forall (fun n => find_product menu n = None) productIds ->
  select_all menu productIds s =
    Some {| sel_cart := sel_cart s;
            addedProducts := addedProducts s;
            notFoundProducts := notFoundProducts s ++ map Number_toString productIds |}.
Proof.
  intros Hall. revert s. induction Hall as [|n rest Hn _ IH]; intros s; simpl.
  - rewrite app_nil_r. destruct s; reflexivity.
  - unfold select_one. rewrite Hn. simpl. rewrite IH. simpl.
    rewrite <- app_assoc. reflexivity.
Qed.

(** X20. Outside DELIVERY_INFO and PAYMENT_METHOD, and unless the event is
    a receipt (a picture sent while the session is in PAYMENT_CONFIRMATION),
    a selection none of whose numbers is in the catalog (all of them, when
    the catalog cannot be read) adds nothing: the cart is stored as it was,
    the numbers are reported as not found, each printed as the number
    [parseInt] made of it, and the session goes to BROWSING_PRODUCTS. *)
Theorem selection_nothing_found (req : Request) (w : World) (message : string)
    (l : list CartLine) :
  message_of (Body req) = Some message ->
  test_selection message = true ->
  receipt_event req w = false ->
  state_of w (From req) <> DELIVERY_INFO ->
  state_of w (From req) <> PAYMENT_METHOD ->
  cart_of w (From req) = VArr l ->
  Forall (fun n => find_product (menu_of (menuReply w)) n = None) (parse_selection message) ->
  exists cartText,
    formatCart (VArr l) true = Some cartText /\
    webhook req w =
      (after_selection (From req) cartText
         {| sel_cart := VArr l; addedProducts := [];
            notFoundProducts := map Number_toString (parse_selection message) |} w,
       Ack200).
Proof.
  intros Hm Hsel Himg Hd Hp Hcart Hnone.
  destruct (formatCart_array l true) as [cartText Hfmt].
  exists cartText. split; [exact Hfmt|].
  apply (webhook_selection _ _ _ _ _ Hm Hsel Himg Hd Hp); [|exact Hfmt].
  rewrite (select_all_none_found _ _ _ Hnone), Hcart. reflexivity.
Qed.

(* ===================================================================== *)
(** ** The lines of the carts *)
(* ===================================================================== *)

Lemma kl_ret {A} (a : A) (Q : A -> Prop) : Q a -> keeps_lines (ret a) Q.
Proof. intros Hq w H. split; [exact H|]. intros a' [= <-]. exact Hq. Qed.

Lemma kl_lift {A} (o : option A) (Q : A -> Prop) :
  (forall a, o = Some a -> Q a) -> keeps_lines (lift o) Q.
Proof.
  intros Hq w H. destruct o as [a|]; simpl.
  - split; [exact H|]. intros a' [= <-]. apply Hq. reflexivity.
  - split; [exact H|]. discriminate.
Qed.

Lemma kl_bind {A B} (m : M A) (k : A -> M B) (Q : A -> Prop) (Q' : B -> Prop) :
  keeps_lines m Q -> (forall a, Q a -> keeps_lines (k a) Q') -> keeps_lines (bind m k) Q'.
Proof.
  intros Hm Hk w H. unfold bind. destruct (Hm w H) as [Hw Hq].
  destruct (m w) as [w' [a|]]; simpl in *.
  - apply (Hk a (Hq a eq_refl) w' Hw).
  - split; [exact Hw|]. discriminate.
Qed.

Lemma kl_try_catch {A} (m h : M A) (Q : A -> Prop) :
  keeps_lines m Q -> keeps_lines h Q -> keeps_lines (try_catch m h) Q.
Proof.
  intros Hm Hh w H. unfold try_catch. destruct (Hm w H) as [Hw Hq].
  destruct (m w) as [w' [a|]]; simpl in *.
  - split; [exact Hw|]. intros a' [= <-]. apply Hq. reflexivity.
  - apply (Hh w' Hw).
Qed.

Lemma kl_same_carts {A} (m : M A) :
  (forall w, userCarts (m w).1 = userCarts w) -> keeps_lines m (fun _ => True).
Proof.
  intros Hsame w H. split; [|trivial]. intros key v. rewrite Hsame. apply H.
Qed.

Lemma kl_userCarts_set (key : string) (v : Val) :
  lines_ok v -> keeps_lines (userCarts_set key v) (fun _ => True).
Proof.
  intros Hv w H. split; [|trivial]. intros key' v'. simpl. rewrite lookup_insert.
  case_decide; [intros [= <-]; exact Hv | apply H].
Qed.

Lemma kl_userCarts_delete (key : string) :
  keeps_lines (userCarts_delete key) (fun _ => True).
Proof.
  intros w H. split; [|trivial]. intros key' v'. simpl. rewrite lookup_delete.
  case_decide; [discriminate | apply H].
Qed.

Lemma kl_getMenu : keeps_lines getMenu (Forall (fun p => available p = true)).
Proof.
  intros w H. rewrite getMenu_run. split; [exact H|]. intros menu [= <-].
  apply Forall_forall. intros p Hp. apply list_elem_of_In in Hp.
  exact (menu_of_available _ _ Hp).
Qed.

Lemma bump_first_lines (pid : option string) (l : list CartLine) :
  Forall line_ok l -> Forall line_ok (bump_first pid l).
Proof.
  induction 1 as [|item l [Hq Ha] Hl IH]; simpl; [constructor|].
  case_bool_decide; constructor.
  - split; simpl; [lia | exact Ha].
  - exact Hl.
  - split; assumption.
  - exact IH.
Qed.

Lemma add_to_cart_lines (p : Product) (l : list CartLine) :
  available p = true -> Forall line_ok l -> Forall line_ok (add_to_cart p l).
Proof.
  intros Hp Hl. unfold add_to_cart. destruct (List.find _ l).
  - apply bump_first_lines, Hl.
  - apply Forall_app. split; [exact Hl|]. repeat constructor. exact Hp.
Qed.

Lemma select_all_lines (menu : list Product) (productIds : list Z) (s s' : Selection) :
  Forall (fun p => available p = true) menu ->
  lines_ok (sel_cart s) -> select_all menu productIds s = Some s' ->
  lines_ok (sel_cart s').
Proof.
  intros Hmenu. revert s. induction productIds as [|n rest IH]; intros s Hok; simpl.
  - intros [= <-]. exact Hok.
  - unfold select_one. destruct (find_product menu n) as [p|] eqn:Hfind.
    + destruct (sel_cart s) as [l|str]; simpl; [|discriminate].
      apply IH. simpl. apply add_to_cart_lines; [|exact Hok].
      apply find_some in Hfind as [Hin _].
      rewrite Forall_forall in Hmenu. apply Hmenu, list_elem_of_In, Hin.
    + simpl. apply IH. exact Hok.
Qed.

(** Splits a computation into its statements, for [keeps_lines]. *)
Ltac lines_step :=
  match goal with
  | |- keeps_lines (if ?b then _ else _) _ => destruct b
  | |- keeps_lines (bind _ _) _ =>
      apply (kl_bind _ _ (fun _ => True)); [|intros ? _]
  | |- keeps_lines (try_catch _ _) _ => apply kl_try_catch
  | |- keeps_lines (ret _) _ => apply kl_ret; exact I
  | |- keeps_lines (lift _) _ => apply kl_lift; intros; exact I
  | |- keeps_lines (userCarts_set _ (VArr [])) _ => apply kl_userCarts_set; constructor
  | |- keeps_lines (userCarts_set _ (VStr _)) _ => apply kl_userCarts_set; exact I
  | |- keeps_lines (userCarts_delete _) _ => apply kl_userCarts_delete
  | |- keeps_lines getMenu _ =>
      apply kl_same_carts; intros ?; rewrite getMenu_run; reflexivity
  | |- keeps_lines (saveOrder _) _ =>
      apply kl_same_carts; intros ?; rewrite saveOrder_run; reflexivity
  | |- keeps_lines (updateOrderStatus ?p _) _ =>
      apply kl_same_carts; intros w'; rewrite updateOrderStatus_run;
      destruct (status_target w' p); [destruct (pedidosUpdate w')|]; reflexivity
  | |- keeps_lines _ _ => apply kl_same_carts; reflexivity
  end.

Lemma kl_processOrder (phone customerName : string) (cart deliveryType address : Val)
    (paymentMethod : string) :
  keeps_lines (processOrder phone customerName cart deliveryType address paymentMethod)
    (fun _ => True).
Proof. unfold processOrder. repeat lines_step. Qed.

Lemma kl_dispatch (req : Request) (message phone customerName : string)
    (userState : State) (cart : Val) :
  lines_ok cart ->
  keeps_lines (dispatch req message phone customerName userState cart) (fun _ => True).
Proof.
  intros Hcart. unfold dispatch.
  repeat match goal with
         | |- keeps_lines (if test_selection _ then _ else _) _ => fail 1
         | |- keeps_lines (bind (processOrder _ _ _ _ _ _) _) _ =>
             apply (kl_bind _ _ (fun _ => True)); [apply kl_processOrder | intros ? _]
         | |- _ => lines_step
         end.
  destruct (test_selection message); [|repeat lines_step].
  apply (kl_bind _ _ _ _ kl_getMenu). intros menu Hmenu.
  apply (kl_bind _ _ (fun s => lines_ok (sel_cart s))).
  - apply kl_lift. intros s Hs.
    exact (select_all_lines _ _ _ _ Hmenu
             (Hcart : lines_ok (sel_cart {| sel_cart := cart; addedProducts := [];
                                            notFoundProducts := [] |})) Hs).
  - intros s Hs.
    apply (kl_bind _ _ (fun _ => True)); [apply kl_userCarts_set, Hs | intros ? _].
    repeat lines_step.
Qed.

Lemma webhook_lines (req : Request) (w : World) :
  all_lines_ok w -> all_lines_ok (webhook req w).1.
Proof.
  intros H. unfold webhook.
  destruct (message_of (Body req)) as [message|]; [|exact H].
  assert (Hcart : lines_ok (val_or (userCarts w !! From req) (VArr []))).
  { unfold val_or. destruct (userCarts w !! From req) as [v|] eqn:Hv; [|constructor].
    destruct (val_truthy v); [exact (H _ _ Hv) | constructor]. }
  assert (Hk : keeps_lines
                 (try_catch
                    (dispatch req message (From req) (or_else (ProfileName req) "Cliente")
                       (default MAIN_MENU (userStates w !! From req))
                       (val_or (userCarts w !! From req) (VArr [])))
                    (sendMessage (From req) errorMessage)) (fun _ => True)).
  { apply kl_try_catch; [apply kl_dispatch, Hcart | lines_step]. }
  destruct (Hk w H) as [Hw _].
  destruct (try_catch _ _ w) as [w' [u|]]; exact Hw.
Qed.

(** X21. In every world the process can reach, each line of each stored
    cart has a quantity of one at least and holds a product whose own flag
    [available] is true: it was available in the catalog as read when the
    line was added. (Nothing reads the catalog again when the order is
    finalized.) *)
Theorem reachable_lines_available (w : World) (key : string) (l : list CartLine)
    (item : CartLine) :
  reachable w ->
  userCarts w !! key = Some (VArr l) ->
  In item l ->
  1 <= quantity item /\ available (product item) = true.
Proof.
  intros Hreach Hl Hin.
  assert (Hall : all_lines_ok w).
  { clear Hl. induction Hreach as [w Hc Hs | req w Hr IH | phone status w Hr IH
                                  | w w' Hr IH Hc Hs].
    - intros k v. rewrite Hc, lookup_empty. discriminate.
    - apply webhook_lines, IH.
    - intros k v.
      assert (Hsame : userCarts (setOrderStatus phone status w).1 = userCarts w).
      { unfold setOrderStatus, try_catch, bind, notifyCustomer.
        rewrite updateOrderStatus_run.
        destruct (status_target w _); [destruct (pedidosUpdate w)|]; simpl;
          try reflexivity.
        destruct (negb _); reflexivity. }
      rewrite Hsame. apply IH.
    - intros k v. rewrite Hc. apply IH. }
  specialize (Hall key _ Hl). simpl in Hall.
  rewrite Forall_forall in Hall. apply Hall, list_elem_of_In, Hin.
Qed.

(* ===================================================================== *)
(** ** The status endpoint *)
(* ===================================================================== *)

Lemma status_target_Some (w : World) (phone : string) (i : nat) :
  status_target w phone = Some i ->
  pedidosGet w = true /\ 1 <= i < length (pedidos w) /\
  row_phone_is (pedidos w !! i) phone = true /\
  forall j, i < j < length (pedidos w) -> row_phone_is (pedidos w !! j) phone = false.
Proof.
  unfold status_target. destruct (pedidosGet w); [|discriminate].
  destruct (Nat.leb_spec (length (pedidos w)) 1) as [Hle|Hgt]; [discriminate|].
  intros Hscan. apply scan_rows_Some in Hscan as (Hi & Hrow & Hlater).
  split; [reflexivity|]. split; [lia|]. split; [exact Hrow|].
  intros j Hj. apply Hlater. lia.
Qed.

Lemma status_target_None (w : World) (phone : string) :
  status_target w phone = None ->
  pedidosGet w = false \/
  forall j, 1 <= j < length (pedidos w) -> row_phone_is (pedidos w !! j) phone = false.
Proof.
  unfold status_target. destruct (pedidosGet w); [|left; reflexivity].
  destruct (Nat.leb_spec (length (pedidos w)) 1) as [Hle|Hgt].
  - intros _. right. intros j Hj. lia.
  - rewrite scan_rows_None. intros Hnone. right. intros j Hj. apply Hnone. lia.
Qed.

(** X23. [updateOrderStatus] returns [true] exactly when the sheet can be
    read, the cell can be written, and some row below the header has the
    phone in its second cell. *)
Theorem updateOrderStatus_true_iff (phone newStatus : string) (w : World) :
  (updateOrderStatus phone newStatus w).2 = Some true <->
  pedidosGet w = true /\ pedidosUpdate w = true /\
  exists i, 1 <= i < length (pedidos w) /\ row_phone_is (pedidos w !! i) phone = true.
Proof.
  rewrite updateOrderStatus_run. split.
  - destruct (status_target w phone) as [i|] eqn:Ht; [|discriminate].
    destruct (pedidosUpdate w); [|discriminate]. intros _.
    apply status_target_Some in Ht as (Hget & Hi & Hrow & _).
    split; [exact Hget|]. split; [reflexivity|]. exists i. split; assumption.
  - intros (Hget & Hupd & i & Hi & Hrow). rewrite Hupd.
    destruct (status_target w phone) as [k|] eqn:Ht; [reflexivity|].
    apply status_target_None in Ht as [Hno|Hnone]; [congruence|].
    rewrite Hnone in Hrow by exact Hi. discriminate Hrow.
Qed.

(** X24. When [updateOrderStatus] returns [true] it has written one cell:
    the new status, in column K of the last row that has the phone. The
    header row is never a candidate, and the other rows are untouched. *)
Theorem updateOrderStatus_most_recent (phone newStatus : string) (w : World) :
  (updateOrderStatus phone newStatus w).2 = Some true ->
  exists i,
    1 <= i < length (pedidos w) /\
    row_phone_is (pedidos w !! i) phone = true /\
    (forall j, i < j < length (pedidos w) -> row_phone_is (pedidos w !! j) phone = false) /\
    pedidos (updateOrderStatus phone newStatus w).1
      = alter (set_cell column_K (CStr newStatus)) i (pedidos w) /\
    (forall j, j <> i ->
       pedidos (updateOrderStatus phone newStatus w).1 !! j = pedidos w !! j).
Proof.
  rewrite updateOrderStatus_run.
  destruct (status_target w phone) as [i|] eqn:Ht; [|discriminate].
  destruct (pedidosUpdate w); [|discriminate]. intros _.
  apply status_target_Some in Ht as (_ & Hi & Hrow & Hlater).
  exists i. simpl. repeat split; try assumption; try lia.
  intros j Hj. apply list_lookup_alter_ne. congruence.
Qed.

Lemma notification_known (status : string) :
  negb (String.eqb (notificationMessage status) "")
  = bool_decide (status ∈ notified_statuses).
Proof.
  unfold notificationMessage.
  repeat match goal with
         | |- context [String.eqb status ?c] =>
             destruct (String.eqb_spec status c) as [->|?]; [reflexivity|]
         end.
  symmetry. apply bool_decide_eq_false. unfold notified_statuses. intros Hin.
  repeat (apply elem_of_cons in Hin as [Heq|Hin]; [congruence|]).
  inversion Hin.
Qed.

(** X25. When the status was written, the endpoint answers with success
    and, for the six statuses it knows, sends the matching text to the
    customer's WhatsApp address; any other status is written all the same
    but nobody is told. *)
Theorem setOrderStatus_notifies (phone status : string) (w : World) :
  (updateOrderStatus (text [ "whatsapp:"; phone ]) status w).2 = Some true ->
  let w' := (updateOrderStatus (text [ "whatsapp:"; phone ]) status w).1 in
  setOrderStatus phone status w =
    (if bool_decide (status ∈ notified_statuses)
     then reply (text [ "whatsapp:"; phone ]) (notificationMessage status) w'
     else w',
     Some Success200).
Proof.
  intros Hok w'. unfold w', setOrderStatus, try_catch, bind.
  destruct (updateOrderStatus _ status w) as [w1 [b|]]; simpl in Hok; [|discriminate].
  injection Hok as ->. simpl. rewrite notification_known.
  destruct (bool_decide _); reflexivity.
Qed.

(** X26. A store that cannot be read, or a cell that cannot be written, is
    reported by the endpoint as 404, like an unknown phone, not as 500;
    nothing is sent and nothing is changed. *)
Theorem setOrderStatus_store_failure (phone status : string) (w : World) :
  pedidosGet w = false \/ pedidosUpdate w = false ->
  setOrderStatus phone status w = (w, Some NotFound404).
Proof.
  intros Hfail. unfold setOrderStatus, try_catch, bind.
  rewrite updateOrderStatus_run. unfold status_target.
  destruct Hfail as [-> | ->]; [reflexivity|].
  destruct (if pedidosGet w then _ else _); reflexivity.
Qed.

(** The status endpoint never touches a session: carts, pending
    fields and states are what they were, whatever the phone and the
    status. *)
Theorem setOrderStatus_leaves_sessions (phone status : string) (w : World) :
  userCarts (setOrderStatus phone status w).1 = userCarts w /\
  userStates (setOrderStatus phone status w).1 = userStates w.
Proof.
  unfold setOrderStatus, try_catch, bind, notifyCustomer.
  rewrite updateOrderStatus_run.
  destruct (status_target w _); [destruct (pedidosUpdate w)|]; simpl;
    try (split; reflexivity).
  destruct (negb _); split; reflexivity.
Qed.

(* ===================================================================== *)
(** ** The order list *)
(* ===================================================================== *)

Context {RD : @Reader RT}.

Lemma listOrders_run (w : World) :
  listOrders w =
    (w, Some (if pedidosGet w
              then match pedidos w with
                   | headers :: (row :: rest) =>
                       match orders_from 0 (row :: rest) with
                       | Some orders => OrdersJson orders
                       | None => ListError500
                       end
                   | _ => OrdersJson []
                   end
              else ListError500)).
Proof.
  unfold listOrders, try_catch, bind, sheets_get_pedidos.
  destruct (pedidosGet w); [|reflexivity].
  destruct (pedidos w) as [|headers [|row rest]]; try reflexivity.
  change (length (headers :: row :: rest) <=? 1) with false. cbv iota.
  unfold lift. destruct (orders_from 0 (row :: rest)); reflexivity.
Qed.

Lemma orders_from_lookup (data : list (list Cell)) (index : nat) (orders : list OrderView) :
  orders_from index data = Some orders ->
  length orders = length data /\
  forall k row, data !! k = Some row -> orders !! k = order_of_row row (index + k).
Proof.
  revert index orders. induction data as [|row rest IH]; intros index orders; simpl.
  - intros [= <-]. split; [reflexivity|]. intros k r Hk. discriminate Hk.
  - destruct (order_of_row row index) as [order|] eqn:Horder; simpl; [|discriminate].
    destruct (orders_from (S index) rest) as [orders'|] eqn:Hrest; simpl; [|discriminate].
    intros [= <-]. destruct (IH _ _ Hrest) as [Hlen Hk]. split; [simpl; lia|].
    intros [|k] r Hr; simpl in *.
    + injection Hr as <-. rewrite Nat.add_0_r. symmetry. exact Horder.
    + rewrite (Hk k r Hr). f_equal. lia.
Qed.

Lemma orders_from_None (data : list (list Cell)) (index : nat) (row : list Cell) :
  In row data -> JSON_parse (cell_or (row !! 3) "[]") = None ->
  orders_from index data = None.
Proof.
  revert index. induction data as [|r rest IH]; intros index Hin Hbad; [destruct Hin|].
  simpl. destruct Hin as [->|Hin].
  - unfold order_of_row. rewrite Hbad. reflexivity.
  - destruct (order_of_row r index); simpl; [|reflexivity].
    rewrite (IH (S index) Hin Hbad). reflexivity.
Qed.

(** The order list reads a sheet without changing it and always
    answers: 500 when the sheet cannot be read, the empty list when the
    sheet is empty or holds its header only. *)
Theorem listOrders_empty_or_failed (w : World) :
  (listOrders w).1 = w /\
  (pedidosGet w = false -> (listOrders w).2 = Some ListError500) /\
  (pedidosGet w = true -> length (pedidos w) <= 1 ->
   (listOrders w).2 = Some (OrdersJson [])).
Proof.
  rewrite listOrders_run. split; [reflexivity|]. split.
  - intros ->. reflexivity.
  - intros -> Hlen. destruct (pedidos w) as [|headers [|row rest]]; try reflexivity.
    simpl in Hlen. lia.
Qed.

(** X27. One row whose items cell is not valid JSON is enough for the
    whole list to fail with 500. *)
Theorem listOrders_one_bad_row (w : World) (i : nat) (row : list Cell) :
  pedidosGet w = true ->
  1 <= i -> pedidos w !! i = Some row ->
  JSON_parse (cell_or (row !! 3) "[]") = None ->
  (listOrders w).2 = Some ListError500.
Proof.
  intros Hget Hi Hrow Hbad. rewrite listOrders_run, Hget.
  destruct (pedidos w) as [|headers data] eqn:Hrows; [discriminate Hrow|].
  destruct i as [|k]; [lia|]. simpl in Hrow.
  destruct data as [|r rest]; [discriminate Hrow|].
  assert (Hin : In row (r :: rest)).
  { apply list_elem_of_In, list_elem_of_lookup. exists k. exact Hrow. }
  cbn [snd]. rewrite (orders_from_None _ 0 _ Hin Hbad). reflexivity.
Qed.

(** X28. When the list is answered, it has one order per row below the
    header, in the order of the sheet. The order made from sheet row
    number r (the header is row 1) has [rowIndex] r, the phone of column
    B, and the payment status and status of columns I and J with their
    defaults. *)
Theorem listOrders_follows_sheet (w : World) (orders : list OrderView) (i : nat)
    (row : list Cell) :
  (listOrders w).2 = Some (OrdersJson orders) ->
  1 <= i -> pedidos w !! i = Some row ->
  length orders = length (pedidos w) - 1 /\
  exists order,
    orders !! (i - 1) = Some order /\
    ov_rowIndex order = i + 1 /\
    ov_phone order = row !! 1 /\
    ov_paymentStatus order = listed_paymentStatus row /\
    ov_status order = listed_status row.
Proof.
  rewrite listOrders_run. intros Hlist Hi Hrow.
  destruct (pedidosGet w); [|discriminate].
  destruct (pedidos w) as [|headers data] eqn:Hrows; [discriminate Hrow|].
  destruct i as [|k]; [lia|]. simpl in Hrow.
  destruct data as [|r rest]; [discriminate Hrow|].
  destruct (orders_from 0 (r :: rest)) as [orders'|] eqn:Hfrom; [|discriminate].
  injection Hlist as ->.
  destruct (orders_from_lookup _ _ _ Hfrom) as [Hlen Hk].
  split; [simpl in *; lia|].
  specialize (Hk k row Hrow). replace (S k - 1) with k by lia.
  unfold order_of_row in Hk.
  destruct (JSON_parse (cell_or (row !! 3) "[]")) as [items|]; simpl in Hk.
  - eexists. split; [exact Hk|]. simpl. repeat split. lia.
  - assert (Hlt : k < length orders) by (rewrite Hlen; apply (lookup_lt_Some _ _ _ Hrow)).
    apply lookup_lt_is_Some_2 in Hlt. rewrite Hk in Hlt. destruct (is_Some_None Hlt).
Qed.

Lemma order_of_row_set_cell (row : list Cell) (index : nat) (v : Cell) :
  10 <= length row ->
  order_of_row (set_cell column_K v row) index = order_of_row row index.
Proof.
  intros Hlen. unfold order_of_row.
  rewrite !(set_cell_other column_K _ v row) by (unfold column_K; lia).
  reflexivity.
Qed.

Lemma orders_from_alter (data : list (list Cell)) (index k : nat) (v : Cell) :
  Forall (fun row => 10 <= length row) data ->
  orders_from index (alter (set_cell column_K v) k data) = orders_from index data.
Proof.
  intros Hall. revert index k. induction Hall as [|row rest Hrow _ IH]; intros index k.
  - reflexivity.
  - destruct k as [|k]; csimpl.
    + rewrite order_of_row_set_cell by exact Hrow. reflexivity.
    + rewrite IH. reflexivity.
Qed.

Lemma listOrders_run_tail (w : World) :
  (listOrders w).2 =
    Some (if pedidosGet w
          then (if length (pedidos w) <=? 1 then OrdersJson []
                else match orders_from 0 (tail (pedidos w)) with
                     | Some orders => OrdersJson orders
                     | None => ListError500
                     end)
          else ListError500).
Proof.
  rewrite listOrders_run. cbn [snd]. destruct (pedidosGet w); [|reflexivity].
  destruct (pedidos w) as [|headers [|row rest]]; reflexivity.
Qed.

Lemma tail_alter {A} (f : A -> A) (i : nat) (l : list A) :
  tail (alter f i l) = match i with 0 => tail l | S k => alter f k (tail l) end.
Proof. destruct l as [|a l], i as [|k]; reflexivity. Qed.

(** X29. On a sheet whose rows have the ten cells [saveOrder] writes, a
    status update does not show in the order list: the list answered after
    [updateOrderStatus] is the list answered before it. *)
Theorem listOrders_blind_to_status_update (phone newStatus : string) (w : World) :
  Forall (fun row => 10 <= length row) (pedidos w) ->
  (listOrders (updateOrderStatus phone newStatus w).1).2 = (listOrders w).2.
Proof.
  intros Hall. rewrite updateOrderStatus_run.
  destruct (status_target w phone) as [i|]; [destruct (pedidosUpdate w)|];
    try reflexivity.
  rewrite !listOrders_run_tail.
  cbn [fst pedidosGet pedidos with_pedidos].
  rewrite length_alter, tail_alter.
  destruct i as [|k]; [reflexivity|].
  rewrite orders_from_alter; [reflexivity|].
  destruct (pedidos w) as [|headers data]; [constructor|].
  apply Forall_cons in Hall as [_ Hdata]. exact Hdata.
Qed.

(* ===================================================================== *)
(** ** The menu text *)
(* ===================================================================== *)

Lemma distinct_spec {A} `{EqDecision A} (l seen : list A) :
  NoDup (distinct l seen) /\
  forall x, x ∈ distinct l seen <-> x ∈ l /\ x ∉ seen.
Proof.
  revert seen. induction l as [|a l IH]; intros seen; simpl.
  - split; [constructor|]. intros x. split; [intros Hx; inversion Hx | intros [Hx _]; inversion Hx].
  - case_bool_decide as Hseen.
    + destruct (IH seen) as [Hnd Hin]. split; [exact Hnd|].
      intros x. rewrite Hin, elem_of_cons. split; [tauto|].
      intros [[->|Hx] Hns]; [contradiction | tauto].
    + destruct (IH (a :: seen)) as [Hnd Hin]. split.
      * constructor; [|exact Hnd]. rewrite Hin, elem_of_cons. tauto.
      * intros x. rewrite !elem_of_cons, Hin, elem_of_cons.
        destruct (decide (x = a)) as [->|Hne]; [tauto|]. tauto.
Qed.

Lemma filter_split_perm {A} (f : A -> bool) (l : list A) :
  l ≡ₚ List.filter f l ++ List.filter (fun a => negb (f a)) l.
Proof.
  induction l as [|a l IH]; simpl; [reflexivity|].
  destruct (f a); simpl.
  - constructor. exact IH.
  - rewrite <- Permutation_middle. constructor. exact IH.
Qed.

Lemma filter_filter_other {A B} `{EqDecision B} (key : A -> B) (k k' : B) (l : list A) :
  k' <> k ->
  List.filter (fun a => bool_decide (key a = k'))
    (List.filter (fun a => negb (bool_decide (key a = k))) l)
  = List.filter (fun a => bool_decide (key a = k')) l.
Proof.
  intros Hne. induction l as [|a l IH]; simpl; [reflexivity|].
  destruct (decide (key a = k)) as [Hk|Hk].
  - rewrite (bool_decide_eq_true_2 _ Hk). simpl.
    rewrite bool_decide_eq_false_2 by congruence. exact IH.
  - rewrite (bool_decide_eq_false_2 _ Hk). simpl. rewrite IH. reflexivity.
Qed.

Lemma groups_perm {A B} `{EqDecision B} (key : A -> B) (ks : list B) (l : list A) :
  NoDup ks -> (forall a, a ∈ l -> key a ∈ ks) ->
  concat (map (fun k => List.filter (fun a => bool_decide (key a = k)) l) ks) ≡ₚ l.
Proof.
  intros Hnd. revert l. induction Hnd as [|k ks Hk Hnd IH]; intros l Hcover; simpl.
  - destruct l as [|a l]; [reflexivity|].
    specialize (Hcover a (list_elem_of_here _ _)). inversion Hcover.
  - etransitivity;
      [|symmetry; apply (filter_split_perm (fun a => bool_decide (key a = k)) l)].
    apply Permutation_app_head.
    rewrite <- (IH (List.filter (fun a => negb (bool_decide (key a = k))) l)).
    + apply Permutation_refl'. f_equal. apply map_ext_in. intros k' Hk'.
      symmetry. apply filter_filter_other. intros ->.
      apply Hk, list_elem_of_In, Hk'.
    + intros a Ha. apply list_elem_of_In, filter_In in Ha as [Ha Hf].
      apply list_elem_of_In in Ha. specialize (Hcover a Ha).
      apply elem_of_cons in Hcover as [Heq|Hin]; [|exact Hin].
      rewrite (bool_decide_eq_true_2 _ Heq) in Hf. discriminate Hf.
Qed.

(** X30. The menu text has one block per category, in the order in which
    the categories first occur in the catalog, and the products of the
    blocks, taken together, are the products of the catalog, each one once:
    grouping loses and repeats nothing. *)
Theorem menu_groups_every_product (menu : list Product) :
  let categories := distinct (map category menu) [] in
  let group := fun c => List.filter (fun item => bool_decide (category item = c)) menu in
  NoDup categories /\
  concat (map group categories) ≡ₚ menu /\
  formatMenuWithButtons menu =
    text [ "🍽️ *MENÚ SABORES DEL BARRIO*"; LF; LF;
           text (map (fun c => text [ "📋 *"; show c; "*"; LF; LF;
                                      text (map menu_item_text (group c)) ])
                   categories);
           "*⚡ CÓMO PEDIR:*"; LF;
           "• Un producto: *1*"; LF;
           "• Varios: *1,2,3*"; LF;
           "• Ver carrito: *carrito*"; LF;
           "• Finalizar: *finalizar*" ].
Proof.
  intros categories group.
  destruct (distinct_spec (map category menu) []) as [Hnd Hin].
  split; [exact Hnd|]. split; [|reflexivity].
  apply (groups_perm category categories menu Hnd).
  intros a Ha. apply Hin. split.
  - apply list_elem_of_fmap. exists a. split; [reflexivity | exact Ha].
  - intros Hx. inversion Hx.
Qed.

End Properties.

Module Runs.
Import Scenario.

(** C1, instance: the order of [at_payment] paid in cash. *)
Lemma cash_order_witness :
  (message_of (Body (says "1")) = Some "1" /\
   ("1" = "1" \/ "1" = "2") /\
   state_of at_payment phone = PAYMENT_METHOD /\
   address_awaited at_payment phone = false /\
   cart_of at_payment phone = VArr cart_121) /\
  (cart_of (webhook (says "1") at_payment).1 phone = VArr [] /\
   state_of (webhook (says "1") at_payment).1 phone = MAIN_MENU).
Proof.
  split.
  - repeat split; solve [reflexivity | left; reflexivity].
  - apply (finalization_resets_session (says "1") at_payment "1" cart_121).
    + reflexivity.
    + left; reflexivity.
    + reflexivity.
    + reflexivity.
    + reflexivity.
Defined.

(** C1 fails as stated: the same order paid online is finalized through
    [processOrder] (its row is appended, the cart is emptied), and the
    handler leaves the session in PAYMENT_CONFIRMATION, not in MAIN_MENU. *)
Lemma online_order_not_main_menu :
  state_of at_payment phone = PAYMENT_METHOD /\
  cart_of at_payment phone = VArr cart_121 /\
  length (pedidos (webhook (says "2") at_payment).1) = S (length (pedidos at_payment)) /\
  cart_of (webhook (says "2") at_payment).1 phone = VArr [] /\
  state_of (webhook (says "2") at_payment).1 phone = PAYMENT_CONFIRMATION /\
  state_of (webhook (says "2") at_payment).1 phone <> MAIN_MENU.
Proof.
  assert (Hstate : state_of (webhook (says "2") at_payment).1 phone = PAYMENT_CONFIRMATION)
    by reflexivity.
  repeat split; try reflexivity.
  rewrite Hstate. discriminate.
Qed.

(** C2, instance: "1,2,1" sent first thing after the process started. *)
Lemma selection_counts_witness :
  (reachable start /\
   message_of (Body (says "1,2,1")) = Some "1,2,1" /\
   test_selection "1,2,1" = true /\
   receipt_event (says "1,2,1") start = false /\
   state_of start (From (says "1,2,1")) <> DELIVERY_INFO /\
   state_of start (From (says "1,2,1")) <> PAYMENT_METHOD /\
   cart_of start (From (says "1,2,1")) = VArr []) /\
  exists l',
    userCarts (webhook (says "1,2,1") start).1 !! From (says "1,2,1") = Some (VArr l') /\
    NoDup (ids l') /\
    forall pid, qty pid l' =
                qty pid [] + hits (menu_of (menuReply start)) pid (parse_selection "1,2,1").
Proof.
  assert (Hreach : reachable start) by (apply reach_start; reflexivity).
  assert (Hstate : state_of start phone = MAIN_MENU) by reflexivity.
  split.
  - split; [exact Hreach|].
    repeat split; try reflexivity; simpl From; rewrite Hstate; discriminate.
  - apply (selection_counts_tokens (says "1,2,1") start "1,2,1" []).
    + exact Hreach.
    + reflexivity.
    + reflexivity.
    + reflexivity.
    + simpl From; rewrite Hstate; discriminate.
    + simpl From; rewrite Hstate; discriminate.
    + reflexivity.
Defined.

(** C3, instance: the catalog of [menu_rows], where the reply reads as
    below. *)
Lemma selection_1_2_1_witness :
  (Body (says "1,2,1") = Text "1,2,1" /\
   receipt_event (says "1,2,1") start = false /\
   state_of start phone <> DELIVERY_INFO /\
   state_of start phone <> PAYMENT_METHOD /\
   cart_of start phone = VArr [] /\
   find_product (menu_of (menuReply start)) 1 = Some empanada /\
   find_product (menu_of (menuReply start)) 2 = Some milanesa /\
   id empanada = Some "1" /\ id milanesa = Some "2") /\
  webhook (says "1,2,1") start =
    (with_userStates (insert phone BROWSING_PRODUCTS)
       (with_outbox
          (fun o => o ++
             [(phone,
               text [ "✅ *Productos agregados:*"; LF;
                      "• Empanada"; LF; "• Milanesa"; LF; "• Empanada"; LF; LF;
                      "🛒 *TU CARRITO*"; LF; LF;
                      "1. Empanada"; LF;
                      "   Cantidad: 2 x $ 900 = $ 1800"; LF; LF;
                      "2. Milanesa"; LF;
                      "   Cantidad: 1 x $ 5500 = $ 5500"; LF; LF;
                      "💰 *TOTAL: $ 7300*"; LF; LF;
                      "*Opciones disponibles:*"; LF;
                      "• Enviá un número para agregar productos"; LF;
                      "• Enviá varios números separados por comas (ej: 1,2,3)"; LF;
                      "• *finalizar* - Completar pedido"; LF;
                      "• *limpiar* - Vaciar carrito"; LF;
                      "• *menu* - Ver menú completo" ])])
          (with_userCarts (insert phone (VArr cart_121)) start)),
     Ack200).
Proof.
  assert (Hstate : state_of start phone = MAIN_MENU) by reflexivity.
  split.
  - repeat split; try reflexivity; rewrite Hstate; discriminate.
  - rewrite (selection_1_2_1 (says "1,2,1") start empanada milanesa);
      [ reflexivity | reflexivity | reflexivity
      | simpl From; rewrite Hstate; discriminate
      | simpl From; rewrite Hstate; discriminate
      | reflexivity | reflexivity | reflexivity | reflexivity | reflexivity ].
Defined.

(** C6, instance: the address of the specification's scenario; what is
    stored is its normalized form. *)
Lemma address_witness :
  (message_of (Body (says "Av. Corrientes 1234")) = Some "av. corrientes 1234" /\
   is_command "av. corrientes 1234" = false /\
   state_of at_address phone = PAYMENT_METHOD /\
   address_awaited at_address phone = true /\
   cart_of at_address phone = VArr [ {| product := empanada; quantity := 1 |} ]) /\
  exists cartText,
    formatCart (VArr [ {| product := empanada; quantity := 1 |} ]) false = Some cartText /\
    webhook (says "Av. Corrientes 1234") at_address =
      (with_outbox (fun o => o ++ [(phone, paymentPrompt cartText "av. corrientes 1234")])
         (with_userCarts (insert (phone +:+ "_address") (VStr "av. corrientes 1234"))
            at_address),
       Ack200).
Proof.
  split.
  - repeat split; reflexivity.
  - apply (address_is_recorded (says "Av. Corrientes 1234") at_address
             "av. corrientes 1234" [ {| product := empanada; quantity := 1 |} ]);
      reflexivity.
Defined.

(** C6 fails as stated: in PAYMENT_METHOD, delivery pending and no address
    yet, the text "Av. Corrientes 1234" is not stored as received but in
    lower case. *)
Lemma address_not_raw :
  state_of at_address phone = PAYMENT_METHOD /\
  userCarts at_address !! (phone +:+ "_delivery") = Some (VStr "delivery") /\
  userCarts at_address !! (phone +:+ "_address") = None /\
  userCarts (webhook (says "Av. Corrientes 1234") at_address).1 !! (phone +:+ "_address")
    = Some (VStr "av. corrientes 1234") /\
  userCarts (webhook (says "Av. Corrientes 1234") at_address).1 !! (phone +:+ "_address")
    <> Some (VStr "Av. Corrientes 1234").
Proof.
  assert (Hstored :
    userCarts (webhook (says "Av. Corrientes 1234") at_address).1 !! (phone +:+ "_address")
    = Some (VStr "av. corrientes 1234")) by reflexivity.
  repeat split; try reflexivity.
  rewrite Hstored. discriminate.
Qed.

(** C6 fails as stated, second case: in the same situation the text
    "carrito" is a command; no address is stored. *)
Lemma address_not_any_text :
  state_of at_address phone = PAYMENT_METHOD /\
  address_awaited at_address phone = true /\
  userCarts (webhook (says "carrito") at_address).1 !! (phone +:+ "_address") = None.
Proof. repeat split; reflexivity. Qed.

(** C8, instance: [finalizar] first thing after the process started. *)
Lemma finalizar_witness :
  (message_of (Body (says "finalizar")) = Some "finalizar" /\
   val_length (cart_of start (From (says "finalizar"))) = 0 /\
   receipt_event (says "finalizar") start = false) /\
  webhook (says "finalizar") start =
    (with_outbox (fun o => o ++ [(From (says "finalizar"), emptyCartMessage)]) start, Ack200).
Proof.
  split.
  - repeat split; reflexivity.
  - apply (finalizar_empty_cart (says "finalizar") start); reflexivity.
Defined.

(** C8 fails as stated: after the online order the cart is empty and the
    session waits for the receipt; a picture captioned "finalizar" is taken
    for the receipt, the order gateway writes to the sheet and the state
    goes from PAYMENT_CONFIRMATION to MAIN_MENU. *)
Lemma finalizar_with_receipt :
  message_of (Body (sends_image (Text "finalizar"))) = Some "finalizar" /\
  val_length (cart_of paid_online phone) = 0 /\
  state_of paid_online phone = PAYMENT_CONFIRMATION /\
  state_of (webhook (sends_image (Text "finalizar")) paid_online).1 phone = MAIN_MENU /\
  state_of (webhook (sends_image (Text "finalizar")) paid_online).1 phone
    <> state_of paid_online phone /\
  pedidos (webhook (sends_image (Text "finalizar")) paid_online).1 !! 1
    <> pedidos paid_online !! 1.
Proof.
  assert (Hbefore : state_of paid_online phone = PAYMENT_CONFIRMATION) by reflexivity.
  assert (Hafter :
    state_of (webhook (sends_image (Text "finalizar")) paid_online).1 phone = MAIN_MENU)
    by reflexivity.
  repeat split; try reflexivity.
  - rewrite Hbefore, Hafter. discriminate.
  - intros Heq. apply (f_equal (fun row => length <$> row)) in Heq.
    assert (Hlen : length <$> pedidos (webhook (sends_image (Text "finalizar")) paid_online).1 !! 1
                   = Some 11) by reflexivity.
    assert (Hlen' : length <$> pedidos paid_online !! 1 = Some 10) by reflexivity.
    rewrite Hlen, Hlen' in Heq. discriminate Heq.
Qed.

(** C10, instance: a picture without text, first thing after the process
    started. *)
Lemma empty_body_witness :
  (Body (sends_image Absent) = Absent \/ Body (sends_image Absent) = Text "") /\
  ((webhook (sends_image Absent) start).2 = Ack200 /\
   (state_of start (From (sends_image Absent)) = MAIN_MENU \/
    state_of start (From (sends_image Absent)) = BROWSING_PRODUCTS ->
    webhook (sends_image Absent) start =
      (with_userStates (insert (From (sends_image Absent)) MAIN_MENU)
         (with_outbox (fun o => o ++ [(From (sends_image Absent),
                                        welcomeMessage (name_of (sends_image Absent)))])
            start),
       Ack200))).
Proof.
  split.
  - left; reflexivity.
  - apply (empty_body_is_welcomed (sends_image Absent) start). left; reflexivity.
Defined.

(** C4, evaluated: the online order of [at_payment]. The clock reads
    ...123456 when the webhook builds the payment link and ...124245 when
    [processOrder] numbers the order it saves. The text with the link and
    the transfer instructions carries the first number, the confirmation
    (and the value [processOrder] returns, which the webhook drops) the
    second. *)
Theorem online_order_two_numbers :
  let linkId := "1730000123456" in
  let orderId := "1730000124245" in
  let total := cart_total cart_121 in
  let cartText := default "" (formatCart (VArr cart_121) false) in
  outbox paid_online =
    outbox at_payment ++
    [ (phone, mpMessage cartText total (generateMercadoPagoLink total linkId "Ana") linkId);
      (phone, confirmMessage cart_121 total orderId (VStr "pickup") (VStr "") "mercadopago") ]
  /\ generateMercadoPagoLink total linkId "Ana"
     = "https://mpago.la/2Qx8y9z?amount=7300&concept=Pedido-123456"
  /\ (processOrder phone "Ana" (VArr cart_121) (VStr "pickup") (VStr "") "mercadopago"
        (after_link phone "Ana" cartText cart_121 at_payment)).2 = Some orderId
  /\ slice_last 6 linkId = "123456"
  /\ slice_last 6 orderId = "124245".
Proof. repeat split; reflexivity. Qed.

(** C5, evaluated: the receipt picture for the online order of
    [paid_online]. The confirmation text is sent and the state becomes
    MAIN_MENU, but the marker lands in column K of the order's row: the
    payment status (column I) still reads Pendiente and the status
    (column J) NUEVO. *)
Theorem receipt_leaves_payment_status :
  let w' := (webhook (sends_image Absent) paid_online).1 in
  state_of paid_online phone = PAYMENT_CONFIRMATION
  /\ listed_paymentStatus <$> pedidos paid_online !! 1 = Some (CStr "Pendiente")
  /\ state_of w' phone = MAIN_MENU
  /\ last (outbox w') = Some (phone, receiptMessage)
  /\ listed_paymentStatus <$> pedidos w' !! 1 = Some (CStr "Pendiente")
  /\ listed_status <$> pedidos w' !! 1 = Some (CStr "NUEVO")
  /\ (pedidos w' !! 1) ≫= (fun row => row !! column_K) = Some (CStr "PAGO_RECIBIDO").
Proof. repeat split; reflexivity. Qed.

(** C7, evaluated: the admin sets the order of [paid_online] to PREPARANDO.
    [updateOrderStatus] finds the row and returns [true], the endpoint
    answers with success and notifies the customer, but the status of the
    row, as the order list reads it from column J, is still NUEVO: the new
    value was written to column K. *)
Theorem status_update_leaves_status :
  let r := setOrderStatus "+5491155550000" "PREPARANDO" paid_online in
  (updateOrderStatus phone "PREPARANDO" paid_online).2 = Some true
  /\ r.2 = Some Success200
  /\ last (outbox r.1) = Some (phone, notificationMessage "PREPARANDO")
  /\ listed_status <$> pedidos paid_online !! 1 = Some (CStr "NUEVO")
  /\ listed_status <$> pedidos r.1 !! 1 = Some (CStr "NUEVO")
  /\ (pedidos r.1 !! 1) ≫= (fun row => row !! column_K) = Some (CStr "PREPARANDO").
Proof. repeat split; reflexivity. Qed.

(** X1, instance: the first customer empties the cart; the second
    customer's cart and state are as before. *)
Lemma isolates_sessions_witness :
  (own_key (From (says "limpiar")) phone2 = false /\ phone2 <> From (says "limpiar")) /\
  (userCarts (webhook (says "limpiar") two_sessions).1 !! phone2
     = userCarts two_sessions !! phone2 /\
   userStates (webhook (says "limpiar") two_sessions).1 !! phone2
     = userStates two_sessions !! phone2).
Proof.
  assert (Hne : phone2 <> From (says "limpiar")) by (intros H; discriminate H).
  split; [split; [reflexivity | exact Hne]|].
  apply (webhook_isolates_sessions (says "limpiar") two_sessions phone2 phone2);
    [reflexivity | exact Hne].
Defined.

(** X3, instance: the receipt picture leaves the header row alone. *)
Lemma keeps_rows_witness :
  pedidos paid_online !! 0 = Some pedidos_header /\
  exists row',
    pedidos (webhook (sends_image Absent) paid_online).1 !! 0 = Some row' /\
    length pedidos_header <= length row' /\
    forall k, k < length pedidos_header -> k <> column_K -> row' !! k = pedidos_header !! k.
Proof.
  split; [reflexivity|].
  apply (webhook_keeps_rows (sends_image Absent) paid_online 0 pedidos_header).
  reflexivity.
Defined.

(** X4, instance: a greeting, first thing after the process started. *)
Lemma always_replies_witness :
  message_of (Body (says "Hola")) = Some "hola" /\
  length (outbox start) < length (outbox (webhook (says "Hola") start).1).
Proof.
  split; [reflexivity|].
  apply (webhook_always_replies (says "Hola") start "hola"). reflexivity.
Defined.

(** X5, instance: [carrito] in [at_payment]. *)
Lemma no_exception_witness :
  (message_of (Body (says "carrito")) = Some "carrito" /\
   cart_of at_payment (From (says "carrito")) = VArr cart_121) /\
  webhook (says "carrito") at_payment =
    ((dispatch (says "carrito") "carrito" (From (says "carrito")) (name_of (says "carrito"))
        (state_of at_payment (From (says "carrito"))) (VArr cart_121) at_payment).1,
     Ack200).
Proof.
  split; [split; reflexivity|].
  apply (array_cart_no_exception (says "carrito") at_payment "carrito" cart_121);
    reflexivity.
Defined.

(** X7, instance: [limpiar] then [carrito] in [at_payment]. *)
Lemma limpiar_then_carrito_witness :
  (message_of (Body (says "limpiar")) = Some "limpiar" /\
   message_of (Body (says "carrito")) = Some "carrito" /\
   From (says "carrito") = From (says "limpiar") /\
   receipt_event (says "limpiar") at_payment = false) /\
  let w1 :=
    with_userStates (insert (From (says "limpiar")) MAIN_MENU)
      (reply (From (says "limpiar")) clearedMessage
         (with_userCarts (insert (From (says "limpiar")) (VArr [])) at_payment)) in
  webhook (says "limpiar") at_payment = (w1, Ack200) /\
  webhook (says "carrito") w1 = (reply (From (says "limpiar")) emptyCartText w1, Ack200).
Proof.
  split; [repeat split; reflexivity|].
  apply (limpiar_then_carrito (says "limpiar") (says "carrito") at_payment); reflexivity.
Defined.

(** X8, instance: [cancelar] in [at_payment]. *)
Lemma cancelar_witness :
  (message_of (Body (says "cancelar")) = Some "cancelar" /\
   receipt_event (says "cancelar") at_payment = false) /\
  webhook (says "cancelar") at_payment =
    (if 0 <? val_length (cart_of at_payment (From (says "cancelar")))
     then reply (From (says "cancelar")) cancelledMessage
            (with_userStates (insert (From (says "cancelar")) MAIN_MENU)
               (with_userCarts (insert (From (says "cancelar")) (VArr [])) at_payment))
     else reply (From (says "cancelar")) nothingToCancelMessage at_payment,
     Ack200).
Proof.
  split; [split; reflexivity|].
  apply (cancelar_clears_or_reports (says "cancelar") at_payment); reflexivity.
Defined.

(** X9, instance: [finalizar] once the cart is filled. *)
Lemma finalizar_asks_delivery_witness :
  (message_of (Body (says "finalizar")) = Some "finalizar" /\
   receipt_event (says "finalizar") with_cart = false /\
   cart_of with_cart (From (says "finalizar")) = VArr cart_121) /\
  exists cartText,
    formatCart (VArr cart_121) false = Some cartText /\
    webhook (says "finalizar") with_cart =
      (with_userStates (insert (From (says "finalizar")) DELIVERY_INFO)
         (reply (From (says "finalizar")) (summaryMessage cartText) with_cart),
       Ack200).
Proof.
  split; [repeat split; reflexivity|].
  apply (finalizar_asks_delivery (says "finalizar") with_cart
           {| product := empanada; quantity := 2 |}
           [ {| product := milanesa; quantity := 1 |} ]); reflexivity.
Defined.

(** X10, instance: the menu asked for in capitals, accent included. *)
Lemma menu_witness :
  (message_of (Body (says "MENÚ")) = Some "menú" /\
   ("menú" = "menu" \/ "menú" = "menú") /\
   receipt_event (says "MENÚ") start = false /\
   cart_of start (From (says "MENÚ")) = VArr []) /\
  exists cartText,
    formatCart (VArr []) true = Some cartText /\
    webhook (says "MENÚ") start =
      (with_userStates (insert (From (says "MENÚ")) BROWSING_PRODUCTS)
         (reply (From (says "MENÚ"))
            (text [ formatMenuWithButtons (menu_of (menuReply start)); LF; LF; cartText ])
            start),
       Ack200).
Proof.
  split; [repeat split; solve [reflexivity | right; reflexivity]|].
  apply (menu_shows_catalog_and_cart (says "MENÚ") start "menú" []);
    solve [reflexivity | right; reflexivity].
Defined.

(** X11, instance: the number 3 when the delivery type is asked. *)
Lemma delivery_choice_invalid_witness :
  (message_of (Body (says "3")) = Some "3" /\
   state_of at_delivery (From (says "3")) = DELIVERY_INFO /\
   is_command "3" = false /\ "3" <> "1" /\ "3" <> "2") /\
  webhook (says "3") at_delivery =
    (reply (From (says "3")) invalidDeliveryMessage at_delivery, Ack200).
Proof.
  assert (H1 : "3" <> "1") by (intros H; discriminate H).
  assert (H2 : "3" <> "2") by (intros H; discriminate H).
  split; [repeat split; solve [reflexivity | assumption]|].
  apply (delivery_choice_invalid (says "3") at_delivery "3");
    solve [reflexivity | assumption].
Defined.

(** X12, instance: pickup chosen in [at_delivery]. *)
Lemma delivery_choice_pickup_witness :
  (message_of (Body (says "2")) = Some "2" /\
   state_of at_delivery (From (says "2")) = DELIVERY_INFO /\
   cart_of at_delivery (From (says "2")) = VArr cart_121) /\
  exists cartText,
    formatCart (VArr cart_121) false = Some cartText /\
    webhook (says "2") at_delivery =
      (with_userStates (insert (From (says "2")) PAYMENT_METHOD)
         (reply (From (says "2")) (pickupPaymentMessage cartText)
            (with_userCarts (insert (From (says "2") +:+ "_delivery") (VStr "pickup"))
               at_delivery)),
       Ack200).
Proof.
  split; [repeat split; reflexivity|].
  apply (delivery_choice_pickup (says "2") at_delivery cart_121); reflexivity.
Defined.

(** X13, instance: the number 3 when the payment method is asked. *)
Lemma payment_choice_invalid_witness :
  (message_of (Body (says "3")) = Some "3" /\
   state_of at_payment (From (says "3")) = PAYMENT_METHOD /\
   address_awaited at_payment (From (says "3")) = false /\
   is_command "3" = false /\ "3" <> "1" /\ "3" <> "2") /\
  webhook (says "3") at_payment =
    (reply (From (says "3")) invalidPaymentMessage at_payment, Ack200).
Proof.
  assert (H1 : "3" <> "1") by (intros H; discriminate H).
  assert (H2 : "3" <> "2") by (intros H; discriminate H).
  split; [repeat split; solve [reflexivity | assumption]|].
  apply (payment_choice_invalid (says "3") at_payment "3");
    solve [reflexivity | assumption].
Defined.

(** X14, instance: delivery chosen in [with_old_address]. *)
Lemma old_address_witness :
  (message_of (Body (says "1")) = Some "1" /\
   state_of with_old_address (From (says "1")) = DELIVERY_INFO /\
   userCarts with_old_address !! (From (says "1") +:+ "_address")
     = Some (VStr "av. corrientes 1234") /\
   val_truthy (VStr "av. corrientes 1234") = true) /\
  (address_awaited (webhook (says "1") with_old_address).1 (From (says "1")) = false /\
   pending_address (webhook (says "1") with_old_address).1 (From (says "1"))
     = VStr "av. corrientes 1234" /\
   state_of (webhook (says "1") with_old_address).1 (From (says "1")) = PAYMENT_METHOD).
Proof.
  split; [repeat split; reflexivity|].
  apply (delivery_choice_keeps_old_address (says "1") with_old_address
           (VStr "av. corrientes 1234")); reflexivity.
Defined.

(** X15, instance: [cancelar] once the address was given. *)
Lemma commands_keep_pending_witness :
  (message_of (Body (says "cancelar")) = Some "cancelar" /\
   is_command "cancelar" = true)
  /\
  (userCarts (webhook (says "cancelar") (after [ says "Av. Corrientes 1234" ] at_address)).1
     !! (From (says "cancelar") +:+ "_delivery")
   = userCarts (after [ says "Av. Corrientes 1234" ] at_address)
       !! (From (says "cancelar") +:+ "_delivery") /\
   userCarts (webhook (says "cancelar") (after [ says "Av. Corrientes 1234" ] at_address)).1
     !! (From (says "cancelar") +:+ "_address")
   = userCarts (after [ says "Av. Corrientes 1234" ] at_address)
       !! (From (says "cancelar") +:+ "_address")).
Proof.
  split; [repeat split; reflexivity|].
  apply (commands_keep_pending (says "cancelar")
           (after [ says "Av. Corrientes 1234" ] at_address) "cancelar"); reflexivity.
Defined.

(** X16, instance: the cash order of [at_payment] while the store rejects
    appends. *)
Lemma store_failure_witness :
  pedidosAppend append_down = false /\
  let orderId := Z_toString (now append_down (ticks append_down)) in
  let r := processOrder phone "Ana" (VArr cart_121) (VStr "pickup") (VStr "") "efectivo"
             append_down in
  r.2 = Some orderId /\
  pedidos r.1 = pedidos append_down /\
  cart_of r.1 phone = VArr [] /\
  state_of r.1 phone = MAIN_MENU /\
  outbox r.1 = outbox append_down ++
    [(phone, confirmMessage cart_121 (cart_total cart_121) orderId (VStr "pickup") (VStr "")
               "efectivo")].
Proof.
  split; [reflexivity|].
  apply (processOrder_survives_store_failure phone "Ana" cart_121 (VStr "pickup") (VStr "")
           "efectivo" append_down). reflexivity.
Defined.

(** X17, instance: the cash order of [at_payment]. *)
Lemma appends_row_witness :
  pedidosAppend at_payment = true /\
  exists row,
    pedidos (processOrder phone "Ana" (VArr cart_121) (VStr "pickup") (VStr "") "efectivo"
               at_payment).1
      = pedidos at_payment ++ [row] /\
    length row = 10 /\
    row !! 1 = Some (CStr phone) /\
    row !! 4 = Some (CNum (cart_total cart_121)) /\
    row !! 5 = Some (cell_of_val (VStr "pickup")) /\
    listed_paymentStatus row =
      CStr (if String.eqb "efectivo" "efectivo" then "Confirmado" else "Pendiente") /\
    listed_status row = CStr "NUEVO".
Proof.
  split; [reflexivity|].
  apply (processOrder_appends_row phone "Ana" cart_121 (VStr "pickup") (VStr "") "efectivo"
           at_payment). reflexivity.
Defined.


(** X20, instance: numbers sent while the catalog cannot be read. *)
Lemma nothing_found_witness :
  (message_of (Body (says "1,2")) = Some "1,2" /\
   test_selection "1,2" = true /\
   receipt_event (says "1,2") catalog_down = false /\
   state_of catalog_down (From (says "1,2")) <> DELIVERY_INFO /\
   state_of catalog_down (From (says "1,2")) <> PAYMENT_METHOD /\
   cart_of catalog_down (From (says "1,2")) = VArr [] /\
   Forall (fun n => find_product (menu_of (menuReply catalog_down)) n = None)
     (parse_selection "1,2")) /\
  exists cartText,
    formatCart (VArr []) true = Some cartText /\
    webhook (says "1,2") catalog_down =
      (after_selection (From (says "1,2")) cartText
         {| sel_cart := VArr []; addedProducts := [];
            notFoundProducts := map Number_toString (parse_selection "1,2") |} catalog_down,
       Ack200).
Proof.
  assert (Hstate : state_of catalog_down (From (says "1,2")) = MAIN_MENU) by reflexivity.
  assert (Hd : state_of catalog_down (From (says "1,2")) <> DELIVERY_INFO)
    by (rewrite Hstate; discriminate).
  assert (Hp : state_of catalog_down (From (says "1,2")) <> PAYMENT_METHOD)
    by (rewrite Hstate; discriminate).
  assert (Hnone : Forall (fun n => find_product (menu_of (menuReply catalog_down)) n = None)
                    (parse_selection "1,2")).
  { apply Forall_forall. intros n _. reflexivity. }
  split; [repeat split; solve [reflexivity | assumption]|].
  apply (selection_nothing_found (says "1,2") catalog_down "1,2" []);
    solve [reflexivity | assumption].
Defined.

Lemma at_payment_reachable : reachable at_payment.
Proof.
  change at_payment
    with (webhook (says "2") (webhook (says "finalizar") (webhook (says "1,2,1") start).1).1).1.
  repeat apply reach_webhook. apply reach_start; reflexivity.
Qed.

(** X21, instance: the first line of the cart of [at_payment]. *)
Lemma lines_available_witness :
  (reachable at_payment /\
   userCarts at_payment !! phone = Some (VArr cart_121) /\
   In {| product := empanada; quantity := 2 |} cart_121) /\
  (1 <= quantity {| product := empanada; quantity := 2 |} /\
   available (product {| product := empanada; quantity := 2 |}) = true).
Proof.
  assert (Hin : In {| product := empanada; quantity := 2 |} cart_121)
    by (left; reflexivity).
  split; [split; [exact at_payment_reachable | split; [reflexivity | exact Hin]]|].
  apply (reachable_lines_available at_payment phone cart_121
           {| product := empanada; quantity := 2 |});
    [exact at_payment_reachable | reflexivity | exact Hin].
Defined.

(** X22, instance: the cart of the customer in
    [at_payment]. *)
Lemma cart_is_array_witness :
  (reachable at_payment /\ side_key phone = false) /\
  exists l, cart_of at_payment phone = VArr l /\ NoDup (ids l).
Proof.
  split; [split; [exact at_payment_reachable | reflexivity]|].
  apply (reachable_cart_is_array at_payment phone);
    [exact at_payment_reachable | reflexivity].
Defined.

(** X24, instance: the order of [paid_online] set to LISTO. *)
Lemma most_recent_witness :
  (updateOrderStatus phone "LISTO" paid_online).2 = Some true /\
  exists i,
    1 <= i < length (pedidos paid_online) /\
    row_phone_is (pedidos paid_online !! i) phone = true /\
    (forall j, i < j < length (pedidos paid_online) ->
               row_phone_is (pedidos paid_online !! j) phone = false) /\
    pedidos (updateOrderStatus phone "LISTO" paid_online).1
      = alter (set_cell column_K (CStr "LISTO")) i (pedidos paid_online) /\
    (forall j, j <> i ->
       pedidos (updateOrderStatus phone "LISTO" paid_online).1 !! j
       = pedidos paid_online !! j).
Proof.
  split; [reflexivity|].
  apply (updateOrderStatus_most_recent phone "LISTO" paid_online). reflexivity.
Defined.

(** X25, instance: the admin sets the order of [paid_online] to LISTO. *)
Lemma notifies_witness :
  (updateOrderStatus (text [ "whatsapp:"; "+5491155550000" ]) "LISTO" paid_online).2
    = Some true /\
  let w' := (updateOrderStatus (text [ "whatsapp:"; "+5491155550000" ]) "LISTO"
               paid_online).1 in
  setOrderStatus "+5491155550000" "LISTO" paid_online =
    (if bool_decide ("LISTO" ∈ notified_statuses)
     then reply (text [ "whatsapp:"; "+5491155550000" ]) (notificationMessage "LISTO") w'
     else w',
     Some Success200).
Proof.
  split; [reflexivity|].
  apply (setOrderStatus_notifies "+5491155550000" "LISTO" paid_online). reflexivity.
Defined.

(** X26, instance: the same request while the sheet cannot be read. *)
Lemma store_down_witness :
  (pedidosGet sheet_down = false \/ pedidosUpdate sheet_down = false) /\
  setOrderStatus "+5491155550000" "LISTO" sheet_down = (sheet_down, Some NotFound404).
Proof.
  split; [left; reflexivity|].
  apply (setOrderStatus_store_failure "+5491155550000" "LISTO" sheet_down).
  left; reflexivity.
Defined.

(** X27, instance: a row typed in by hand, with text for items. *)
Lemma one_bad_row_witness :
  (pedidosGet with_hand_row = true /\ 1 <= 1 /\
   pedidos with_hand_row !! 1 = Some hand_row /\
   JSON_parse (cell_or (hand_row !! 3) "[]") = None) /\
  (listOrders with_hand_row).2 = Some ListError500.
Proof.
  split; [repeat split; solve [reflexivity | lia]|].
  apply (listOrders_one_bad_row with_hand_row 1 hand_row); solve [reflexivity | lia].
Defined.

(** X28, instance: the list in [paid_online] and the row of the order. *)
Lemma follows_sheet_witness :
  ((listOrders paid_online).2 = Some (OrdersJson listed_orders) /\
   1 <= 1 /\ pedidos paid_online !! 1 = Some online_row) /\
  (length listed_orders = length (pedidos paid_online) - 1 /\
   exists order,
     listed_orders !! (1 - 1) = Some order /\
     ov_rowIndex order = 1 + 1 /\
     ov_phone order = online_row !! 1 /\
     ov_paymentStatus order = listed_paymentStatus online_row /\
     ov_status order = listed_status online_row).
Proof.
  split; [repeat split; solve [reflexivity | lia]|].
  apply (listOrders_follows_sheet paid_online listed_orders 1 online_row);
    solve [reflexivity | lia].
Defined.

(** X29, instance: the order of [paid_online] set to LISTO, then listed. *)
Lemma blind_to_update_witness :
  Forall (fun row => 10 <= length row) (pedidos paid_online) /\
  (listOrders (updateOrderStatus phone "LISTO" paid_online).1).2
    = (listOrders paid_online).2.
Proof.
  assert (Hall : Forall (fun row => 10 <= length row) (pedidos paid_online)).
  { apply Forall_forall. intros row Hin. apply list_elem_of_In in Hin.
    assert (Hb : forallb (fun row => 10 <=? length row) (pedidos paid_online) = true)
      by reflexivity.
    rewrite forallb_forall in Hb. apply Nat.leb_le, Hb, Hin. }
  split; [exact Hall|].
  apply (listOrders_blind_to_status_update phone "LISTO" paid_online). exact Hall.
Defined.

(** *** The built-ins at the edges

    White space is all of JavaScript's: a choice or a number padded with a
    no-break space is read like the bare one. *)
Example padded_choice_is_read :
  message_of (Body (says (NBSP +:+ "Menu" +:+ NBSP))) = Some "menu" /\
  message_of (Body (says ("1" +:+ NBSP))) = Some "1" /\
  test_selection ("1," +:+ NBSP +:+ "2") = true /\
  parse_selection ("1," +:+ NBSP +:+ "2") = [1%Z; 2%Z].
Proof. repeat split; reflexivity. Qed.

(** Numbers are doubles: from 2^53 on [parseInt] rounds, and [toString]
    prints the shortest decimal that reads back as the same number. *)
Example long_numbers_are_rounded :
  map Number_toString
    (parse_selection "9007199254740993 1152921504606846976 1000000000000000000000")
  = [ "9007199254740992"; "1152921504606847000"; "1e+21" ].
Proof. reflexivity. Qed.

End Runs.
